(** * Stroke-outcome data preparation: cleaning, cohort reformatting, k-fold split

    A shallow embedding of the three notebooks of the data-preparation
    pipeline (01_clean_raw_data, 02_reformat_data_ml, 03 create k-fold data
    sets) and the properties of them that the specification states.

    Tables are lists of rows, a row is a record of the columns the notebooks
    read or write.  A numeric column is float64 in pandas as soon as it holds
    a missing value; the minute counts, scores and 0/1 markers stored there
    are integral, so a numeric cell is [option Z] with [None] for NaN.  A
    categorical (object) cell is [option string]. *)

From Stdlib Require Import ZArith List String Ascii Bool Lia.
From Stdlib Require Import DecimalString DecimalPos DecimalZ.
From Stdlib Require Import QArith.
From stdpp Require Import base numbers option list strings sorting gmap.

Open Scope Z_scope.

(* ================================================================== *)
(** * Part I: definitions *)
(* ================================================================== *)

(** ** The fragment of pandas / numpy the notebooks rely on *)

Module Pandas.

(** A float64 cell with integral content; [None] is NaN. *)
Definition cell : Type := option Z.

Definition nan : cell := None.

Definition isnull (c : cell) : bool :=
  match c with None => true | Some _ => false end.

Definition notnull (c : cell) : bool := negb (isnull c).

(** Comparisons of a column with a scalar.  Every ordered comparison and
    [==] with NaN is False; [!=] with NaN is True. *)
Definition cmp (op : Z -> Z -> bool) (c : cell) (z : Z) : bool :=
  match c with Some v => op v z | None => false end.

Definition cell_ge (c : cell) (z : Z) : bool := cmp Z.geb c z.
Definition cell_gt (c : cell) (z : Z) : bool := cmp Z.gtb c z.
Definition cell_le (c : cell) (z : Z) : bool := cmp Z.leb c z.
Definition cell_lt (c : cell) (z : Z) : bool := cmp Z.ltb c z.
Definition cell_eq (c : cell) (z : Z) : bool := cmp Z.eqb c z.
Definition cell_ne (c : cell) (z : Z) : bool := negb (cell_eq c z).

(** Arithmetic propagates NaN. *)
Definition add (a b : cell) : cell :=
  match a, b with Some x, Some y => Some (x + y) | _, _ => None end.

Definition sub (a b : cell) : cell :=
  match a, b with Some x, Some y => Some (x - y) | _, _ => None end.

(** Row-wise [min(axis=1)] and [max(axis=1)]: missing values are skipped
    (skipna is on by default); the result is NaN only when every value of
    the row is missing. *)
Definition skipna_fold (op : Z -> Z -> Z) (row : list cell) : cell :=
  foldr (fun c acc =>
           match c, acc with
           | Some v, Some w => Some (op v w)
           | Some v, None => Some v
           | None, _ => acc
           end) None row.

Definition row_min (row : list cell) : cell := skipna_fold Z.min row.
Definition row_max (row : list cell) : cell := skipna_fold Z.max row.

(** [sum()] of a column, as [groupby(...).sum()] computes it: missing
    values count for nothing. *)
Definition col_sum (col : list cell) : Z :=
  foldr (fun c acc => match c with Some v => v + acc | None => acc end) 0 col.

(** A Python dict used with [Series.map]: its entries under proper keys
    and, separately, what it holds under the key [np.nan] ([None] when the
    key is absent or when it maps to NaN, which [map] does not tell
    apart). *)
Record dict (K V : Type) `{Countable K} : Type :=
  Dict { entries : gmap K V; nan_entry : option V }.
Arguments Dict {K V _ _} entries nan_entry.
Arguments entries {K V _ _} d.
Arguments nan_entry {K V _ _} d.

(** [Series.map(d)] on one cell: a value that is no key of [d] becomes
    NaN. *)
Definition series_map {K V : Type} `{Countable K}
    (d : dict K V) (x : option K) : option V :=
  match x with
  | Some k => entries d !! k
  | None => nan_entry d
  end.

(** [data[mask]]: the rows at which the boolean mask is True, in order. *)
Fixpoint boolean_index {A : Type} (data : list A) (mask : list bool) : list A :=
  match data, mask with
  | r :: data', b :: mask' =>
      if b then r :: boolean_index data' mask' else boolean_index data' mask'
  | _, _ => []
  end.

(** [str.isspace] restricted to the ASCII range. *)
Definition is_space (c : ascii) : bool :=
  let n := nat_of_ascii c in
  ((9 <=? n)%nat && (n <=? 13)%nat) || ((28 <=? n)%nat && (n <=? 32)%nat).

Fixpoint lstrip (s : string) : string :=
  match s with
  | EmptyString => EmptyString
  | String c s' => if is_space c then lstrip s' else s
  end.

Fixpoint rstrip (s : string) : string :=
  match s with
  | EmptyString => EmptyString
  | String c s' =>
      match rstrip s' with
      | EmptyString => if is_space c then EmptyString else String c EmptyString
      | t => String c t
      end
  end.

Definition strip (s : string) : string := lstrip (rstrip s).

(** [DataFrame.idxmax(axis=1)] on one row: the position of the first
    column that holds the maximum of the row, missing values skipped, with
    that maximum; NaN when every value of the row is missing. *)
Fixpoint idxmax (row : list cell) : option (nat * Z) :=
  match row with
  | [] => None
  | c :: row' =>
      match c, idxmax row' with
      | Some v, Some (j, w) => if w <=? v then Some (O, v) else Some (S j, w)
      | Some v, None => Some (O, v)
      | None, Some (j, w) => Some (S j, w)
      | None, None => None
      end
  end.

End Pandas.

Import Pandas.

(* ------------------------------------------------------------------ *)
(** ** 01_clean_raw_data: the Cleaner *)
(* ------------------------------------------------------------------ *)

Module Cleaner.

(** One row of the raw extract, with the columns the notebook reads.  The
    age bands and the calendar columns of the arrival are left out: the
    notebook carries them to their own output columns and no other column
    depends on them.  The fifteen [S2NihssArrival...] columns and the ten
    [S2ThrombolysisNoBut...] columns are kept as the notebook handles
    them, as lists ([nihss] and [no_thrombolysis]) in the order of the
    column-name lists. *)
Record RawRecord : Type := {
  PatientId : Z;
  TeamName : string;
  S1Gender : option string;
  S2StrokeType : option string;
  OnsettoArrivalMinutes : cell;
  S1OnsetTimeType : option string;
  S1OnsetDateType : option string;
  S1ArriveByAmbulance : option string;
  CallConnectedtoArrivalMinutes : cell;
  ArrivalPatientLocationtoArrivalMinutes : cell;
  DeparturePatientLocationtoArrivalMinutes : cell;
  WheelsStoptoArrivalMinutes : cell;
  ArrivaltoBrainImagingMinutes : cell;
  S2Thrombolysis : option string;
  ArrivaltoThrombolysisMinutes : cell;
  ArrivaltoArterialPunctureMinutes : cell;
  S2CoMCongestiveHeartFailure : option string;
  S2CoMHypertension : option string;
  S2CoMAtrialFibrillation : option string;
  S2CoMDiabetes : option string;
  S2CoMStrokeTIA : option string;
  S2CoMAFAntiplatelet : option string;
  S2CoMAFAnticoagulent : option string;
  S2CoMAFAnticoagulentVitK : cell;
  S2CoMAFAnticoagulentDOAC : cell;
  S2CoMAFAnticoagulentHeparin : cell;
  S2NewAFDiagnosis : option string;
  S2RankinBeforeStroke : cell;
  S2NihssArrival : cell;
  nihss : list cell;
  S7DischargeType : option string;
  ArrivalToDeathDays : cell;
  S7RankinDischarge : cell;
  S8Rankin6Month : cell;
  S2ThrombolysisNoReason : option string;
  no_thrombolysis : list cell
}.

Record CleanRecord : Type := {
  id : Z;
  stroke_team : string;
  male : cell;
  infarction : cell;
  onset_to_arrival_time : cell;
  onset_known : cell;
  precise_onset_known : cell;
  onset_during_sleep : cell;
  arrive_by_ambulance : cell;
  call_to_ambulance_arrival_time : cell;
  ambulance_on_scene_time : cell;
  ambulance_travel_to_hospital_time : cell;
  ambulance_wait_time_at_hospital : cell;
  arrival_to_scan_time : cell;
  thrombolysis : cell;
  scan_to_thrombolysis_time : cell;
  thrombectomy : cell;
  arrival_to_thrombectomy_time : cell;
  congestive_heart_failure : cell;
  hypertension : cell;
  atrial_fibrillation : cell;
  diabetes : cell;
  prior_stroke_tia : cell;
  afib_antiplatelet : cell;
  afib_anticoagulant : cell;
  afib_vit_k_anticoagulant : cell;
  afib_doac_anticoagulant : cell;
  afib_heparin_anticoagulant : cell;
  new_afib_diagnosis : cell;
  any_afib_diagnosis : cell;
  prior_disability : cell;
  stroke_severity : cell;
  nihss_complete : cell;
  nihss_arrival : list cell;
  discharge_destination : option string;
  death : cell;
  discharge_disability : cell;
  disability_6_month : cell;
  thrombolysis_no_not_available : cell;
  thrombolysis_no_out_of_hours : cell;
  thrombolysis_no_scan_not_quick_enough : cell;
  thrombolysis_no_no_reason : cell;
  thrombolysis_no_but : list cell
}.

(** [cleaned_data.loc[b, amb_col] = np.nan] on one row. *)
Definition nan_amb_col (b : bool) (r : CleanRecord) : CleanRecord :=
  {|
    id := id r;
    stroke_team := stroke_team r;
    male := male r;
    infarction := infarction r;
    onset_to_arrival_time := onset_to_arrival_time r;
    onset_known := onset_known r;
    precise_onset_known := precise_onset_known r;
    onset_during_sleep := onset_during_sleep r;
    arrive_by_ambulance := arrive_by_ambulance r;
    call_to_ambulance_arrival_time := (if b then None else call_to_ambulance_arrival_time r);
    ambulance_on_scene_time := (if b then None else ambulance_on_scene_time r);
    ambulance_travel_to_hospital_time := (if b then None else ambulance_travel_to_hospital_time r);
    ambulance_wait_time_at_hospital := (if b then None else ambulance_wait_time_at_hospital r);
    arrival_to_scan_time := arrival_to_scan_time r;
    thrombolysis := thrombolysis r;
    scan_to_thrombolysis_time := scan_to_thrombolysis_time r;
    thrombectomy := thrombectomy r;
    arrival_to_thrombectomy_time := arrival_to_thrombectomy_time r;
    congestive_heart_failure := congestive_heart_failure r;
    hypertension := hypertension r;
    atrial_fibrillation := atrial_fibrillation r;
    diabetes := diabetes r;
    prior_stroke_tia := prior_stroke_tia r;
    afib_antiplatelet := afib_antiplatelet r;
    afib_anticoagulant := afib_anticoagulant r;
    afib_vit_k_anticoagulant := afib_vit_k_anticoagulant r;
    afib_doac_anticoagulant := afib_doac_anticoagulant r;
    afib_heparin_anticoagulant := afib_heparin_anticoagulant r;
    new_afib_diagnosis := new_afib_diagnosis r;
    any_afib_diagnosis := any_afib_diagnosis r;
    prior_disability := prior_disability r;
    stroke_severity := stroke_severity r;
    nihss_complete := nihss_complete r;
    nihss_arrival := nihss_arrival r;
    discharge_destination := discharge_destination r;
    death := death r;
    discharge_disability := discharge_disability r;
    disability_6_month := disability_6_month r;
    thrombolysis_no_not_available := thrombolysis_no_not_available r;
    thrombolysis_no_out_of_hours := thrombolysis_no_out_of_hours r;
    thrombolysis_no_scan_not_quick_enough := thrombolysis_no_scan_not_quick_enough r;
    thrombolysis_no_no_reason := thrombolysis_no_no_reason r;
    thrombolysis_no_but := thrombolysis_no_but r
  |}.

(** [cleaned_data.loc[b, amb_col + ['arrive_by_ambulance']] = np.nan] on one row. *)
Definition nan_amb_col_and_arrive (b : bool) (r : CleanRecord) : CleanRecord :=
  {|
    id := id r;
    stroke_team := stroke_team r;
    male := male r;
    infarction := infarction r;
    onset_to_arrival_time := onset_to_arrival_time r;
    onset_known := onset_known r;
    precise_onset_known := precise_onset_known r;
    onset_during_sleep := onset_during_sleep r;
    arrive_by_ambulance := (if b then None else arrive_by_ambulance r);
    call_to_ambulance_arrival_time := (if b then None else call_to_ambulance_arrival_time r);
    ambulance_on_scene_time := (if b then None else ambulance_on_scene_time r);
    ambulance_travel_to_hospital_time := (if b then None else ambulance_travel_to_hospital_time r);
    ambulance_wait_time_at_hospital := (if b then None else ambulance_wait_time_at_hospital r);
    arrival_to_scan_time := arrival_to_scan_time r;
    thrombolysis := thrombolysis r;
    scan_to_thrombolysis_time := scan_to_thrombolysis_time r;
    thrombectomy := thrombectomy r;
    arrival_to_thrombectomy_time := arrival_to_thrombectomy_time r;
    congestive_heart_failure := congestive_heart_failure r;
    hypertension := hypertension r;
    atrial_fibrillation := atrial_fibrillation r;
    diabetes := diabetes r;
    prior_stroke_tia := prior_stroke_tia r;
    afib_antiplatelet := afib_antiplatelet r;
    afib_anticoagulant := afib_anticoagulant r;
    afib_vit_k_anticoagulant := afib_vit_k_anticoagulant r;
    afib_doac_anticoagulant := afib_doac_anticoagulant r;
    afib_heparin_anticoagulant := afib_heparin_anticoagulant r;
    new_afib_diagnosis := new_afib_diagnosis r;
    any_afib_diagnosis := any_afib_diagnosis r;
    prior_disability := prior_disability r;
    stroke_severity := stroke_severity r;
    nihss_complete := nihss_complete r;
    nihss_arrival := nihss_arrival r;
    discharge_destination := discharge_destination r;
    death := death r;
    discharge_disability := discharge_disability r;
    disability_6_month := disability_6_month r;
    thrombolysis_no_not_available := thrombolysis_no_not_available r;
    thrombolysis_no_out_of_hours := thrombolysis_no_out_of_hours r;
    thrombolysis_no_scan_not_quick_enough := thrombolysis_no_scan_not_quick_enough r;
    thrombolysis_no_no_reason := thrombolysis_no_no_reason r;
    thrombolysis_no_but := thrombolysis_no_but r
  |}.

(** [cleaned_data.loc[b, 'onset_to_arrival_time'] = np.nan] on one row. *)
Definition nan_onset_to_arrival_time (b : bool) (r : CleanRecord) : CleanRecord :=
  {|
    id := id r;
    stroke_team := stroke_team r;
    male := male r;
    infarction := infarction r;
    onset_to_arrival_time := (if b then None else onset_to_arrival_time r);
    onset_known := onset_known r;
    precise_onset_known := precise_onset_known r;
    onset_during_sleep := onset_during_sleep r;
    arrive_by_ambulance := arrive_by_ambulance r;
    call_to_ambulance_arrival_time := call_to_ambulance_arrival_time r;
    ambulance_on_scene_time := ambulance_on_scene_time r;
    ambulance_travel_to_hospital_time := ambulance_travel_to_hospital_time r;
    ambulance_wait_time_at_hospital := ambulance_wait_time_at_hospital r;
    arrival_to_scan_time := arrival_to_scan_time r;
    thrombolysis := thrombolysis r;
    scan_to_thrombolysis_time := scan_to_thrombolysis_time r;
    thrombectomy := thrombectomy r;
    arrival_to_thrombectomy_time := arrival_to_thrombectomy_time r;
    congestive_heart_failure := congestive_heart_failure r;
    hypertension := hypertension r;
    atrial_fibrillation := atrial_fibrillation r;
    diabetes := diabetes r;
    prior_stroke_tia := prior_stroke_tia r;
    afib_antiplatelet := afib_antiplatelet r;
    afib_anticoagulant := afib_anticoagulant r;
    afib_vit_k_anticoagulant := afib_vit_k_anticoagulant r;
    afib_doac_anticoagulant := afib_doac_anticoagulant r;
    afib_heparin_anticoagulant := afib_heparin_anticoagulant r;
    new_afib_diagnosis := new_afib_diagnosis r;
    any_afib_diagnosis := any_afib_diagnosis r;
    prior_disability := prior_disability r;
    stroke_severity := stroke_severity r;
    nihss_complete := nihss_complete r;
    nihss_arrival := nihss_arrival r;
    discharge_destination := discharge_destination r;
    death := death r;
    discharge_disability := discharge_disability r;
    disability_6_month := disability_6_month r;
    thrombolysis_no_not_available := thrombolysis_no_not_available r;
    thrombolysis_no_out_of_hours := thrombolysis_no_out_of_hours r;
    thrombolysis_no_scan_not_quick_enough := thrombolysis_no_scan_not_quick_enough r;
    thrombolysis_no_no_reason := thrombolysis_no_no_reason r;
    thrombolysis_no_but := thrombolysis_no_but r
  |}.

(** [cleaned_data.loc[b, [the parent and the three anticoagulant types]] = np.nan] on one row. *)
Definition nan_anticoagulant (b : bool) (r : CleanRecord) : CleanRecord :=
  {|
    id := id r;
    stroke_team := stroke_team r;
    male := male r;
    infarction := infarction r;
    onset_to_arrival_time := onset_to_arrival_time r;
    onset_known := onset_known r;
    precise_onset_known := precise_onset_known r;
    onset_during_sleep := onset_during_sleep r;
    arrive_by_ambulance := arrive_by_ambulance r;
    call_to_ambulance_arrival_time := call_to_ambulance_arrival_time r;
    ambulance_on_scene_time := ambulance_on_scene_time r;
    ambulance_travel_to_hospital_time := ambulance_travel_to_hospital_time r;
    ambulance_wait_time_at_hospital := ambulance_wait_time_at_hospital r;
    arrival_to_scan_time := arrival_to_scan_time r;
    thrombolysis := thrombolysis r;
    scan_to_thrombolysis_time := scan_to_thrombolysis_time r;
    thrombectomy := thrombectomy r;
    arrival_to_thrombectomy_time := arrival_to_thrombectomy_time r;
    congestive_heart_failure := congestive_heart_failure r;
    hypertension := hypertension r;
    atrial_fibrillation := atrial_fibrillation r;
    diabetes := diabetes r;
    prior_stroke_tia := prior_stroke_tia r;
    afib_antiplatelet := afib_antiplatelet r;
    afib_anticoagulant := (if b then None else afib_anticoagulant r);
    afib_vit_k_anticoagulant := (if b then None else afib_vit_k_anticoagulant r);
    afib_doac_anticoagulant := (if b then None else afib_doac_anticoagulant r);
    afib_heparin_anticoagulant := (if b then None else afib_heparin_anticoagulant r);
    new_afib_diagnosis := new_afib_diagnosis r;
    any_afib_diagnosis := any_afib_diagnosis r;
    prior_disability := prior_disability r;
    stroke_severity := stroke_severity r;
    nihss_complete := nihss_complete r;
    nihss_arrival := nihss_arrival r;
    discharge_destination := discharge_destination r;
    death := death r;
    discharge_disability := discharge_disability r;
    disability_6_month := disability_6_month r;
    thrombolysis_no_not_available := thrombolysis_no_not_available r;
    thrombolysis_no_out_of_hours := thrombolysis_no_out_of_hours r;
    thrombolysis_no_scan_not_quick_enough := thrombolysis_no_scan_not_quick_enough r;
    thrombolysis_no_no_reason := thrombolysis_no_no_reason r;
    thrombolysis_no_but := thrombolysis_no_but r
  |}.

(** [cleaned_data.loc[b, ['death', 'discharge_disability', 'discharge_destination']] = np.nan] on one row. *)
Definition nan_death_markers (b : bool) (r : CleanRecord) : CleanRecord :=
  {|
    id := id r;
    stroke_team := stroke_team r;
    male := male r;
    infarction := infarction r;
    onset_to_arrival_time := onset_to_arrival_time r;
    onset_known := onset_known r;
    precise_onset_known := precise_onset_known r;
    onset_during_sleep := onset_during_sleep r;
    arrive_by_ambulance := arrive_by_ambulance r;
    call_to_ambulance_arrival_time := call_to_ambulance_arrival_time r;
    ambulance_on_scene_time := ambulance_on_scene_time r;
    ambulance_travel_to_hospital_time := ambulance_travel_to_hospital_time r;
    ambulance_wait_time_at_hospital := ambulance_wait_time_at_hospital r;
    arrival_to_scan_time := arrival_to_scan_time r;
    thrombolysis := thrombolysis r;
    scan_to_thrombolysis_time := scan_to_thrombolysis_time r;
    thrombectomy := thrombectomy r;
    arrival_to_thrombectomy_time := arrival_to_thrombectomy_time r;
    congestive_heart_failure := congestive_heart_failure r;
    hypertension := hypertension r;
    atrial_fibrillation := atrial_fibrillation r;
    diabetes := diabetes r;
    prior_stroke_tia := prior_stroke_tia r;
    afib_antiplatelet := afib_antiplatelet r;
    afib_anticoagulant := afib_anticoagulant r;
    afib_vit_k_anticoagulant := afib_vit_k_anticoagulant r;
    afib_doac_anticoagulant := afib_doac_anticoagulant r;
    afib_heparin_anticoagulant := afib_heparin_anticoagulant r;
    new_afib_diagnosis := new_afib_diagnosis r;
    any_afib_diagnosis := any_afib_diagnosis r;
    prior_disability := prior_disability r;
    stroke_severity := stroke_severity r;
    nihss_complete := nihss_complete r;
    nihss_arrival := nihss_arrival r;
    discharge_destination := (if b then None else discharge_destination r);
    death := (if b then None else death r);
    discharge_disability := (if b then None else discharge_disability r);
    disability_6_month := disability_6_month r;
    thrombolysis_no_not_available := thrombolysis_no_not_available r;
    thrombolysis_no_out_of_hours := thrombolysis_no_out_of_hours r;
    thrombolysis_no_scan_not_quick_enough := thrombolysis_no_scan_not_quick_enough r;
    thrombolysis_no_no_reason := thrombolysis_no_no_reason r;
    thrombolysis_no_but := thrombolysis_no_but r
  |}.

(** The dicts of the notebook.  Where the notebook gives a dict the name
    of the column it fills, the dict has the suffix [_dict] here. *)
Definition gender : dict string Z :=
  Dict (list_to_map [("M"%string, 1); ("F"%string, 0)]) None.

Definition infarction_dict : dict string Z :=
  Dict (list_to_map [("I"%string, 1); ("PIH"%string, 0)]) None.

Definition onset_known_dict : dict string Z :=
  Dict (list_to_map [("NK"%string, 0); ("P"%string, 1); ("BE"%string, 1)]) None.

Definition precise_onset_known_dict : dict string Z :=
  Dict (list_to_map [("P"%string, 1); ("BE"%string, 0); ("NK"%string, 0)]) None.

Definition sleep : dict string Z :=
  Dict (list_to_map [("DS"%string, 1); ("P"%string, 0); ("BE"%string, 0)]) None.

Definition by_ambulance : dict string Z :=
  Dict (list_to_map [("Y"%string, 1); ("N"%string, 0)]) None.

Definition thrombolysis_dict : dict string Z :=
  Dict (list_to_map [("Y"%string, 1); ("N"%string, 0); ("NB"%string, 0)]) None.

(** [{'Y': 1, 'N': 0, 'NB': 0, np.nan: np.nan}] *)
Definition comorbid_marker : dict string Z :=
  Dict (list_to_map [("Y"%string, 1); ("N"%string, 0); ("NB"%string, 0)]) None.

(** [{1: 1, 0: 0, np.nan: 0}] *)
Definition anticoag_type_map : dict Z Z :=
  Dict (list_to_map [(1, 1); (0, 0)]) (Some 0).

(** [{'Y': 1, 'N': 0, np.nan: 0}] *)
Definition new_afib : dict string Z :=
  Dict (list_to_map [("Y"%string, 1); ("N"%string, 0)]) (Some 0).

Definition discharge : dict string string :=
  Dict (list_to_map
          [("CH", "care_home"); ("D", "died"); ("H", "home");
           ("SE", "somewhere_else"); ("TC", "community_team_or_esd");
           ("TCN", "community_team_or_esd");
           ("TN", "non_ssnap_hospital_team");
           ("T", "ssnap_hospital_team")]%string)
       (Some "missing"%string).

(** [make_no_thrombolysis(category)]: every reason code and NaN map to 0,
    then the code [category] is changed to map to 1. *)
Definition thrombolysis_no (category : string) : dict string Z :=
  Dict (<[category := 1]>
          (list_to_map [("TNA"%string, 0); ("OTSH"%string, 0);
                        ("USQE"%string, 0); ("N"%string, 0)]))
       (Some 0).

Definition make_no_thrombolysis (category : string) (raw : RawRecord) : cell :=
  series_map (thrombolysis_no category) (S2ThrombolysisNoReason raw).

(** [raw_data[nihss].min(axis=1).apply(lambda x: 0 if x == -1 else 1)] *)
Definition nihss_complete_of (scores : list cell) : Z :=
  if cell_eq (row_min scores) (-1) then 0 else 1.

(** [cleaned_data[nihss_nan].replace({-1: np.nan})] on one cell. *)
Definition replace_minus1 (c : cell) : cell :=
  match c with
  | Some v => if v =? -1 then None else Some v
  | None => None
  end.

(** [nihss_nan] is [nihss] without its first name, 'S2NihssArrivalLoc':
    the first column keeps its -1, the others have it replaced. *)
Definition nihss_columns (scores : list cell) : list cell :=
  match scores with
  | [] => []
  | loc :: others => loc :: map replace_minus1 others
  end.

(** The cells "ID" to "Reasons for no thrombolysis": every column of
    [cleaned_data] as first derived from the raw row. *)
Definition derive (raw : RawRecord) : CleanRecord :=
  (* comorbidities: Y/N/NB to 1/0 *)
  let congestive_heart_failure0 := series_map comorbid_marker (S2CoMCongestiveHeartFailure raw) in
  let hypertension0 := series_map comorbid_marker (S2CoMHypertension raw) in
  let atrial_fibrillation0 := series_map comorbid_marker (S2CoMAtrialFibrillation raw) in
  let diabetes0 := series_map comorbid_marker (S2CoMDiabetes raw) in
  let prior_stroke_tia0 := series_map comorbid_marker (S2CoMStrokeTIA raw) in
  let afib_antiplatelet0 := series_map comorbid_marker (S2CoMAFAntiplatelet raw) in
  let afib_anticoagulant0 := series_map comorbid_marker (S2CoMAFAnticoagulent raw) in
  (* no antiplatelet without an atrial fibrillation diagnosis *)
  let afib_antiplatelet1 :=
    if cell_eq atrial_fibrillation0 0 && isnull afib_antiplatelet0
    then Some 0 else afib_antiplatelet0 in
  let new_afib_diagnosis0 := series_map new_afib (S2NewAFDiagnosis raw) in
  (* replace afib_anticoagulant NaN with 0 *)
  let afib_anticoagulant1 := series_map anticoag_type_map afib_anticoagulant0 in
  {|
    id := PatientId raw;
    stroke_team := rstrip (TeamName raw);
    male := series_map gender (S1Gender raw);
    infarction := series_map infarction_dict (S2StrokeType raw);
    onset_to_arrival_time := OnsettoArrivalMinutes raw;
    onset_known := series_map onset_known_dict (S1OnsetTimeType raw);
    precise_onset_known := series_map precise_onset_known_dict (S1OnsetTimeType raw);
    onset_during_sleep := series_map sleep (S1OnsetDateType raw);
    arrive_by_ambulance := series_map by_ambulance (S1ArriveByAmbulance raw);
    call_to_ambulance_arrival_time :=
      sub (ArrivalPatientLocationtoArrivalMinutes raw)
          (CallConnectedtoArrivalMinutes raw);
    ambulance_on_scene_time :=
      sub (DeparturePatientLocationtoArrivalMinutes raw)
          (ArrivalPatientLocationtoArrivalMinutes raw);
    ambulance_travel_to_hospital_time :=
      sub (WheelsStoptoArrivalMinutes raw)
          (DeparturePatientLocationtoArrivalMinutes raw);
    ambulance_wait_time_at_hospital :=
      sub (Some 0) (WheelsStoptoArrivalMinutes raw);
    arrival_to_scan_time := ArrivaltoBrainImagingMinutes raw;
    thrombolysis := series_map thrombolysis_dict (S2Thrombolysis raw);
    scan_to_thrombolysis_time :=
      sub (ArrivaltoThrombolysisMinutes raw) (ArrivaltoBrainImagingMinutes raw);
    thrombectomy :=
      Some (if isnull (ArrivaltoArterialPunctureMinutes raw) then 0 else 1);
    arrival_to_thrombectomy_time := ArrivaltoArterialPunctureMinutes raw;
    congestive_heart_failure := congestive_heart_failure0;
    hypertension := hypertension0;
    atrial_fibrillation := atrial_fibrillation0;
    diabetes := diabetes0;
    prior_stroke_tia := prior_stroke_tia0;
    afib_antiplatelet := afib_antiplatelet1;
    afib_anticoagulant := afib_anticoagulant1;
    afib_vit_k_anticoagulant := series_map anticoag_type_map (S2CoMAFAnticoagulentVitK raw);
    afib_doac_anticoagulant := series_map anticoag_type_map (S2CoMAFAnticoagulentDOAC raw);
    afib_heparin_anticoagulant := series_map anticoag_type_map (S2CoMAFAnticoagulentHeparin raw);
    new_afib_diagnosis := new_afib_diagnosis0;
    any_afib_diagnosis := row_max [atrial_fibrillation0; new_afib_diagnosis0];
    prior_disability := S2RankinBeforeStroke raw;
    stroke_severity := S2NihssArrival raw;
    nihss_complete := Some (nihss_complete_of (nihss raw));
    nihss_arrival := nihss_columns (nihss raw);
    discharge_destination := series_map discharge (S7DischargeType raw);
    death := Some (if cell_ge (ArrivalToDeathDays raw) 0 then 1 else 0);
    discharge_disability := S7RankinDischarge raw;
    disability_6_month := S8Rankin6Month raw;
    thrombolysis_no_not_available := make_no_thrombolysis "TNA" raw;
    thrombolysis_no_out_of_hours := make_no_thrombolysis "OTSH" raw;
    thrombolysis_no_scan_not_quick_enough := make_no_thrombolysis "USQE" raw;
    thrombolysis_no_no_reason := make_no_thrombolysis "N" raw;
    thrombolysis_no_but := no_thrombolysis raw
  |}.

(** *** Deal with unusual results

    Every mask below is computed on the table as it stands when its
    notebook cell starts, before that cell writes anything. *)

(** The issue log: the team of the row and one flag per condition. *)
Module Issues.
Record IssueRecord : Type := {
  stroke_team : string;
  time_some_missing : bool;
  time_negative : bool;
  time_zero : bool;
  times_but_no_amb : bool;
  call_time_high : bool;
  scene_time_high : bool;
  travel_time_high : bool;
  wait_time_high : bool;
  onset_negative : bool;
  onset_unknown : bool;
  anticoag_discrep : bool;
  inconsistent_death : bool;
  missing_stroke_type : bool
}.
End Issues.

(** [==] of an object column with a string; a missing cell is not equal
    to any string. *)
Definition str_eq (c : option string) (s : string) : bool :=
  match c with Some t => String.eqb t s | None => false end.

Definition str_isnull (c : option string) : bool :=
  match c with None => true | Some _ => false end.

(** **** Unusual ambulance times *)

Definition amb_col (r : CleanRecord) : list cell :=
  [call_to_ambulance_arrival_time r; ambulance_on_scene_time r;
   ambulance_travel_to_hospital_time r; ambulance_wait_time_at_hospital r].

Definition amb_except_wait (r : CleanRecord) : list cell :=
  [call_to_ambulance_arrival_time r; ambulance_on_scene_time r;
   ambulance_travel_to_hospital_time r].

Definition time_all_missing (r : CleanRecord) : bool := forallb isnull (amb_col r).
Definition time_missing (r : CleanRecord) : bool := existsb isnull (amb_col r).
Definition time_negative (r : CleanRecord) : bool :=
  existsb (fun c => cell_lt c 0) (amb_col r).
Definition time_zero (r : CleanRecord) : bool :=
  existsb (fun c => cell_eq c 0) (amb_except_wait r).

Definition times_but_no_amb (r : CleanRecord) : bool :=
  cell_eq (arrive_by_ambulance r) 0 &&
  (notnull (call_to_ambulance_arrival_time r) ||
   notnull (ambulance_on_scene_time r) ||
   notnull (ambulance_travel_to_hospital_time r) ||
   notnull (ambulance_wait_time_at_hospital r)).

Definition call_time_high (r : CleanRecord) : bool :=
  cell_gt (call_to_ambulance_arrival_time r) 1440.
Definition scene_time_high (r : CleanRecord) : bool :=
  cell_gt (ambulance_on_scene_time r) 720.
Definition travel_time_high (r : CleanRecord) : bool :=
  cell_gt (ambulance_travel_to_hospital_time r) 360.
Definition wait_time_high (r : CleanRecord) : bool :=
  cell_gt (ambulance_wait_time_at_hospital r) 720.

(** "Clean the issues": the eight [.loc] assignments, in their order. *)
Definition clean_ambulance (r : CleanRecord) : CleanRecord :=
  let r1 := nan_amb_col (time_missing r) r in
  let r2 := nan_amb_col (time_negative r) r1 in
  let r3 := nan_amb_col (time_zero r) r2 in
  let r4 := nan_amb_col_and_arrive (times_but_no_amb r) r3 in
  let r5 := nan_amb_col (call_time_high r) r4 in
  let r6 := nan_amb_col (scene_time_high r) r5 in
  let r7 := nan_amb_col (travel_time_high r) r6 in
  nan_amb_col (wait_time_high r) r7.

(** **** Unusual onset to arrival times *)

Definition onset_negative (r : CleanRecord) : bool := cell_le (onset_to_arrival_time r) 0.
Definition onset_unknown (r : CleanRecord) : bool := cell_eq (onset_known r) 0.

Definition clean_onset (r : CleanRecord) : CleanRecord :=
  nan_onset_to_arrival_time (onset_unknown r)
    (nan_onset_to_arrival_time (onset_negative r) r).

(** **** Inconsistent anticoagulant data *)

Definition anticoag_discrep (r : CleanRecord) : bool :=
  cell_eq (afib_anticoagulant r) 0 &&
  (cell_eq (afib_vit_k_anticoagulant r) 1 ||
   cell_eq (afib_doac_anticoagulant r) 1 ||
   cell_eq (afib_heparin_anticoagulant r) 1).

Definition clean_anticoagulant (r : CleanRecord) : CleanRecord :=
  nan_anticoagulant (anticoag_discrep r) r.

(** **** Inconsistent death markers *)

Definition any_death (r : CleanRecord) : bool :=
  cell_eq (death r) 1 || cell_eq (discharge_disability r) 6 ||
  str_eq (discharge_destination r) "died".

Definition all_or_missing_death (r : CleanRecord) : bool :=
  (cell_eq (death r) 1 || isnull (death r)) &&
  (cell_eq (discharge_disability r) 6 || isnull (discharge_disability r)) &&
  (str_eq (discharge_destination r) "died" ||
   str_isnull (discharge_destination r)).

Definition inconsistent_death (r : CleanRecord) : bool :=
  any_death r && negb (all_or_missing_death r).

Definition clean_death (r : CleanRecord) : CleanRecord :=
  nan_death_markers (inconsistent_death r) r.

(** *** The whole notebook on one row

    Every step of the notebook works on whole columns and reads, for a
    row, only that row: the cleaned row and the logged flags of a raw row
    are a function of that raw row. *)
Definition clean_row (raw : RawRecord) : CleanRecord :=
  clean_death (clean_anticoagulant (clean_onset (clean_ambulance (derive raw)))).

Definition issue_row (raw : RawRecord) : Issues.IssueRecord :=
  let c0 := derive raw in
  let c1 := clean_ambulance c0 in
  let c2 := clean_onset c1 in
  let c3 := clean_anticoagulant c2 in
  let c4 := clean_death c3 in
  {|
    Issues.stroke_team := stroke_team c0;
    Issues.time_some_missing := negb (time_all_missing c0) && time_missing c0;
    Issues.time_negative := time_negative c0;
    Issues.time_zero := time_zero c0;
    Issues.times_but_no_amb := times_but_no_amb c0;
    Issues.call_time_high := call_time_high c0;
    Issues.scene_time_high := scene_time_high c0;
    Issues.travel_time_high := travel_time_high c0;
    Issues.wait_time_high := wait_time_high c0;
    Issues.onset_negative := onset_negative c1;
    Issues.onset_unknown := onset_unknown c1;
    Issues.anticoag_discrep := anticoag_discrep c2;
    Issues.inconsistent_death := inconsistent_death c3;
    (* issues['missing_stroke_type'] = cleaned_data['infarction'].isna() *)
    Issues.missing_stroke_type := isnull (infarction c4)
  |}.

(** *** The tables *)

Definition cleaned_data (raw_data : list RawRecord) : list CleanRecord :=
  map clean_row raw_data.

Definition issues (raw_data : list RawRecord) : list Issues.IssueRecord :=
  map issue_row raw_data.

(** "Remove patients missing stroke type":
    [cleaned_data[cleaned_data['infarction'].notna()]]. *)
Definition new_cleaned_data (raw_data : list RawRecord) : list CleanRecord :=
  boolean_index (cleaned_data raw_data)
                (map (fun r => notnull (infarction r)) (cleaned_data raw_data)).

(** *** The columns by kind *)

(** The values an indicator column may hold: 0, 1 or missing. *)
Definition is_indicator (c : cell) : Prop := c = Some 0 \/ c = Some 1 \/ c = None.

(** The boolean / indicator columns that the notebook derives. *)
Definition indicator_columns : list (CleanRecord -> cell) :=
  [male; infarction; onset_known; precise_onset_known; onset_during_sleep;
   arrive_by_ambulance; thrombolysis; thrombectomy;
   congestive_heart_failure; hypertension; atrial_fibrillation; diabetes;
   prior_stroke_tia; afib_antiplatelet; afib_anticoagulant;
   afib_vit_k_anticoagulant; afib_doac_anticoagulant; afib_heparin_anticoagulant;
   new_afib_diagnosis; any_afib_diagnosis; nihss_complete; death;
   thrombolysis_no_not_available; thrombolysis_no_out_of_hours;
   thrombolysis_no_scan_not_quick_enough; thrombolysis_no_no_reason].

(** The dict [comorbidities] of the notebook, raw column to cleaned column,
    without its last two entries (the antiplatelet and the anticoagulant
    answers, which later cells rewrite). *)
Definition comorbidities_as_mapped
  : list ((RawRecord -> option string) * (CleanRecord -> cell)) :=
  [(S2CoMCongestiveHeartFailure, congestive_heart_failure);
   (S2CoMHypertension, hypertension);
   (S2CoMAtrialFibrillation, atrial_fibrillation);
   (S2CoMDiabetes, diabetes);
   (S2CoMStrokeTIA, prior_stroke_tia)].

(** The dict [anticoag_type] of the notebook, raw column to cleaned
    column. *)
Definition anticoag_type : list ((RawRecord -> cell) * (CleanRecord -> cell)) :=
  [(S2CoMAFAnticoagulentVitK, afib_vit_k_anticoagulant);
   (S2CoMAFAnticoagulentDOAC, afib_doac_anticoagulant);
   (S2CoMAFAnticoagulentHeparin, afib_heparin_anticoagulant)].

(** The rows that this filter drops: those whose cleaned stroke type
    ([infarction]) is missing. *)
Definition stroke_type_unset (raw : RawRecord) : bool :=
  isnull (infarction (clean_row raw)).

(** "Save cleaned data": the two tables written by the last cell,
    [new_cleaned_data.to_csv] and [issues.to_csv]. *)
Definition saved (raw_data : list RawRecord)
  : list CleanRecord * list Issues.IssueRecord :=
  (new_cleaned_data raw_data, issues raw_data).

(** *** Conditions used to state what the passes leave behind *)

(** A row selected by one of the eight masks of the ambulance cell. *)
Definition ambulance_flagged (r : CleanRecord) : bool :=
  time_missing r || time_negative r || time_zero r || times_but_no_amb r
  || call_time_high r || scene_time_high r || travel_time_high r || wait_time_high r.

(** The keys of the dict of [make_no_thrombolysis], [np.nan] apart. *)
Definition no_thrombolysis_codes : list string := ["TNA"; "OTSH"; "USQE"; "N"]%string.

(** A sub-score as the audit records it: a score, -1 for "not assessed",
    or nothing. *)
Definition valid_score (c : cell) : Prop :=
  match c with Some v => -1 <= v | None => True end.

(** *** Age

    The twelve age band columns of a raw row are taken in the order of the
    keys of [ages]. *)

(** Dictionary defining numeric age as middle of age band *)
Definition ages : list (string * Q) :=
  [("AgeUnder40", 37.5); ("Age40to44", 42.5); ("Age45to49", 47.5);
   ("Age50to54", 52.5); ("Age55to59", 57.5); ("Age60to64", 62.5);
   ("Age65to69", 67.5); ("Age70to74", 72.5); ("Age75to79", 77.5);
   ("Age80to84", 82.5); ("Age85to89", 87.5); ("AgeOver90", 92.5)]%string%Q.

(** [col_extract.idxmax(axis=1)]: the label of the band found. *)
Definition age_band (col_extract : list cell) : option string :=
  k ← idxmax col_extract; fst <$> ages !! k.1.

(** [age_band.map(ages)] *)
Definition age (col_extract : list cell) : option Q :=
  band ← age_band col_extract;
  snd <$> List.find (fun kv => String.eqb kv.1 band) ages.

(** *** Column names

    [camel_to_snake] on ASCII text: ['_' + i.lower() if i.isupper() else i]
    for each character, joined, then [lstrip('_')]. *)
Definition isupper (c : ascii) : bool :=
  let n := nat_of_ascii c in (65 <=? n)%nat && (n <=? 90)%nat.

Definition lower (c : ascii) : ascii :=
  if isupper c then ascii_of_nat (nat_of_ascii c + 32) else c.

Fixpoint snake_join (str : string) : string :=
  match str with
  | EmptyString => EmptyString
  | String i str' =>
      if isupper i then String "_" (String (lower i) (snake_join str'))
      else String i (snake_join str')
  end.

Fixpoint lstrip_underscore (s : string) : string :=
  match s with
  | String c s' => if Ascii.eqb c "_" then lstrip_underscore s' else s
  | EmptyString => EmptyString
  end.

Definition camel_to_snake (str : string) : string :=
  lstrip_underscore (snake_join str).

(** No upper case letter in the text. *)
Fixpoint no_upper (s : string) : bool :=
  match s with
  | EmptyString => true
  | String c s' => negb (isupper c) && no_upper s'
  end.

End Cleaner.

(* ------------------------------------------------------------------ *)
(** ** 02_reformat_data_ml: the Reformatter *)
(* ------------------------------------------------------------------ *)

Module Reformatter.

(** Define thresholds / default values *)
Definition min_hospital_thrombolysis_threshold : Z := 10.
Definition min_hospital_admission_threshold : Z := 250.
Definition set_duration_not_get_thrombolysis : Z := -100.

(** One row of the cleaned table as the notebook loads it, with the
    columns some step of the notebook reads.  The other columns of the
    file are carried along untouched, up to the removal of features. *)
Record Row : Type := {
  stroke_team : string;
  infarction : cell;
  onset_to_arrival_time : cell;
  onset_known : cell;
  arrive_by_ambulance : cell;
  year : cell;
  arrival_to_scan_time : cell;
  thrombolysis : cell;
  scan_to_thrombolysis_time : cell;
  thrombectomy : cell;
  prior_disability : cell;
  discharge_disability : cell
}.

(** The table once the two new features are attached. *)
Record CohortRow : Type := {
  row : Row;
  onset_to_thrombolysis_time : cell;
  stroke_team_id : cell
}.

(** *** Filter patients on patient characteristic *)
Definition filter_patients (all_data : list Row) : list Row :=
  (* Limit to years 2016+ *)
  let mask := map (fun r => cell_ge (year r) 2016) all_data in
  let data := boolean_index all_data mask in
  (* Limit to infarction stroke *)
  let mask := map (fun r => cell_eq (infarction r) 1) data in
  let data := boolean_index data mask in
  (* Limit to arrivals by ambulance *)
  let mask := map (fun r => cell_eq (arrive_by_ambulance r) 1) data in
  let data := boolean_index data mask in
  (* Remove patients who have received thrombectomy *)
  let mask := map (fun r => cell_eq (thrombectomy r) 0) data in
  let data := boolean_index data mask in
  (* Remove patients with no recorded prior disability *)
  let mask := map (fun r => cell_ge (prior_disability r) 0) data in
  let data := boolean_index data mask in
  (* Remove records with no recorded discharge_disability *)
  let mask := map (fun r => cell_ge (discharge_disability r) 0) data in
  let data := boolean_index data mask in
  (* Remove records with negative onset_to_arrival_time *)
  let mask := map (fun r => cell_le (onset_to_arrival_time r) 0) data in
  let mask := map (fun b => Bool.eqb b false) mask in
  let data := boolean_index data mask in
  (* Remove patients with 'onset_known' = 0 *)
  let mask := map (fun r => cell_eq (onset_known r) 1) data in
  boolean_index data mask.

(** [data["stroke_team"].apply(lambda x: x.strip())] *)
Definition strip_team (r : Row) : Row :=
  {| stroke_team := strip (stroke_team r);
     infarction := infarction r;
     onset_to_arrival_time := onset_to_arrival_time r;
     onset_known := onset_known r;
     arrive_by_ambulance := arrive_by_ambulance r;
     year := year r;
     arrival_to_scan_time := arrival_to_scan_time r;
     thrombolysis := thrombolysis r;
     scan_to_thrombolysis_time := scan_to_thrombolysis_time r;
     thrombectomy := thrombectomy r;
     prior_disability := prior_disability r;
     discharge_disability := discharge_disability r |}.

(** *** Filter patients on attended hospital characteristic *)

(** [data.groupby(['stroke_team'])]: the rows of each team, in their
    order in the table. *)
Definition groupby (data : list Row) : gmap string (list Row) :=
  foldr (fun r groups =>
           <[stroke_team r := r :: default [] (groups !! stroke_team r)]> groups)
        ∅ data.

(** [stroke_team_values[mask].index] for a series indexed by team, then
    [data[data['stroke_team'].isin(stroke_team_keep)]]. *)
Definition filter_stroke_team
    (data : list Row) (min_threshold : Z) (stroke_team_values : gmap string Z)
  : list Row :=
  let mask := filter (fun kv => min_threshold <= kv.2) stroke_team_values in
  let stroke_team_keep := (map_to_list mask).*1 in
  boolean_index data
    (map (fun r => bool_decide (stroke_team r ∈ stroke_team_keep)) data).

(** [data.groupby(['stroke_team'])['stroke_team'].count()] *)
Definition stroke_team_admissions (data : list Row) : gmap string Z :=
  (fun g => Z.of_nat (length g)) <$> groupby data.

(** [data.groupby(['stroke_team'])['thrombolysis'].sum()] *)
Definition stroke_team_thrombolysis (data : list Row) : gmap string Z :=
  (fun g => col_sum (map thrombolysis g)) <$> groupby data.

(** The two gates, one after the other: the thrombolysis totals are those
    of the table the admission gate returns. *)
Definition filter_hospitals (data : list Row) : list Row :=
  let data :=
    filter_stroke_team data min_hospital_admission_threshold
                       (stroke_team_admissions data) in
  filter_stroke_team data min_hospital_thrombolysis_threshold
                     (stroke_team_thrombolysis data).

(** The rows of one team, and the two per-team totals that the gates
    compare with their thresholds. *)
Definition rows_of (team : string) (data : list Row) : list Row :=
  List.filter (fun r => String.eqb (stroke_team r) team) data.

Definition admissions (data : list Row) (team : string) : Z :=
  Z.of_nat (length (rows_of team data)).

Definition treatments (data : list Row) (team : string) : Z :=
  col_sum (map thrombolysis (rows_of team data)).

(** *** Edit feature values *)

(** [data.loc[data['thrombolysis'] == 0, 'scan_to_thrombolysis_time'] = -100] *)
Definition edit_scan_to_thrombolysis (r : Row) : Row :=
  {| stroke_team := stroke_team r;
     infarction := infarction r;
     onset_to_arrival_time := onset_to_arrival_time r;
     onset_known := onset_known r;
     arrive_by_ambulance := arrive_by_ambulance r;
     year := year r;
     arrival_to_scan_time := arrival_to_scan_time r;
     thrombolysis := thrombolysis r;
     scan_to_thrombolysis_time :=
       if cell_eq (thrombolysis r) 0
       then Some set_duration_not_get_thrombolysis
       else scan_to_thrombolysis_time r;
     thrombectomy := thrombectomy r;
     prior_disability := prior_disability r;
     discharge_disability := discharge_disability r |}.

(** *** Add new features *)

Definition calculate_onset_to_thrombolysis (row : Row) : cell :=
  (* Set default value of onset to thrombolysis of -100 *)
  let onset_to_thrombolysis := Some (-100) in
  (* Set value if thrombolysis given *)
  if cell_ne (scan_to_thrombolysis_time row) (-100)
  then add (add (onset_to_arrival_time row) (arrival_to_scan_time row))
           (scan_to_thrombolysis_time row)
  else onset_to_thrombolysis.

(** *** New feature: the anonymised team code

    What the cell takes from the interpreter is made explicit: the order
    in which [list(set(...))] lists the distinct team names (the iteration
    order of a set of [str], fixed by the string hashes of the running
    process), and the generator behind [random.seed] and
    [random.shuffle]. *)
Section TeamCode.

Context {rng : Type}.
(** [random.seed(a)]: the generator state after seeding. *)
Variable seed : Z -> rng.
(** [randbelow(n)]: a draw below [n] and the next state. *)
Variable randbelow : nat -> rng -> nat * rng.
(** [list(set(column))]. *)
Variable set_order : list string -> list string.

(** What every interpreter guarantees of [list(set(column))]: each value
    of the column once, in some order. *)
Definition is_set_order (f : list string -> list string) : Prop :=
  forall l, NoDup (f l) /\ forall x, x ∈ f l <-> x ∈ l.

(** [x[i], x[j] = x[j], x[i]] *)
Definition swap {A : Type} (i j : nat) (x : list A) : list A :=
  match x !! j, x !! i with
  | Some xj, Some xi => <[j := xi]> (<[i := xj]> x)
  | _, _ => x
  end.

(** The position that [swap i j] moves to position [k]. *)
Definition transpose (i j k : nat) : nat :=
  if decide (k = i) then j else if decide (k = j) then i else k.

(** [random.shuffle(x)]:
    [for i in reversed(range(1, len(x))): j = randbelow(i + 1); swap]. *)
Fixpoint shuffle_from {A : Type} (i : nat) (g : rng) (x : list A) : list A * rng :=
  match i with
  | O => (x, g)
  | S i' =>
      let '(j, g') := randbelow (S i) g in
      shuffle_from i' g' (swap i j x)
  end.

Definition shuffle {A : Type} (g : rng) (x : list A) : list A * rng :=
  shuffle_from (length x - 1) g x.

(** [enumerate] *)
Definition enumerate {A : Type} (l : list A) : list (nat * A) :=
  zip (seq 0 (length l)) l.

(** The branch taken when the file of team codes does not exist: the
    list of teams, shuffled. *)
Definition shuffled_teams (data : list Row) : list string :=
  (* Get list of teams *)
  let teams := set_order (map stroke_team data) in
  (* Shuffle into random order *)
  let g := seed 42 in
  (shuffle g teams).1.

(** [teams_code_dict[j] = i + 1] *)
Definition set_team_code (teams_code_dict : gmap string Z) (ij : nat * string)
  : gmap string Z :=
  <[ij.2 := Z.of_nat ij.1 + 1]> teams_code_dict.

(** [for i, j in enumerate(teams): teams_code_dict[j] = i + 1] *)
Definition create_teams_code_dict (data : list Row) : gmap string Z :=
  foldl set_team_code ∅ (enumerate (shuffled_teams data)).

(** [teams_code_dict.items()], the rows of the file that is saved: a
    dict lists its items in the order its keys were first inserted. *)
Definition teams_code_items (data : list Row) : list (string * Z) :=
  let teams := shuffled_teams data in
  omap (fun j => pair j <$> create_teams_code_dict data !! j)
       (rev (remove_dups (rev teams))).

(** The branch taken when the file exists: its rows are (team, code). *)
Definition load_teams_code_dict (teams_code_df : list (string * Z)) : gmap string Z :=
  foldl (fun teams_code_dict row => <[strip row.1 := row.2]> teams_code_dict)
        ∅ teams_code_df.

Definition teams_code_dict
    (file : option (list (string * Z))) (data : list Row) : gmap string Z :=
  match file with
  | None => create_teams_code_dict data
  | Some teams_code_df => load_teams_code_dict teams_code_df
  end.

(** *** Removing features *)

Definition remove_features_listed : list string :=
  ["onset_known"; "afib_vit_k_anticoagulant"; "afib_doac_anticoagulant";
   "afib_heparin_anticoagulant"; "thrombolysis"; "discharge_destination";
   "death"; "disability_6_month"; "call_to_ambulance_arrival_time";
   "ambulance_on_scene_time"; "ambulance_travel_to_hospital_time";
   "ambulance_wait_time_at_hospital"; "thrombectomy";
   "arrival_to_thrombectomy_time"]%string.

(** The numeric columns of the table, in the order of [data.columns]. *)
Definition numeric_columns : list (string * (CohortRow -> cell)) :=
  [("infarction", fun r => infarction (row r));
   ("onset_to_arrival_time", fun r => onset_to_arrival_time (row r));
   ("onset_known", fun r => onset_known (row r));
   ("arrive_by_ambulance", fun r => arrive_by_ambulance (row r));
   ("year", fun r => year (row r));
   ("arrival_to_scan_time", fun r => arrival_to_scan_time (row r));
   ("thrombolysis", fun r => thrombolysis (row r));
   ("scan_to_thrombolysis_time", fun r => scan_to_thrombolysis_time (row r));
   ("thrombectomy", fun r => thrombectomy (row r));
   ("prior_disability", fun r => prior_disability (row r));
   ("discharge_disability", fun r => discharge_disability (row r));
   ("onset_to_thrombolysis_time", onset_to_thrombolysis_time);
   ("stroke_team_id", stroke_team_id)]%string.

(** [data[col].std() == 0].  The standard deviation skips missing values
    and is NaN for fewer than two values; on integral values it is 0
    exactly when they are all equal. *)
Definition std_is_zero (col : list cell) : bool :=
  match omap (fun c : cell => c) col with
  | v :: (_ :: _) as values => forallb (Z.eqb v) values
  | _ => false
  end.

(** The listed features, then every numeric column of standard deviation
    0 that is not yet in the list. *)
Definition remove_features (data : list CohortRow) : list string :=
  foldl (fun remove_features col =>
           if std_is_zero (map col.2 data)
              && negb (bool_decide (col.1 ∈ remove_features))
           then remove_features ++ [col.1]
           else remove_features)
        remove_features_listed numeric_columns.

(** *** The notebook from "Load data" to "Save reformatted data" *)

Record Output : Type := {
  (* the rows of the saved table *)
  data : list CohortRow;
  (* the columns dropped from it before it is saved *)
  dropped : list string;
  (* the file of team codes, when this run writes it *)
  teams_code_df : option (list (string * Z))
}.

Definition reformat
    (file : option (list (string * Z))) (all_data : list Row) : Output :=
  let data := filter_patients all_data in
  let data := map strip_team data in
  let data := filter_hospitals data in
  let data0 := map edit_scan_to_thrombolysis data in
  let codes := teams_code_dict file data0 in
  let data :=
    map (fun r => {| row := r;
                     onset_to_thrombolysis_time := calculate_onset_to_thrombolysis r;
                     stroke_team_id := codes !! stroke_team r |}) data0 in
  {| data := data;
     dropped := remove_features data;
     teams_code_df :=
       match file with
       | None => Some (teams_code_items data0)
       | Some _ => None
       end |}.

End TeamCode.

(** *** Conditions used to state what the filters keep *)

(** The eight conditions of "Filter patients on patient characteristic",
    together. *)
Definition patient_kept (r : Row) : bool :=
  cell_ge (year r) 2016 && cell_eq (infarction r) 1
  && cell_eq (arrive_by_ambulance r) 1 && cell_eq (thrombectomy r) 0
  && cell_ge (prior_disability r) 0 && cell_ge (discharge_disability r) 0
  && Bool.eqb (cell_le (onset_to_arrival_time r) 0) false
  && cell_eq (onset_known r) 1.

(** A team that reaches both thresholds in the table. *)
Definition hospital_kept (data : list Row) (t : string) : bool :=
  (250 <=? admissions data t) && (10 <=? treatments data t).

End Reformatter.

(* ------------------------------------------------------------------ *)
(** ** 03 create k-fold data sets: the Fold Splitter *)
(* ------------------------------------------------------------------ *)

Module FoldSplitter.

(** A value of a numeric column read from the reformatted file: the
    column is int64 when the file shows only integers, float64 else. *)
Inductive scalar : Type :=
| Int64 (z : Z)
| Float64 (c : cell).

Definition decimal (z : Z) : string := NilZero.string_of_int (Z.to_int z).

(** Python's [str] on such a value.  A float with integral content is
    written with a fractional part of 0 (this holds below 10^16, far above
    any value of the table), NaN is written nan. *)
Definition str (v : scalar) : string :=
  match v with
  | Int64 z => decimal z
  | Float64 (Some z) => decimal z +:+ ".0"
  | Float64 None => "nan"
  end.

(** The columns of the reformatted table that the notebook names; [X]
    holds whole rows. *)
Record Row : Type := {
  stroke_team : string;
  stroke_team_id : scalar;
  discharge_disability : scalar
}.

(** Whether a string holds a hyphen. *)
Fixpoint has_hyphen (s : string) : bool :=
  match s with
  | EmptyString => false
  | String c s' => Ascii.eqb c "-" || has_hyphen s'
  end.

(** [data['stroke_team'].map(str) + '-' + data['discharge_disability'].map(str)];
    [str] of a team name is the name. *)
Definition strat (data : list Row) : list string :=
  map (fun r => (stroke_team r +:+ "-") +:+ str (discharge_disability r)) data.

(** *** sklearn's [StratifiedKFold(n_splits, shuffle=True, random_state)]

    The splitter is library code; it is modelled after
    [StratifiedKFold._make_test_folds] and [BaseCrossValidator.split].
    The generator of numpy is a parameter, and so is the content of the
    array that [np.empty] returns. *)
Section StratifiedKFold.

Context {rng : Type}.
(** [check_random_state(random_state)] *)
Variable random_state : Z -> rng.
(** [rng.shuffle(a)]: the shuffled array and the next state. *)
Variable rng_shuffle : rng -> list nat -> list nat * rng.
(** [np.empty(n, dtype="i")] *)
Variable np_empty : nat -> list nat.

Variable n_splits : nat.

(** The distinct labels in the order of their first appearance. *)
Fixpoint classes (y : list string) : list string :=
  match y with
  | [] => []
  | c :: y' => c :: List.filter (fun d => negb (String.eqb c d)) (classes y')
  end.

Fixpoint index_of (c : string) (l : list string) : nat :=
  match l with
  | [] => O
  | d :: l' => if String.eqb c d then O else S (index_of c l')
  end.

(** [y_encoded]: 0 for the first label appearing in [y], 1 for the
    second, and so on. *)
Definition y_encoded (y : list string) : list nat :=
  map (fun c => index_of c (classes y)) y.

(** [np.bincount(a, minlength=n)] for values below [n]. *)
Definition bincount (n : nat) (a : list nat) : list nat :=
  map (fun k => count_occ Nat.eq_dec a k) (seq 0 n).

(** [a[i::n]] for [i < n] *)
Fixpoint stride {A : Type} (i n : nat) (a : list A) : list A :=
  match a with
  | [] => []
  | x :: a' =>
      match i with
      | O => x :: stride (n - 1) n a'
      | S i' => stride i' n a'
      end
  end.

(** [test_folds[mask] = values]; numpy refuses the assignment when the
    number of values is not the number of True in the mask. *)
Fixpoint mask_assign (test_folds : list nat) (mask : list bool) (values : list nat)
  : option (list nat) :=
  match test_folds, mask with
  | t :: test_folds', b :: mask' =>
      if b then
        match values with
        | v :: values' => cons v <$> mask_assign test_folds' mask' values'
        | [] => None
        end
      else cons t <$> mask_assign test_folds' mask' values
  | [], [] => match values with [] => Some [] | _ :: _ => None end
  | _, _ => None
  end.

(** The loop [for k in range(n_classes)] of [_make_test_folds], on the
    classes [ks] still to do. *)
Fixpoint assign_classes (enc : list nat) (allocation : list (list nat))
    (ks : list nat) (g : rng) (test_folds : list nat) : option (list nat) :=
  match ks with
  | [] => Some test_folds
  | k :: ks' =>
      (* np.arange(n_splits).repeat(allocation[:, k]) *)
      let folds_for_class :=
        flat_map (fun i => repeat i (nth k (nth i allocation []) O))
                 (seq 0 n_splits) in
      let '(folds_for_class, g') := rng_shuffle g folds_for_class in
      test_folds' ← mask_assign test_folds (map (Nat.eqb k) enc) folds_for_class;
      assign_classes enc allocation ks' g' test_folds'
  end.

Definition _make_test_folds (y : list string) : option (list nat) :=
  let g := random_state 13 in
  let enc := y_encoded y in
  let n_classes := length (classes y) in
  let y_counts := bincount n_classes enc in
  (* n_splits cannot be greater than the number of members in each class *)
  if forallb (fun c => c <? n_splits)%nat y_counts then None else
  let y_order := merge_sort le enc in
  let allocation :=
    map (fun i => bincount n_classes (stride i n_splits y_order))
        (seq 0 n_splits) in
  assign_classes enc allocation (seq 0 n_classes) g (np_empty (length y)).

(** [_iter_test_masks]: [for i in range(n_splits): yield test_folds == i] *)
Definition _iter_test_masks (test_folds : list nat) : list (list bool) :=
  map (fun i => map (Nat.eqb i) test_folds) (seq 0 n_splits).

(** [train_index = indices[np.logical_not(test_index)]] and
    [test_index = indices[test_index]] for one mask. *)
Definition index_pair (indices : list nat) (test_index : list bool)
  : list nat * list nat :=
  (boolean_index indices (map negb test_index), boolean_index indices test_index).

(** [split(X, y)]: one pair (train_index, test_index) per fold. *)
Definition split {A : Type} (X : list A) (y : list string)
  : option (list (list nat * list nat)) :=
  let n_samples := length X in
  (* cannot have number of splits greater than the number of samples *)
  if (n_samples <? n_splits)%nat then None else
  test_folds ← _make_test_folds y;
  let indices := seq 0 n_samples in
  Some (map (index_pair indices) (_iter_test_masks test_folds)).

End StratifiedKFold.

(** *** Create and save five k-fold splits *)
Section Notebook.

Context {rng : Type}.
Variable random_state : Z -> rng.
Variable rng_shuffle : rng -> list nat -> list nat * rng.
Variable np_empty : nat -> list nat.

Definition number_of_splits : nat := 5.

(** [X[index]] *)
Definition rows_at {A : Type} (X : list A) (index : list nat) : list A :=
  omap (fun i => X !! i) index.

(** The (train, test) tables saved, fold 0 first; [None] when the
    splitter raises, in which case no file is written. *)
Definition kfold (data : list Row) : option (list (list Row * list Row)) :=
  let X := data in
  let y := strat data in
  folds ← split random_state rng_shuffle np_empty number_of_splits X y;
  Some (map (fun index => (rows_at X index.1, rows_at X index.2)) folds).

End Notebook.

End FoldSplitter.

(* ------------------------------------------------------------------ *)
(** ** Sample tables *)
(* ------------------------------------------------------------------ *)

Module Samples.

(** A raw row of a patient brought in by ambulance 95 minutes after a
    precisely known onset, scanned after 20 minutes, not treated.  The
    stroke type, the answer on anticoagulants and the severity sub-scores
    are left open. *)
Definition raw_row (stroke_type anticoagulent : option string) (scores : list cell)
  : Cleaner.RawRecord :=
  {| Cleaner.PatientId := 1;
     Cleaner.TeamName := "Royal Devon hospital ";
     Cleaner.S1Gender := Some "F"%string;
     Cleaner.S2StrokeType := stroke_type;
     Cleaner.OnsettoArrivalMinutes := Some 95;
     Cleaner.S1OnsetTimeType := Some "P"%string;
     Cleaner.S1OnsetDateType := Some "P"%string;
     Cleaner.S1ArriveByAmbulance := Some "Y"%string;
     Cleaner.CallConnectedtoArrivalMinutes := Some (-60);
     Cleaner.ArrivalPatientLocationtoArrivalMinutes := Some (-50);
     Cleaner.DeparturePatientLocationtoArrivalMinutes := Some (-30);
     Cleaner.WheelsStoptoArrivalMinutes := Some (-5);
     Cleaner.ArrivaltoBrainImagingMinutes := Some 20;
     Cleaner.S2Thrombolysis := Some "N"%string;
     Cleaner.ArrivaltoThrombolysisMinutes := None;
     Cleaner.ArrivaltoArterialPunctureMinutes := None;
     Cleaner.S2CoMCongestiveHeartFailure := Some "N"%string;
     Cleaner.S2CoMHypertension := Some "Y"%string;
     Cleaner.S2CoMAtrialFibrillation := Some "N"%string;
     Cleaner.S2CoMDiabetes := None;
     Cleaner.S2CoMStrokeTIA := Some "NB"%string;
     Cleaner.S2CoMAFAntiplatelet := None;
     Cleaner.S2CoMAFAnticoagulent := anticoagulent;
     Cleaner.S2CoMAFAnticoagulentVitK := None;
     Cleaner.S2CoMAFAnticoagulentDOAC := Some 0;
     Cleaner.S2CoMAFAnticoagulentHeparin := None;
     Cleaner.S2NewAFDiagnosis := None;
     Cleaner.S2RankinBeforeStroke := Some 1;
     Cleaner.S2NihssArrival := Some 5;
     Cleaner.nihss := scores;
     Cleaner.S7DischargeType := Some "H"%string;
     Cleaner.ArrivalToDeathDays := None;
     Cleaner.S7RankinDischarge := Some 2;
     Cleaner.S8Rankin6Month := None;
     Cleaner.S2ThrombolysisNoReason := Some "N"%string;
     Cleaner.no_thrombolysis := repeat (Some 0) 10 |}.

(** Fifteen sub-scores, one of them not assessed. *)
Definition scores_one_unassessed : list cell :=
  [Some 0; Some 1; Some 0; Some (-1); Some 2] ++ repeat (Some 0) 10.

(** A raw table of two patients: the first imaged and found to have an
    infarction, the second with no stroke type. *)
Definition raw_two_patients : list Cleaner.RawRecord :=
  [raw_row (Some "I"%string) (Some "N"%string) scores_one_unassessed;
   raw_row None None (repeat None 15)].

(** A row of the cleaned table that passes every patient filter, of the
    given team, treated after 30 minutes or not treated, with the given
    onset to arrival time. *)
Definition cohort_row (team : string) (treated : bool) (onset : cell)
  : Reformatter.Row :=
  {| Reformatter.stroke_team := team;
     Reformatter.infarction := Some 1;
     Reformatter.onset_to_arrival_time := onset;
     Reformatter.onset_known := Some 1;
     Reformatter.arrive_by_ambulance := Some 1;
     Reformatter.year := Some 2018;
     Reformatter.arrival_to_scan_time := Some 20;
     Reformatter.thrombolysis := Some (if treated then 1 else 0);
     Reformatter.scan_to_thrombolysis_time := if treated then Some 30 else None;
     Reformatter.thrombectomy := Some 0;
     Reformatter.prior_disability := Some 1;
     Reformatter.discharge_disability := Some 2 |}.

(** The rows of a team with the given numbers of admissions and of treated
    patients. *)
Definition site (team : string) (admissions treated : nat) : list Reformatter.Row :=
  repeat (cohort_row team true (Some 90)) treated
  ++ repeat (cohort_row team false (Some 60)) (admissions - treated).

(** One team at exactly 250 admissions and 9 treatments, another at 251
    admissions and 10 treatments. *)
Definition two_sites : list Reformatter.Row := site "A" 250 9 ++ site "B" 251 10.

(** Two teams that pass both gates. *)
Definition two_passing_sites : list Reformatter.Row :=
  site "A" 250 10 ++ site "B" 251 10.

(** A team that passes both gates, and one more patient of it whose onset to
    arrival time is missing. *)
Definition site_with_missing_onset : list Reformatter.Row :=
  cohort_row "B" false None :: site "B" 251 10.

(** The treated patients of team B in the output of the notebook. *)
Definition treated_cohort_row : Reformatter.CohortRow :=
  {| Reformatter.row := cohort_row "B" true (Some 90);
     Reformatter.onset_to_thrombolysis_time := Some 140;
     Reformatter.stroke_team_id := Some 1 |}.

(** A row of the reformatted table. *)
Definition fold_row (team : string) (code disability : Z) : FoldSplitter.Row :=
  {| FoldSplitter.stroke_team := team;
     FoldSplitter.stroke_team_id := FoldSplitter.Int64 code;
     FoldSplitter.discharge_disability := FoldSplitter.Float64 (Some disability) |}.

(** Five patients of one team and outcome, two of another. *)
Definition seven_patients : list FoldSplitter.Row :=
  repeat (fold_row "A" 2 2) 5 ++ repeat (fold_row "B" 1 3) 2.

(** A numpy generator whose shuffle leaves the array as it is, and an
    [np.empty] that returns zeros. *)
Definition random_state0 (s : Z) : unit := tt.
Definition rng_shuffle0 (g : unit) (a : list nat) : list nat * unit := (a, g).
Definition np_empty0 (n : nat) : list nat := repeat O n.

(** A generator whose every draw is 0. *)
Definition seed0 (a : Z) : unit := tt.
Definition randbelow0 (n : nat) (g : unit) : nat * unit := (O, g).

(** The patient of [raw_row] with an infarction and all sub-scores 0, who
    died the given number of days after arrival and has no discharge type
    and no disability at discharge. *)
Definition raw_row_died (days : Z) : Cleaner.RawRecord :=
  let base := raw_row (Some "I"%string) (Some "N"%string) (repeat (Some 0) 15) in
  {| Cleaner.PatientId := Cleaner.PatientId base;
     Cleaner.TeamName := Cleaner.TeamName base;
     Cleaner.S1Gender := Cleaner.S1Gender base;
     Cleaner.S2StrokeType := Cleaner.S2StrokeType base;
     Cleaner.OnsettoArrivalMinutes := Cleaner.OnsettoArrivalMinutes base;
     Cleaner.S1OnsetTimeType := Cleaner.S1OnsetTimeType base;
     Cleaner.S1OnsetDateType := Cleaner.S1OnsetDateType base;
     Cleaner.S1ArriveByAmbulance := Cleaner.S1ArriveByAmbulance base;
     Cleaner.CallConnectedtoArrivalMinutes := Cleaner.CallConnectedtoArrivalMinutes base;
     Cleaner.ArrivalPatientLocationtoArrivalMinutes :=
       Cleaner.ArrivalPatientLocationtoArrivalMinutes base;
     Cleaner.DeparturePatientLocationtoArrivalMinutes :=
       Cleaner.DeparturePatientLocationtoArrivalMinutes base;
     Cleaner.WheelsStoptoArrivalMinutes := Cleaner.WheelsStoptoArrivalMinutes base;
     Cleaner.ArrivaltoBrainImagingMinutes := Cleaner.ArrivaltoBrainImagingMinutes base;
     Cleaner.S2Thrombolysis := Cleaner.S2Thrombolysis base;
     Cleaner.ArrivaltoThrombolysisMinutes := Cleaner.ArrivaltoThrombolysisMinutes base;
     Cleaner.ArrivaltoArterialPunctureMinutes :=
       Cleaner.ArrivaltoArterialPunctureMinutes base;
     Cleaner.S2CoMCongestiveHeartFailure := Cleaner.S2CoMCongestiveHeartFailure base;
     Cleaner.S2CoMHypertension := Cleaner.S2CoMHypertension base;
     Cleaner.S2CoMAtrialFibrillation := Cleaner.S2CoMAtrialFibrillation base;
     Cleaner.S2CoMDiabetes := Cleaner.S2CoMDiabetes base;
     Cleaner.S2CoMStrokeTIA := Cleaner.S2CoMStrokeTIA base;
     Cleaner.S2CoMAFAntiplatelet := Cleaner.S2CoMAFAntiplatelet base;
     Cleaner.S2CoMAFAnticoagulent := Cleaner.S2CoMAFAnticoagulent base;
     Cleaner.S2CoMAFAnticoagulentVitK := Cleaner.S2CoMAFAnticoagulentVitK base;
     Cleaner.S2CoMAFAnticoagulentDOAC := Cleaner.S2CoMAFAnticoagulentDOAC base;
     Cleaner.S2CoMAFAnticoagulentHeparin := Cleaner.S2CoMAFAnticoagulentHeparin base;
     Cleaner.S2NewAFDiagnosis := Cleaner.S2NewAFDiagnosis base;
     Cleaner.S2RankinBeforeStroke := Cleaner.S2RankinBeforeStroke base;
     Cleaner.S2NihssArrival := Cleaner.S2NihssArrival base;
     Cleaner.nihss := Cleaner.nihss base;
     Cleaner.S7DischargeType := None;
     Cleaner.ArrivalToDeathDays := Some days;
     Cleaner.S7RankinDischarge := None;
     Cleaner.S8Rankin6Month := Cleaner.S8Rankin6Month base;
     Cleaner.S2ThrombolysisNoReason := Cleaner.S2ThrombolysisNoReason base;
     Cleaner.no_thrombolysis := Cleaner.no_thrombolysis base |}.

(** The same patient when the file of team codes gives team B the code 7. *)
Definition treated_cohort_row_7 : Reformatter.CohortRow :=
  {| Reformatter.row := cohort_row "B" true (Some 90);
     Reformatter.onset_to_thrombolysis_time := Some 140;
     Reformatter.stroke_team_id := Some 7 |}.

(** Twelve age band columns of a row, the bands 45 to 49 and 55 to 59
    flagged. *)
Definition two_age_bands : list cell :=
  [Some 0; Some 0; Some 1; Some 0; Some 1; Some 0;
   Some 0; Some 0; Some 0; Some 0; Some 0; Some 0].

(** Fifteen sub-scores, the first not recorded and the second not
    assessed. *)
Definition scores_missing_and_unassessed : list cell :=
  [None; Some (-1); Some 2] ++ repeat (Some 0) 12.

End Samples.

(* ================================================================== *)
(** * Part II: properties *)
(* ================================================================== *)

(** ** Tables *)

Lemma boolean_index_filter {A : Type} (f : A -> bool) (l : list A) :
  boolean_index l (map f l) = List.filter f l.
Proof.
  induction l as [|x l IH]; simpl; [reflexivity|].
  now rewrite IH.
Qed.

Lemma elem_of_boolean_index {A : Type} (f : A -> bool) (l : list A) (x : A) :
  x ∈ boolean_index l (map f l) <-> x ∈ l /\ f x = true.
Proof.
  rewrite boolean_index_filter, !list_elem_of_In.
  apply List.filter_In.
Qed.

Lemma filter_map {A B : Type} (f : B -> bool) (g : A -> B) (l : list A) :
  List.filter f (map g l) = map g (List.filter (fun x => f (g x)) l).
Proof.
  induction l as [|x l IH]; simpl; [reflexivity|].
  destruct (f (g x)); simpl; now rewrite IH.
Qed.

(** ** The Cleaner *)

Section CleanerProperties.

Import Cleaner.

Lemma infarction_clean_row raw :
  infarction (clean_row raw) = series_map infarction_dict (S2StrokeType raw).
Proof. reflexivity. Qed.

(** A row has no stroke type when its raw code is neither I nor PIH. *)
Lemma stroke_type_unset_raw (raw : RawRecord) :
  stroke_type_unset raw = false <->
  S2StrokeType raw = Some "I"%string \/ S2StrokeType raw = Some "PIH"%string.
Proof.
  unfold stroke_type_unset. rewrite infarction_clean_row.
  destruct (S2StrokeType raw) as [s|]; cbn.
  - rewrite !lookup_insert, lookup_empty.
    repeat case_decide; subst; cbn; split; auto; try discriminate;
      intros [[= ->]|[= ->]]; congruence.
  - split; [discriminate | intros [|]; discriminate].
Qed.

(** The saved table of cleaned rows is the cleaned table without the rows
    at which [infarction] is missing. *)
Lemma new_cleaned_data_filter raw_data :
  new_cleaned_data raw_data =
  map clean_row (List.filter (fun raw => negb (stroke_type_unset raw)) raw_data).
Proof.
  unfold new_cleaned_data, cleaned_data.
  now rewrite boolean_index_filter, filter_map.
Qed.

Lemma length_new_cleaned_data raw_data :
  (length (new_cleaned_data raw_data)
   + length (List.filter stroke_type_unset raw_data))%nat = length raw_data.
Proof.
  rewrite new_cleaned_data_filter, length_map, Nat.add_comm.
  apply List.filter_length.
Qed.

(** C1 (as the notebook has it).  The issue log is never filtered: it has
    one row per raw row, the rows of patients without stroke type included
    (their flag [missing_stroke_type] is set).  Only the table of cleaned
    rows loses those patients, so the cleaned table has as many rows as the
    raw table minus the rows without stroke type, and the issue log has as
    many rows as the raw table. *)
Theorem issue_log_has_one_row_per_raw_row (raw_data : list RawRecord) :
  length (saved raw_data).2 = length raw_data /\
  (saved raw_data).2 = map issue_row raw_data /\
  length (List.filter Issues.missing_stroke_type (saved raw_data).2)
    = length (List.filter stroke_type_unset raw_data) /\
  length (saved raw_data).1
    = (length raw_data - length (List.filter stroke_type_unset raw_data))%nat /\
  (length (List.filter stroke_type_unset raw_data) <= length raw_data)%nat.
Proof.
  pose proof (length_new_cleaned_data raw_data) as Hclean.
  unfold saved, issues; simpl.
  split; [apply length_map|].
  split; [reflexivity|].
  split; [now rewrite filter_map, length_map|].
  split; lia.
Qed.

(** C1 as the specification states it does not hold: with one of two
    patients lacking a stroke type, the saved cleaned table has one row and
    the saved issue log has two rows, not the raw row count minus the
    dropped row; its second row is that of the dropped patient. *)
Lemma issue_log_keeps_dropped_patient :
  length Samples.raw_two_patients = 2%nat /\
  length (List.filter stroke_type_unset Samples.raw_two_patients) = 1%nat /\
  length (saved Samples.raw_two_patients).1 = 1%nat /\
  length (saved Samples.raw_two_patients).2 = 2%nat /\
  length (saved Samples.raw_two_patients).2 <>
    (length Samples.raw_two_patients
     - length (List.filter stroke_type_unset Samples.raw_two_patients))%nat /\
  Issues.missing_stroke_type <$> (saved Samples.raw_two_patients).2 = [false; true].
Proof. vm_compute. repeat split; try reflexivity. discriminate. Qed.

(** *** Severity sub-scores *)

Lemma row_min_all_missing (scores : list cell) :
  Forall (fun c => c = None) scores -> row_min scores = None.
Proof.
  induction 1 as [|c scores -> _ IH]; [reflexivity|].
  unfold row_min, skipna_fold in *. simpl. exact IH.
Qed.

Lemma nihss_complete_of_zero (scores : list cell) :
  nihss_complete_of scores = 0 <-> row_min scores = Some (-1).
Proof.
  unfold nihss_complete_of, cell_eq, cmp.
  destruct (row_min scores) as [v|]; [|split; discriminate].
  destruct (Z.eqb_spec v (-1)) as [->|Hne]; split; try reflexivity;
    try discriminate.
  intros [= ->]. now destruct Hne.
Qed.

Lemma row_min_cons (c : cell) (row : list cell) :
  row_min (c :: row)
  = match c, row_min row with
    | Some v, Some w => Some (Z.min v w)
    | Some v, None => Some v
    | None, acc => acc
    end.
Proof. reflexivity. Qed.

Lemma row_min_None (row : list cell) :
  row_min row = None -> forall v, ~ In (Some v) row.
Proof.
  induction row as [|c row IH]; intros H v; [intros []|].
  rewrite row_min_cons in H. destruct c as [u|].
  - destruct (row_min row); discriminate.
  - intros [Hc|Hin]; [discriminate|]. now apply (IH H v).
Qed.

Lemma row_min_spec (row : list cell) (m : Z) :
  row_min row = Some m
  <-> In (Some m) row /\ (forall v, In (Some v) row -> m <= v).
Proof.
  revert m. induction row as [|c row IH]; intros m.
  - split; [discriminate|now intros [[] _]].
  - rewrite row_min_cons. destruct c as [v|].
    + destruct (row_min row) as [w|] eqn:E.
      * destruct (proj1 (IH w) eq_refl) as [Hin Hlow]. split.
        -- intros [= <-]. split.
           ++ destruct (Z.min_spec v w) as [[_ ->]|[_ ->]]; [now left|now right].
           ++ intros u [[= <-]|Hu]; [lia|]. specialize (Hlow u Hu). lia.
        -- intros [Hm Hlow']. f_equal.
           assert (m <= v) by (apply Hlow'; now left).
           assert (m <= w) by (apply Hlow'; now right).
           destruct Hm as [[= ->]|Hm]; [lia|].
           specialize (Hlow m Hm). lia.
      * pose proof (row_min_None row E) as Hnone. split.
        -- intros [= <-]. split; [now left|].
           intros u [[= <-]|Hu]; [lia|]. now destruct (Hnone u).
        -- intros [[[= ->]|Hm] _]; [reflexivity|]. now destruct (Hnone m).
    + rewrite IH. split; intros [Hin Hlow].
      * split; [now right|]. intros u [Hu|Hu]; [discriminate|]. now apply Hlow.
      * destruct Hin as [Hin|Hin]; [discriminate|]. split; [exact Hin|].
        intros u Hu. apply Hlow. now right.
Qed.

(** The minimum is missing exactly when every value of the row is. *)
Lemma row_min_missing (row : list cell) :
  row_min row = None <-> Forall (fun c => c = None) row.
Proof.
  split; [|apply row_min_all_missing].
  intros H. apply Forall_forall. intros c Hc.
  destruct c as [v|]; [|reflexivity].
  destruct (row_min_None row H v). now apply list_elem_of_In.
Qed.

(** C10.  The minimum over the sub-score columns of the raw row skips the
    missing values: it is a value m exactly when m is one of the sub-scores
    and no sub-score that is present is below m, and it is missing exactly
    when every sub-score is missing.  [nihss_complete] is 0 exactly when
    this minimum is -1, that is, when some sub-score is -1 and no sub-score
    that is present is below -1, whatever sub-scores are missing; it is 1 in
    every other case.  When all the sub-scores of the raw row are missing
    the minimum is missing, the comparison with -1 fails and
    [nihss_complete] is 1. *)
Theorem nihss_complete_zero_iff_min_is_minus1 (raw : RawRecord) :
  (nihss_complete (clean_row raw) = Some 0 <-> row_min (nihss raw) = Some (-1)) /\
  (nihss_complete (clean_row raw) <> Some 0 ->
   nihss_complete (clean_row raw) = Some 1) /\
  (Forall (fun c => c = None) (nihss raw) ->
   row_min (nihss raw) = None /\ nihss_complete (clean_row raw) = Some 1) /\
  (forall m, row_min (nihss raw) = Some m
             <-> In (Some m) (nihss raw) /\
                 (forall v, In (Some v) (nihss raw) -> m <= v)) /\
  (row_min (nihss raw) = None <-> Forall (fun c => c = None) (nihss raw)) /\
  (nihss_complete (clean_row raw) = Some 0
   <-> In (Some (-1)) (nihss raw) /\
       (forall v, In (Some v) (nihss raw) -> -1 <= v)).
Proof.
  change (nihss_complete (clean_row raw))
    with (Some (nihss_complete_of (nihss raw))).
  assert (Hzero : Some (nihss_complete_of (nihss raw)) = Some 0
                  <-> row_min (nihss raw) = Some (-1)).
  { rewrite <- nihss_complete_of_zero. split; [now intros [= ->] | now intros ->]. }
  split; [exact Hzero|]. split; [|split; [|split; [|split]]].
  - unfold nihss_complete_of. now destruct (cell_eq _ _).
  - intros Hall. apply row_min_all_missing in Hall.
    split; [exact Hall|]. unfold nihss_complete_of. now rewrite Hall.
  - intros m. apply row_min_spec.
  - apply row_min_missing.
  - rewrite Hzero. apply row_min_spec.
Qed.

(** A patient none of whose fifteen sub-scores is recorded is reported as
    completely assessed; a patient with one sub-score not recorded and
    another not assessed is reported as incompletely assessed, the missing
    value being skipped by the minimum. *)
Lemma nihss_complete_of_unassessed_patient :
  (row_min (repeat None 15) = None /\
   nihss_complete (clean_row (Samples.raw_row None None (repeat None 15))) = Some 1) /\
  nihss_complete
    (clean_row (Samples.raw_row None None Samples.scores_missing_and_unassessed))
  = Some 0.
Proof.
  split.
  - apply (proj1 (proj2 (proj2 (nihss_complete_zero_iff_min_is_minus1
                                  (Samples.raw_row None None (repeat None 15)))))).
    simpl. repeat constructor.
  - apply (proj2 (proj2 (proj2 (proj2 (proj2
             (nihss_complete_zero_iff_min_is_minus1
                (Samples.raw_row None None Samples.scores_missing_and_unassessed))))))).
    split.
    + simpl. right. left. reflexivity.
    + intros v Hv. simpl in Hv.
      repeat (destruct Hv as [Hv|Hv];
              [first [discriminate Hv | injection Hv as <-; lia]|]).
      destruct Hv.
Defined.

Example nihss_complete_one_unassessed :
  nihss_complete
    (clean_row (Samples.raw_row None None Samples.scores_one_unassessed)) = Some 0.
Proof. reflexivity. Qed.

(** *** Indicator columns *)

Lemma is_indicator_nan_or (b : bool) (c : cell) :
  is_indicator c -> is_indicator (if b then None else c).
Proof. destruct b; [right; right; reflexivity | trivial]. Qed.

Lemma series_map_indicator {K : Type} `{Countable K} (d : dict K Z) (x : option K) :
  map_Forall (fun _ v => v = 0 \/ v = 1) (entries d) ->
  match nan_entry d with Some v => v = 0 \/ v = 1 | None => True end ->
  is_indicator (series_map d x).
Proof.
  intros Hd Hnan. unfold is_indicator, series_map.
  destruct x as [k|].
  - destruct (entries d !! k) as [v|] eqn:E; [|auto].
    destruct (Hd k v E) as [-> | ->]; auto.
  - destruct (nan_entry d) as [v|]; [|auto].
    destruct Hnan as [-> | ->]; auto.
Qed.

Lemma row_max_indicator (a b : cell) :
  is_indicator a -> is_indicator b -> is_indicator (row_max [a; b]).
Proof.
  unfold is_indicator. intros [->|[->| ->]] [->|[->| ->]]; cbn; auto.
Qed.

(** Every value of a dict literal is 0 or 1. *)
Ltac dict_entries :=
  apply map_Forall_lookup; intros ? ? Hlk; cbn in Hlk;
  repeat match type of Hlk with
  | <[_ := _]> _ !! _ = Some _ =>
      apply lookup_insert_Some in Hlk; destruct Hlk as [[_ <-] | [_ Hlk]]; [auto|]
  | ∅ !! _ = Some _ => rewrite lookup_empty in Hlk; discriminate
  end.

(** A column that is a mapped raw column or a 0/1 test, possibly set to
    missing by later passes. *)
Ltac indicator :=
  repeat (apply is_indicator_nan_or);
  first
    [ apply series_map_indicator; [dict_entries | cbn; auto]
    | match goal with
      | |- is_indicator (Some (if ?b then _ else _)) =>
          destruct b; unfold is_indicator; auto
      end ].

(** C8.  Whatever the raw row holds, each derived indicator column of its
    cleaned row (sex, stroke type, the onset indicators, arrival by
    ambulance, thrombolysis, thrombectomy, the comorbidity and anticoagulant
    indicators, the atrial fibrillation markers, the completeness of the
    severity assessment, death, the reasons for no thrombolysis) is 0, 1 or
    missing, after the four passes on unusual results. *)
Theorem indicator_columns_are_0_1_or_missing (raw : RawRecord) :
  Forall (fun col => is_indicator (col (clean_row raw))) indicator_columns.
Proof.
  unfold indicator_columns.
  repeat apply Forall_cons_2; try apply Forall_nil_2;
    unfold clean_row, clean_death, clean_anticoagulant, clean_onset,
      clean_ambulance;
    cbn [nan_death_markers nan_anticoagulant nan_onset_to_arrival_time
         nan_amb_col nan_amb_col_and_arrive derive
         male infarction onset_known precise_onset_known onset_during_sleep
         arrive_by_ambulance thrombolysis thrombectomy
         congestive_heart_failure hypertension atrial_fibrillation diabetes
         prior_stroke_tia afib_antiplatelet afib_anticoagulant
         afib_vit_k_anticoagulant afib_doac_anticoagulant
         afib_heparin_anticoagulant new_afib_diagnosis any_afib_diagnosis
         nihss_complete death
         thrombolysis_no_not_available thrombolysis_no_out_of_hours
         thrombolysis_no_scan_not_quick_enough thrombolysis_no_no_reason].
  all: try (unfold make_no_thrombolysis; indicator).
  - (* afib_antiplatelet *)
    destruct (_ && _); [left; reflexivity | indicator].
  - (* any_afib_diagnosis *)
    apply row_max_indicator; indicator.
  - (* nihss_complete *)
    unfold nihss_complete_of. indicator.
Qed.

(** *** Comorbidities *)

Lemma comorbid_marker_values :
  series_map comorbid_marker (Some "Y"%string) = Some 1 /\
  series_map comorbid_marker (Some "N"%string) = Some 0 /\
  series_map comorbid_marker (Some "NB"%string) = Some 0 /\
  series_map comorbid_marker None = None.
Proof. repeat split; reflexivity. Qed.

Lemma anticoag_type_map_values :
  series_map anticoag_type_map (Some 1) = Some 1 /\
  series_map anticoag_type_map (Some 0) = Some 0 /\
  series_map anticoag_type_map None = Some 0.
Proof. repeat split; reflexivity. Qed.

(** The parent anticoagulant column as derived: 1 for the answer Y, 0 for
    any other answer and for no answer. *)
Lemma afib_anticoagulant_derived (raw : RawRecord) :
  afib_anticoagulant (derive raw)
  = Some (if str_eq (S2CoMAFAnticoagulent raw) "Y" then 1 else 0).
Proof.
  cbn [derive afib_anticoagulant].
  destruct (S2CoMAFAnticoagulent raw) as [s|]; [|reflexivity].
  cbn [str_eq series_map].
  destruct (String.eqb_spec s "Y") as [->|Hne]; [reflexivity|].
  destruct (entries comorbid_marker !! s) as [v|] eqn:E; [|reflexivity].
  cbn in E.
  apply lookup_insert_Some in E. destruct E as [[<- _] | [_ E]]; [now destruct Hne|].
  apply lookup_insert_Some in E. destruct E as [[_ <-] | [_ E]]; [reflexivity|].
  apply lookup_insert_Some in E. destruct E as [[_ <-] | [_ E]]; [reflexivity|].
  rewrite lookup_empty in E. discriminate.
Qed.

(** C5 (as the notebook has it).  Y/N/NB map to 1/0/0 and a missing answer
    stays missing for the five comorbidity columns that are mapped and then
    left alone.  The antiplatelet column is mapped in the same way, except
    that a missing value becomes 0 when the atrial fibrillation column is
    0.  The parent anticoagulant column does not keep a missing answer: it
    is derived as 1 for Y and as 0 otherwise, as the three anticoagulant
    types are derived with missing as 0; these four columns are then all set
    to missing on the rows where the parent is 0 and some type is 1. *)
Theorem comorbidity_missing_semantics (raw : RawRecord) :
  (series_map comorbid_marker (Some "Y"%string) = Some 1 /\
   series_map comorbid_marker (Some "N"%string) = Some 0 /\
   series_map comorbid_marker (Some "NB"%string) = Some 0 /\
   series_map comorbid_marker None = None) /\
  Forall (fun col => col.2 (clean_row raw) = series_map comorbid_marker (col.1 raw))
         comorbidities_as_mapped /\
  afib_antiplatelet (clean_row raw)
  = match series_map comorbid_marker (S2CoMAFAntiplatelet raw) with
    | Some v => Some v
    | None => if cell_eq (atrial_fibrillation (clean_row raw)) 0
              then Some 0 else None
    end /\
  afib_anticoagulant (derive raw)
  = Some (if str_eq (S2CoMAFAnticoagulent raw) "Y" then 1 else 0) /\
  (series_map anticoag_type_map (Some 1) = Some 1 /\
   series_map anticoag_type_map (Some 0) = Some 0 /\
   series_map anticoag_type_map None = Some 0) /\
  Forall (fun col => col.2 (derive raw) = series_map anticoag_type_map (col.1 raw))
         anticoag_type /\
  Forall (fun col : CleanRecord -> cell =>
            col (clean_row raw)
            = if anticoag_discrep (derive raw) then None else col (derive raw))
         (afib_anticoagulant :: anticoag_type.*2).
Proof.
  split; [exact comorbid_marker_values|].
  split; [repeat constructor|].
  split.
  { change (atrial_fibrillation (clean_row raw))
      with (series_map comorbid_marker (S2CoMAtrialFibrillation raw)).
    change (afib_antiplatelet (clean_row raw))
      with (if cell_eq (series_map comorbid_marker (S2CoMAtrialFibrillation raw)) 0
               && isnull (series_map comorbid_marker (S2CoMAFAntiplatelet raw))
            then Some 0
            else series_map comorbid_marker (S2CoMAFAntiplatelet raw)).
    destruct (series_map comorbid_marker (S2CoMAFAntiplatelet raw)) as [v|];
      cbn [isnull]; [now rewrite andb_false_r|].
    rewrite andb_true_r. now destruct (cell_eq _ 0). }
  split; [apply afib_anticoagulant_derived|].
  split; [exact anticoag_type_map_values|].
  split; repeat constructor.
Qed.

(** C5 as the specification states it does not hold: the answer on
    anticoagulants is a comorbidity indicator other than the antiplatelet
    one and none of the three anticoagulant types, and a missing answer is
    cleaned to 0. *)
Lemma anticoagulant_missing_becomes_zero :
  S2CoMAFAnticoagulent (Samples.raw_row (Some "I"%string) None (repeat None 15)) = None /\
  afib_anticoagulant
    (clean_row (Samples.raw_row (Some "I"%string) None (repeat None 15))) = Some 0 /\
  afib_anticoagulant
    (clean_row (Samples.raw_row (Some "I"%string) None (repeat None 15))) <> None.
Proof. repeat split; try reflexivity. discriminate. Qed.

End CleanerProperties.

(** ** The Reformatter *)

Section ReformatterProperties.

Import Reformatter.

(** *** Patient filters *)

Lemma elem_of_boolean_index_mask {A : Type} (l : list A) (mask : list bool) (x : A) :
  x ∈ boolean_index l mask -> x ∈ l.
Proof.
  revert mask.
  induction l as [|y l IH]; intros [|b mask]; cbn;
    try (intros H; now inversion H).
  destruct b; intros H.
  - apply elem_of_cons in H. destruct H as [->|H]; [left | right; eauto].
  - right; eauto.
Qed.

Lemma filter_patients_spec (all_data : list Row) (r : Row) :
  r ∈ filter_patients all_data <->
  r ∈ all_data /\
  cell_ge (year r) 2016 = true /\
  cell_eq (infarction r) 1 = true /\
  cell_eq (arrive_by_ambulance r) 1 = true /\
  cell_eq (thrombectomy r) 0 = true /\
  cell_ge (prior_disability r) 0 = true /\
  cell_ge (discharge_disability r) 0 = true /\
  cell_le (onset_to_arrival_time r) 0 = false /\
  cell_eq (onset_known r) 1 = true.
Proof.
  unfold filter_patients. cbv zeta.
  rewrite map_map, !elem_of_boolean_index.
  destruct (cell_le (onset_to_arrival_time r) 0); cbn; intuition congruence.
Qed.

(** *** Hospital gates *)

Lemma groupby_lookup (data : list Row) (t : string) :
  groupby data !! t
  = match rows_of t data with [] => None | _ :: _ => Some (rows_of t data) end.
Proof.
  induction data as [|r data IH]; [reflexivity|].
  cbn [groupby foldr]. fold (groupby data).
  unfold rows_of in *. cbn [List.filter].
  destruct (String.eqb_spec (stroke_team r) t) as [->|Hne].
  - rewrite lookup_insert_eq, IH. f_equal. f_equal.
    now destruct (List.filter _ data).
  - now rewrite lookup_insert_ne.
Qed.

Lemma rows_of_in (data : list Row) (r : Row) :
  r ∈ data -> rows_of (stroke_team r) data <> [].
Proof.
  intros Hin Hnil.
  assert (H : In r (rows_of (stroke_team r) data)).
  { apply List.filter_In. split; [now apply list_elem_of_In|].
    apply String.eqb_refl. }
  rewrite Hnil in H. destruct H.
Qed.

(** A gate keeps the rows of the teams whose total reaches the threshold,
    whatever the total is a total of. *)
Lemma filter_stroke_team_spec (data : list Row) (th : Z) (agg : list Row -> Z) :
  filter_stroke_team data th (agg <$> groupby data)
  = List.filter (fun r => th <=? agg (rows_of (stroke_team r) data)) data.
Proof.
  unfold filter_stroke_team. rewrite boolean_index_filter.
  apply List.filter_ext_in. intros r Hin. apply list_elem_of_In in Hin.
  apply rows_of_in in Hin.
  assert (Hlk : (agg <$> groupby data) !! stroke_team r
                = Some (agg (rows_of (stroke_team r) data))).
  { rewrite lookup_fmap, groupby_lookup.
    now destruct (rows_of (stroke_team r) data). }
  destruct (Z.leb_spec th (agg (rows_of (stroke_team r) data))) as [Hle|Hlt].
  - apply bool_decide_eq_true. apply list_elem_of_fmap.
    exists (stroke_team r, agg (rows_of (stroke_team r) data)).
    split; [reflexivity|].
    apply elem_of_map_to_list, map_lookup_filter_Some.
    split; [exact Hlk | exact Hle].
  - apply bool_decide_eq_false. intros Hel.
    apply list_elem_of_fmap in Hel. destruct Hel as [[t v] [Ht Hel]].
    cbn in Ht. subst t.
    apply elem_of_map_to_list, map_lookup_filter_Some in Hel.
    destruct Hel as [Hv Hle]. rewrite Hlk in Hv. injection Hv as <-.
    cbn in Hle. lia.
Qed.

Lemma filter_hospitals_spec (data : list Row) :
  filter_hospitals data
  = List.filter
      (fun r => 10 <=? treatments
                         (List.filter (fun r => 250 <=? admissions data (stroke_team r)) data)
                         (stroke_team r))
      (List.filter (fun r => 250 <=? admissions data (stroke_team r)) data).
Proof.
  unfold filter_hospitals, stroke_team_admissions, stroke_team_thrombolysis.
  rewrite (filter_stroke_team_spec data _ (fun g => Z.of_nat (length g))).
  rewrite (filter_stroke_team_spec _ _ (fun g => col_sum (map thrombolysis g))).
  reflexivity.
Qed.

Lemma filter_all {A : Type} (f : A -> bool) (l : list A) :
  (forall x, x ∈ l -> f x = true) -> List.filter f l = l.
Proof.
  induction l as [|x l IH]; intros H; [reflexivity|]. cbn.
  rewrite (H x) by left. f_equal. apply IH. intros y Hy. apply H. now right.
Qed.

(** C4.  The two gates are applied one after the other, each with [>=]:
    the first keeps the rows of the teams with at least 250 admissions in
    the table, the second keeps, of those rows, the rows of the teams with
    at least 10 thrombolyses in the table the first gate returned.  On a
    table of two teams, one with exactly 250 admissions and 9 thrombolyses
    and one with 251 admissions and 10 thrombolyses, the rows that survive
    both gates are exactly those of the second team. *)
Theorem hospital_gates_in_sequence :
  (forall data : list Row,
     filter_hospitals data
     = List.filter
         (fun r => 10 <=? treatments
                            (List.filter (fun r => 250 <=? admissions data (stroke_team r)) data)
                            (stroke_team r))
         (List.filter (fun r => 250 <=? admissions data (stroke_team r)) data)) /\
  (forall (data : list Row) (a b : string),
     (forall r, r ∈ data -> stroke_team r = a \/ stroke_team r = b) ->
     admissions data a = 250 -> treatments data a = 9 ->
     admissions data b = 251 -> treatments data b = 10 ->
     filter_hospitals data = rows_of b data).
Proof.
  split; [exact filter_hospitals_spec|].
  intros data a b Hteams Ha Hta Hb Htb.
  rewrite filter_hospitals_spec.
  assert (Hab : a <> b) by (intros ->; rewrite Ha in Hb; discriminate).
  rewrite (filter_all (fun r => 250 <=? admissions data (stroke_team r)) data).
  - apply List.filter_ext_in. intros r Hin. apply list_elem_of_In in Hin.
    destruct (Hteams r Hin) as [-> | ->].
    + rewrite Hta. symmetry. now apply String.eqb_neq.
    + rewrite Htb. symmetry. apply String.eqb_refl.
  - intros r Hin. destruct (Hteams r Hin) as [-> | ->].
    + now rewrite Ha.
    + now rewrite Hb.
Qed.

Lemma two_sites_teams (r : Row) :
  r ∈ Samples.two_sites -> stroke_team r = "A"%string \/ stroke_team r = "B"%string.
Proof.
  unfold Samples.two_sites, Samples.site. rewrite !elem_of_app.
  intros [[H|H]|[H|H]]; apply list_elem_of_In, repeat_spec in H; subst r; auto.
Qed.

(** The synthetic table of the specification: only the second site is
    left. *)
Lemma hospital_gates_on_two_sites :
  filter_hospitals Samples.two_sites = rows_of "B" Samples.two_sites.
Proof.
  apply (proj2 hospital_gates_in_sequence Samples.two_sites "A"%string "B"%string).
  - exact two_sites_teams.
  - reflexivity.
  - reflexivity.
  - reflexivity.
  - reflexivity.
Defined.

Example hospital_gates_two_sites_rows :
  filter_hospitals Samples.two_sites = Samples.site "B" 251 10.
Proof. vm_compute. reflexivity. Qed.

Lemma rows_of_filter_team (p : string -> bool) (data : list Row) (t : string) :
  rows_of t (List.filter (fun r => p (stroke_team r)) data)
  = if p t then rows_of t data else [].
Proof.
  unfold rows_of. induction data as [|r data IH]; cbn [List.filter];
    [now destruct (p t)|].
  destruct (p (stroke_team r)) eqn:Hp; cbn [List.filter]; rewrite IH;
    destruct (String.eqb (stroke_team r) t) eqn:E; try reflexivity;
    apply String.eqb_eq in E; now rewrite <- E, Hp.
Qed.

Lemma filter_filter {A : Type} (f g : A -> bool) (l : list A) :
  List.filter f (List.filter g l) = List.filter (fun x => g x && f x) l.
Proof.
  induction l as [|x l IH]; cbn; [reflexivity|].
  destruct (g x); cbn; [destruct (f x)|]; now rewrite IH.
Qed.

(** A gate drops whole teams, so the totals of the teams that pass the first
    gate are those of the table before it: the two gates keep the rows of the
    teams that reach both thresholds in the table they are given. *)
Lemma hospital_gates_on_whole_table_totals (data : list Row) :
  filter_hospitals data
  = List.filter (fun r => (250 <=? admissions data (stroke_team r))
                          && (10 <=? treatments data (stroke_team r))) data.
Proof.
  rewrite filter_hospitals_spec, filter_filter.
  apply List.filter_ext. intros r.
  destruct (250 <=? admissions data (stroke_team r)) eqn:Hadm; [|reflexivity].
  cbn. unfold treatments.
  rewrite (rows_of_filter_team (fun t => 250 <=? admissions data t)).
  now rewrite Hadm.
Qed.
(** *** The rows of the output *)

Section Pipeline.

Context {rng : Type} (seed : Z -> rng) (randbelow : nat -> rng -> nat * rng)
        (set_order : list string -> list string).

Lemma filter_hospitals_subset (data : list Row) (r : Row) :
  r ∈ filter_hospitals data -> r ∈ data.
Proof.
  unfold filter_hospitals, filter_stroke_team. intros H.
  now do 2 apply elem_of_boolean_index_mask in H.
Qed.

(** A row of the output comes from a row that passed the patient filters;
    it is that row with the team name stripped and the duration edited, and
    the composite duration computed from it. *)
Lemma elem_of_reformat file all_data (r : CohortRow) :
  r ∈ data (reformat seed randbelow set_order file all_data) ->
  exists r0, r0 ∈ filter_patients all_data /\
             row r = edit_scan_to_thrombolysis (strip_team r0) /\
             onset_to_thrombolysis_time r = calculate_onset_to_thrombolysis (row r).
Proof.
  unfold reformat. cbn [data]. intros H.
  apply list_elem_of_fmap in H. destruct H as [r1 [-> H]].
  apply list_elem_of_fmap in H. destruct H as [r2 [-> H]].
  apply filter_hospitals_subset in H.
  apply list_elem_of_fmap in H. destruct H as [r0 [-> H]].
  exists r0. cbn. auto.
Qed.

(** C3.  In every row of the output, the duration from scan to thrombolysis
    is -100 when the thrombolysis indicator is 0; the duration from onset to
    thrombolysis is -100 when the duration from scan to thrombolysis is
    -100, and is otherwise the sum of onset to arrival, arrival to scan and
    scan to thrombolysis (missing when one of the three is missing). *)
Theorem onset_to_thrombolysis_sentinel_or_sum file all_data (r : CohortRow) :
  r ∈ data (reformat seed randbelow set_order file all_data) ->
  (thrombolysis (row r) = Some 0 ->
   scan_to_thrombolysis_time (row r) = Some (-100)) /\
  (scan_to_thrombolysis_time (row r) = Some (-100) ->
   onset_to_thrombolysis_time r = Some (-100)) /\
  (scan_to_thrombolysis_time (row r) <> Some (-100) ->
   onset_to_thrombolysis_time r
   = add (add (onset_to_arrival_time (row r)) (arrival_to_scan_time (row r)))
         (scan_to_thrombolysis_time (row r))).
Proof.
  intros H. apply elem_of_reformat in H. destruct H as [r0 [_ [Hrow Hcalc]]].
  rewrite Hcalc. clear Hcalc. split; [|split].
  - rewrite Hrow. cbn. now intros ->.
  - unfold calculate_onset_to_thrombolysis. now intros ->.
  - unfold calculate_onset_to_thrombolysis, cell_ne, cell_eq, cmp.
    destruct (scan_to_thrombolysis_time (row r)) as [v|]; [|reflexivity].
    intros Hne.
    destruct (Z.eqb_spec v (-100)) as [->|]; [now destruct Hne | reflexivity].
Qed.

(** C6 (as the notebook has it).  The filter on the onset to arrival time
    removes the rows at which it is zero or negative, and keeps the rows at
    which it is missing: in every row of the output the onset to arrival
    time is missing or strictly positive. *)
Theorem onset_to_arrival_positive_or_missing file all_data (r : CohortRow) :
  r ∈ data (reformat seed randbelow set_order file all_data) ->
  onset_to_arrival_time (row r) = None \/
  exists v, onset_to_arrival_time (row r) = Some v /\ 0 < v.
Proof.
  intros H. apply elem_of_reformat in H. destruct H as [r0 [Hin [Hrow _]]].
  apply filter_patients_spec in Hin.
  destruct Hin as (_ & _ & _ & _ & _ & _ & _ & Hle & _).
  rewrite Hrow. cbn.
  unfold cell_le, cmp in Hle.
  destruct (onset_to_arrival_time r0) as [v|]; [right | left; reflexivity].
  exists v. split; [reflexivity|]. now apply Z.leb_gt in Hle.
Qed.

End Pipeline.

Lemma treated_cohort_row_in_output :
  Samples.treated_cohort_row
  ∈ data (reformat Samples.seed0 Samples.randbelow0 remove_dups None Samples.two_sites).
Proof. vm_compute. apply list_elem_of_here. Qed.

(** A treated patient of the synthetic table: 90 + 20 + 30 minutes. *)
Lemma onset_to_thrombolysis_of_treated_patient :
  onset_to_thrombolysis_time Samples.treated_cohort_row = Some 140.
Proof.
  apply (onset_to_thrombolysis_sentinel_or_sum
           Samples.seed0 Samples.randbelow0 remove_dups None Samples.two_sites
           Samples.treated_cohort_row treated_cohort_row_in_output).
  discriminate.
Defined.

Lemma onset_to_arrival_of_treated_patient :
  onset_to_arrival_time (row Samples.treated_cohort_row) = None \/
  exists v, onset_to_arrival_time (row Samples.treated_cohort_row) = Some v /\ 0 < v.
Proof.
  apply (onset_to_arrival_positive_or_missing
           Samples.seed0 Samples.randbelow0 remove_dups None Samples.two_sites
           Samples.treated_cohort_row treated_cohort_row_in_output).
Defined.

(** C6 as the specification states it does not hold: a patient whose onset
    to arrival time is missing passes the patient filters and is the first
    row of the output, where the column is kept. *)
Lemma missing_onset_to_arrival_survives :
  filter_patients [Samples.cohort_row "B" false None]
    = [Samples.cohort_row "B" false None] /\
  (fun r => onset_to_arrival_time (row r))
    <$> head (data (reformat Samples.seed0 Samples.randbelow0 remove_dups None
                             Samples.site_with_missing_onset))
    = Some None /\
  bool_decide ("onset_to_arrival_time"%string
               ∈ dropped (reformat Samples.seed0 Samples.randbelow0 remove_dups None
                                   Samples.site_with_missing_onset))
    = false.
Proof. vm_compute. repeat split; reflexivity. Qed.

(** *** Team codes *)

Lemma remove_dups_is_set_order : is_set_order remove_dups.
Proof.
  intros l. split; [apply NoDup_remove_dups|].
  intros x. apply elem_of_remove_dups.
Qed.

Lemma rev_remove_dups_is_set_order : is_set_order (fun l => rev (remove_dups l)).
Proof.
  intros l. split.
  - rewrite <- Permutation_rev. apply NoDup_remove_dups.
  - intros x. rewrite <- Permutation_rev. apply elem_of_remove_dups.
Qed.

Section TeamCodes.

Context {rng : Type} (seed : Z -> rng) (randbelow : nat -> rng -> nat * rng).

Lemma transpose_involutive (i j k : nat) : transpose i j (transpose i j k) = k.
Proof. unfold transpose. repeat case_decide; congruence. Qed.

Lemma swap_lookup {A : Type} (i j : nat) (x : list A) (k : nat) :
  (i < length x)%nat -> (j < length x)%nat ->
  swap i j x !! k = x !! transpose i j k.
Proof.
  intros Hi Hj. unfold swap, transpose.
  destruct (lookup_lt_is_Some_2 x i Hi) as [xi Exi].
  destruct (lookup_lt_is_Some_2 x j Hj) as [xj Exj].
  rewrite Exi, Exj, !list_lookup_insert, length_insert.
  repeat case_decide;
    repeat match goal with
    | H : _ /\ _ |- _ => destruct H
    | H : ~ (_ /\ _) |- _ => apply not_and_l in H; destruct H
    end; subst; try congruence; try lia.
Qed.

Lemma length_swap {A : Type} (i j : nat) (x : list A) :
  length (swap i j x) = length x.
Proof.
  unfold swap. destruct (x !! j), (x !! i); try reflexivity.
  now rewrite !length_insert.
Qed.

Lemma swap_out_of_range {A : Type} (i j : nat) (x : list A) :
  ~ ((i < length x)%nat /\ (j < length x)%nat) -> swap i j x = x.
Proof.
  intros H. unfold swap.
  destruct (x !! j) as [xj|] eqn:Ej; [|reflexivity].
  destruct (x !! i) as [xi|] eqn:Ei; [|reflexivity].
  apply lookup_lt_Some in Ej, Ei. tauto.
Qed.

Lemma swap_inj {A : Type} (i j : nat) (x x' : list A) :
  length x = length x' -> swap i j x = swap i j x' -> x = x'.
Proof.
  intros Hlen E.
  destruct (decide ((i < length x)%nat /\ (j < length x)%nat)) as [[Hi Hj]|Hout].
  - apply list_eq. intros k.
    transitivity (swap i j x !! transpose i j k).
    + now rewrite swap_lookup, transpose_involutive by assumption.
    + rewrite E, swap_lookup by lia. now rewrite transpose_involutive.
  - rewrite !swap_out_of_range in E by (rewrite <- ?Hlen; exact Hout). exact E.
Qed.

Lemma swap_NoDup {A : Type} (i j : nat) (x : list A) :
  NoDup x -> NoDup (swap i j x).
Proof.
  intros Hnd.
  destruct (decide ((i < length x)%nat /\ (j < length x)%nat)) as [[Hi Hj]|Hout];
    [|now rewrite swap_out_of_range].
  apply NoDup_alt. intros k k' a Hk Hk'.
  rewrite swap_lookup in Hk, Hk' by assumption.
  rewrite NoDup_alt in Hnd. specialize (Hnd _ _ _ Hk Hk').
  rewrite <- (transpose_involutive i j k), Hnd. apply transpose_involutive.
Qed.

Lemma swap_elem_of {A : Type} (i j : nat) (x : list A) (a : A) :
  a ∈ swap i j x <-> a ∈ x.
Proof.
  destruct (decide ((i < length x)%nat /\ (j < length x)%nat)) as [[Hi Hj]|Hout];
    [|now rewrite swap_out_of_range].
  rewrite !list_elem_of_lookup. split; intros [k Hk].
  - rewrite swap_lookup in Hk by assumption. eauto.
  - exists (transpose i j k). rewrite swap_lookup by assumption.
    now rewrite transpose_involutive.
Qed.

Lemma shuffle_from_props {A : Type} (i : nat) (g : rng) (x : list A) :
  length (shuffle_from randbelow i g x).1 = length x /\
  (NoDup x -> NoDup (shuffle_from randbelow i g x).1) /\
  (forall a, a ∈ (shuffle_from randbelow i g x).1 <-> a ∈ x).
Proof.
  revert g x. induction i as [|i IH]; intros g x; cbn [shuffle_from]; [tauto|].
  destruct (randbelow (S (S i)) g) as [j g'].
  destruct (IH g' (swap (S i) j x)) as (Hl & Hnd & Hel).
  rewrite Hl, length_swap. split; [reflexivity|]. split.
  - intros H. now apply Hnd, swap_NoDup.
  - intros a. now rewrite Hel, swap_elem_of.
Qed.

Lemma shuffle_from_inj {A : Type} (i : nat) (g : rng) (x x' : list A) :
  length x = length x' ->
  (shuffle_from randbelow i g x).1 = (shuffle_from randbelow i g x').1 -> x = x'.
Proof.
  revert g x x'. induction i as [|i IH]; intros g x x' Hlen; cbn [shuffle_from];
    [auto|].
  destruct (randbelow (S (S i)) g) as [j g'].
  intros E. apply IH in E; [|now rewrite !length_swap].
  now apply swap_inj in E.
Qed.

(** The loop that fills the dict leaves the teams that are not listed as
    they were, and gives the team at position [k] the code [k + 1]. *)
Lemma fill_codes_other (t : string) (l : list string) :
  forall (start : nat) (d : gmap string Z),
  t ∉ l ->
  foldl set_team_code d (zip (seq start (length l)) l) !! t = d !! t.
Proof.
  induction l as [|b l IH]; intros start d Hb; [reflexivity|].
  cbn [length seq zip zip_with foldl]. rewrite IH.
  - unfold set_team_code. cbn [fst snd]. apply lookup_insert_ne.
    intros ->. apply Hb. left.
  - intros H. apply Hb. now right.
Qed.

Lemma fill_codes_at (t : string) (l : list string) :
  forall (start : nat) (d : gmap string Z) (k : nat),
  NoDup l -> l !! k = Some t ->
  foldl set_team_code d (zip (seq start (length l)) l) !! t
  = Some (Z.of_nat (start + k) + 1).
Proof.
  induction l as [|a l IH]; intros start d k Hnd Hk; [discriminate|].
  apply NoDup_cons in Hnd. destruct Hnd as [Ha Hnd].
  cbn [length seq zip zip_with foldl]. destruct k as [|k]; cbn in Hk.
  - injection Hk as ->. rewrite fill_codes_other by exact Ha.
    unfold set_team_code. cbn [fst snd]. rewrite lookup_insert_eq.
    do 2 f_equal. lia.
  - rewrite (IH (S start) _ k Hnd Hk). do 2 f_equal. lia.
Qed.

(** Whatever the generator, two runs give the same codes only if the set of
    team names was listed in the same order in both. *)
Lemma team_codes_follow_set_order (data : list Row)
    (order1 order2 : list string -> list string) :
  is_set_order order1 -> is_set_order order2 ->
  create_teams_code_dict seed randbelow order1 data
  = create_teams_code_dict seed randbelow order2 data ->
  order1 (map stroke_team data) = order2 (map stroke_team data).
Proof.
  intros H1 H2 E.
  destruct (H1 (map stroke_team data)) as [Hnd1 Hel1].
  destruct (H2 (map stroke_team data)) as [Hnd2 Hel2].
  set (l1 := order1 (map stroke_team data)) in *.
  set (l2 := order2 (map stroke_team data)) in *.
  assert (Hlen : length l1 = length l2).
  { apply Permutation_length, NoDup_Permutation; try assumption.
    intros x. now rewrite Hel1, Hel2. }
  unfold create_teams_code_dict, shuffled_teams, enumerate in E. fold l1 l2 in E.
  unfold shuffle in E. rewrite <- Hlen in E.
  destruct (shuffle_from_props (length l1 - 1) (seed 42) l1) as (Hl1 & Hn1 & _).
  destruct (shuffle_from_props (length l1 - 1) (seed 42) l2) as (Hl2 & Hn2 & _).
  apply (shuffle_from_inj (length l1 - 1) (seed 42)); [exact Hlen|].
  set (s1 := (shuffle_from randbelow (length l1 - 1) (seed 42) l1).1) in *.
  set (s2 := (shuffle_from randbelow (length l1 - 1) (seed 42) l2).1) in *.
  specialize (Hn1 Hnd1). specialize (Hn2 Hnd2).
  apply list_eq. intros i.
  destruct (s1 !! i) as [t|] eqn:E1.
  - pose proof (fill_codes_at t s1 O ∅ i Hn1 E1) as D1. rewrite E in D1.
    destruct (decide (t ∈ s2)) as [Ht2|Hnot].
    + apply list_elem_of_lookup in Ht2. destruct Ht2 as [i' Ei'].
      pose proof (fill_codes_at t s2 O ∅ i' Hn2 Ei') as D2.
      rewrite D1 in D2. injection D2 as D2.
      assert (i = i') by lia. subst i'. now rewrite Ei'.
    + rewrite fill_codes_other, lookup_empty in D1 by exact Hnot. discriminate.
  - symmetry. apply lookup_ge_None. apply lookup_ge_None in E1. lia.
Qed.

(** [randbelow(n)] is below [n]. *)
Hypothesis randbelow_lt : forall n g, (0 < n)%nat -> ((randbelow n g).1 < n)%nat.

(** A list of two is left as it is or exchanged, by the one draw made. *)
Lemma shuffle_pair {A : Type} (g : rng) (a b : A) :
  (shuffle randbelow g [a; b]).1 = [a; b] /\ (randbelow 2 g).1 = 1%nat \/
  (shuffle randbelow g [a; b]).1 = [b; a] /\ (randbelow 2 g).1 = 0%nat.
Proof.
  unfold shuffle. cbn [length Nat.sub shuffle_from].
  pose proof (randbelow_lt 2 g ltac:(lia)) as Hlt.
  destruct (randbelow 2 g) as [j g']. cbn in *.
  destruct j as [|[|j]]; [right | left | lia]; split; reflexivity.
Qed.

(** C7 does not hold of the notebook.  The generator is seeded with 42, but
    the list that is shuffled starts in the order in which the set of team
    names is listed, which the table does not fix.  On a table of two teams
    that reaches the cell as it is, two orders that list the same set give
    team A two different codes, whatever the generator. *)
Theorem team_code_depends_on_set_order :
  is_set_order remove_dups /\
  is_set_order (fun l => rev (remove_dups l)) /\
  map edit_scan_to_thrombolysis
      (filter_hospitals (map strip_team (filter_patients Samples.two_passing_sites)))
  = map edit_scan_to_thrombolysis Samples.two_passing_sites /\
  create_teams_code_dict seed randbelow remove_dups
    (map edit_scan_to_thrombolysis Samples.two_passing_sites) !! "A"%string
  <> create_teams_code_dict seed randbelow (fun l => rev (remove_dups l))
       (map edit_scan_to_thrombolysis Samples.two_passing_sites) !! "A"%string.
Proof.
  split; [exact remove_dups_is_set_order|].
  split; [exact rev_remove_dups_is_set_order|].
  split; [vm_compute; reflexivity|].
  unfold create_teams_code_dict, shuffled_teams.
  replace (remove_dups
             (map stroke_team (map edit_scan_to_thrombolysis Samples.two_passing_sites)))
    with ["A"; "B"]%string by (vm_compute; reflexivity).
  cbn [rev app].
  destruct (shuffle_pair (seed 42) "A"%string "B"%string) as [[-> E1]|[-> E1]];
  destruct (shuffle_pair (seed 42) "B"%string "A"%string) as [[-> E2]|[-> E2]];
    try (rewrite E1 in E2; discriminate);
    vm_compute; discriminate.
Qed.

End TeamCodes.

(** With a generator whose draws are all 0: the two files of team codes that
    the notebook would save, and the two codes of team A. *)
Lemma team_code_files_differ :
  teams_code_df (reformat Samples.seed0 Samples.randbelow0 remove_dups None
                          Samples.two_passing_sites)
    = Some [("B"%string, 1); ("A"%string, 2)] /\
  teams_code_df (reformat Samples.seed0 Samples.randbelow0
                          (fun l => rev (remove_dups l)) None
                          Samples.two_passing_sites)
    = Some [("A"%string, 1); ("B"%string, 2)] /\
  create_teams_code_dict Samples.seed0 Samples.randbelow0 remove_dups
    (map edit_scan_to_thrombolysis Samples.two_passing_sites) !! "A"%string
  <> create_teams_code_dict Samples.seed0 Samples.randbelow0
       (fun l => rev (remove_dups l))
       (map edit_scan_to_thrombolysis Samples.two_passing_sites) !! "A"%string.
Proof.
  split; [vm_compute; reflexivity|].
  split; [vm_compute; reflexivity|].
  apply (team_code_depends_on_set_order Samples.seed0 Samples.randbelow0).
  intros n g Hn. exact Hn.
Defined.

End ReformatterProperties.

(** ** The Fold Splitter *)

Section FoldSplitterProperties.

Import FoldSplitter.

(** *** The stratification key *)

Lemma append_String (c : ascii) (s t : string) :
  String c s +:+ t = String c (s +:+ t).
Proof. reflexivity. Qed.

Lemma append_empty (t : string) : EmptyString +:+ t = t.
Proof. reflexivity. Qed.

Lemma has_hyphen_app (s t : string) :
  has_hyphen (s +:+ t) = has_hyphen s || has_hyphen t.
Proof.
  induction s as [|c s IH]; [reflexivity|].
  rewrite append_String. cbn [has_hyphen]. now rewrite IH, orb_assoc.
Qed.

(** A key is cut in an unambiguous way at its last hyphen. *)
Lemma key_split (t1 t2 s1 s2 : string) :
  has_hyphen s1 = false -> has_hyphen s2 = false ->
  (t1 +:+ "-") +:+ s1 = (t2 +:+ "-") +:+ s2 -> t1 = t2 /\ s1 = s2.
Proof.
  intros H1 H2. revert t2.
  induction t1 as [|c t1 IH]; intros [|c2 t2];
    repeat (rewrite append_String || rewrite append_empty); intros E.
  - injection E as E. auto.
  - injection E as Ec E. subst s1. rewrite !has_hyphen_app in H1. cbn in H1.
    rewrite orb_true_r in H1. discriminate.
  - injection E as Ec E. subst s2. rewrite !has_hyphen_app in H2. cbn in H2.
    rewrite orb_true_r in H2. discriminate.
  - injection E as -> E. destruct (IH _ E) as [-> ->]. auto.
Qed.

Lemma uint_no_hyphen (d : Decimal.uint) :
  has_hyphen (NilEmpty.string_of_uint d) = false.
Proof. induction d; cbn; auto. Qed.

Lemma decimal_no_hyphen (z : Z) : 0 <= z -> has_hyphen (decimal z) = false.
Proof.
  intros Hz. unfold decimal. destruct z as [|p|p]; [reflexivity| |lia].
  cbn. unfold NilZero.string_of_uint.
  destruct (Pos.to_uint p) eqn:E; try reflexivity; rewrite <- E;
    apply uint_no_hyphen.
Qed.

Lemma decimal_inj (z1 z2 : Z) : decimal z1 = decimal z2 -> z1 = z2.
Proof.
  unfold decimal. intros E.
  rewrite <- (DecimalZ.of_to z1), <- (DecimalZ.of_to z2). f_equal.
  assert (Hs : forall z, NilZero.int_of_string (NilZero.string_of_int (Z.to_int z))
                         = Some (Z.to_int z)).
  { intros z. apply NilZero.isi; destruct z; cbn; try discriminate;
      intros [= H]; now apply DecimalPos.Unsigned.to_uint_nonnil in H. }
  apply (f_equal NilZero.int_of_string) in E. rewrite !Hs in E. now injection E.
Qed.

Lemma append_inj_l (s1 s2 t : string) :
  String.length s1 = String.length s2 -> s1 +:+ t = s2 +:+ t -> s1 = s2.
Proof.
  revert s2.
  induction s1 as [|c s1 IH]; intros [|c2 s2];
    rewrite ?append_String, ?append_empty; cbn [String.length];
    try discriminate; auto.
  intros [= Hl] [= -> E]. f_equal. auto.
Qed.

Lemma length_append (s t : string) :
  String.length (s +:+ t) = (String.length s + String.length t)%nat.
Proof.
  induction s as [|c s IH]; [reflexivity|].
  rewrite append_String. cbn [String.length]. now rewrite IH.
Qed.

Lemma append_suffix_inj (s1 s2 t : string) : s1 +:+ t = s2 +:+ t -> s1 = s2.
Proof.
  intros E. apply (append_inj_l s1 s2 t); [|exact E].
  apply (f_equal String.length) in E. rewrite !length_append in E. lia.
Qed.

(** The labels of two non-negative outcomes of one column differ when the
    outcomes differ, and hold no hyphen. *)
Lemma str_outcome (d1 d2 : scalar) (z1 z2 : Z) :
  0 <= z1 -> 0 <= z2 ->
  d1 = Float64 (Some z1) /\ d2 = Float64 (Some z2) \/
  d1 = Int64 z1 /\ d2 = Int64 z2 ->
  has_hyphen (str d1) = false /\ has_hyphen (str d2) = false /\
  (str d1 = str d2 -> z1 = z2).
Proof.
  intros H1 H2 [[-> ->]|[-> ->]]; cbn [str].
  - rewrite !has_hyphen_app, !decimal_no_hyphen by assumption.
    repeat split; try reflexivity.
    intros E. now apply append_suffix_inj, decimal_inj in E.
  - rewrite !decimal_no_hyphen by assumption. repeat split.
    apply decimal_inj.
Qed.

(** C2 (as the notebook has it).  The stratification key of a row is the
    team name of the row (not its anonymised code), a hyphen and the
    outcome label, in one string.  It is a composite key: on the
    non-negative outcomes that the cohort holds, two rows have the same key
    exactly when they have the same team and the same outcome. *)
Theorem strat_key_is_team_hyphen_outcome (data : list Row) :
  length (strat data) = length data /\
  (forall i r, data !! i = Some r ->
     strat data !! i
     = Some ((stroke_team r +:+ "-") +:+ str (discharge_disability r))) /\
  (forall r1 r2 z1 z2,
     0 <= z1 -> 0 <= z2 ->
     discharge_disability r1 = Float64 (Some z1) /\
       discharge_disability r2 = Float64 (Some z2) \/
     discharge_disability r1 = Int64 z1 /\ discharge_disability r2 = Int64 z2 ->
     (strat [r1] = strat [r2] <-> stroke_team r1 = stroke_team r2 /\ z1 = z2)).
Proof.
  split; [apply length_map|]. split.
  - intros i r Hr. unfold strat. rewrite list_lookup_fmap, Hr. reflexivity.
  - intros r1 r2 z1 z2 H1 H2 Hd.
    destruct (str_outcome _ _ z1 z2 H1 H2 Hd) as (Hh1 & Hh2 & Hinj).
    cbn [strat map]. split.
    + intros [= E]. apply key_split in E; [|assumption..].
      destruct E as [Ht Hs]. auto.
    + intros [-> ->]. now destruct Hd as [[-> ->]|[-> ->]].
Qed.

(** Two patients of one team with the outcomes 2 and 3. *)
Lemma strat_key_of_two_patients :
  strat [Samples.fold_row "A" 2 2] = strat [Samples.fold_row "A" 2 3]
  <-> "A"%string = "A"%string /\ 2 = 3.
Proof.
  apply (proj2 (proj2 (strat_key_is_team_hyphen_outcome []))
           (Samples.fold_row "A" 2 2) (Samples.fold_row "A" 2 3) 2 3);
    [lia | lia | left; split; reflexivity].
Defined.

(** C2 as the specification states it does not hold: the key of a patient
    of team A, whose anonymised code is 2, with outcome 2 is A-2.0; it is
    not the code followed by the outcome label. *)
Lemma strat_key_is_not_code_then_outcome :
  strat [Samples.fold_row "A" 2 2] = ["A-2.0"%string] /\
  strat [Samples.fold_row "A" 2 2]
  <> map (fun r => str (stroke_team_id r) +:+ str (discharge_disability r))
         [Samples.fold_row "A" 2 2].
Proof. split; [reflexivity | discriminate]. Qed.

(** *** Masks and index arrays *)

Lemma boolean_index_sublist {A : Type} (l : list A) (mask : list bool) :
  boolean_index l mask `sublist_of` l.
Proof.
  revert mask. induction l as [|x l IH]; intros [|b mask]; cbn;
    try apply sublist_nil_l.
  destruct b; [apply sublist_skip | apply sublist_cons]; apply IH.
Qed.

Lemma NoDup_boolean_index_seq (N : nat) (mask : list bool) :
  NoDup (boolean_index (seq 0 N) mask).
Proof.
  eapply sublist_NoDup; [apply NoDup_seq | apply boolean_index_sublist].
Qed.

Lemma elem_of_boolean_index_lookup {A : Type} (l : list A) (mask : list bool) (x : A) :
  x ∈ boolean_index l mask <->
  exists i, l !! i = Some x /\ mask !! i = Some true.
Proof.
  revert mask. induction l as [|y l IH]; intros [|b mask]; cbn.
  - split; [intros H; inversion H | intros (i & H & _); discriminate].
  - split; [intros H; inversion H | intros (i & H & _); discriminate].
  - split; [intros H; inversion H | intros (i & _ & H); discriminate].
  - destruct b.
    + rewrite elem_of_cons, IH. split.
      * intros [->|(i & H1 & H2)]; [exists O | exists (S i)]; auto.
      * intros ([|i] & H1 & H2); cbn in *; [left; congruence | right; eauto].
    + rewrite IH. split.
      * intros (i & H1 & H2). exists (S i); auto.
      * intros ([|i] & H1 & H2); cbn in *; [discriminate | eauto].
Qed.

(** The test indices of fold [i] are the positions at which [test_folds]
    holds [i]; the train indices are the other positions. *)
Lemma elem_of_test_index (tf : list nat) (i j : nat) :
  j ∈ (index_pair (seq 0 (length tf)) (map (Nat.eqb i) tf)).2 <-> tf !! j = Some i.
Proof.
  unfold index_pair. cbn [snd].
  rewrite elem_of_boolean_index_lookup. split.
  - intros (k & H1 & H2). apply lookup_seq in H1. destruct H1 as [-> _]. cbn.
    rewrite list_lookup_fmap in H2.
    destruct (tf !! k) as [t|]; [|discriminate]. cbn in H2.
    injection H2 as H2. apply Nat.eqb_eq in H2. now subst.
  - intros H. exists j. split.
    + apply lookup_seq. split; [reflexivity|]. eapply lookup_lt_Some, H.
    + rewrite list_lookup_fmap, H. cbn. now rewrite Nat.eqb_refl.
Qed.

Lemma elem_of_train_index (tf : list nat) (i j : nat) :
  j ∈ (index_pair (seq 0 (length tf)) (map (Nat.eqb i) tf)).1
  <-> exists t, tf !! j = Some t /\ t <> i.
Proof.
  unfold index_pair. cbn [fst].
  rewrite elem_of_boolean_index_lookup. split.
  - intros (k & H1 & H2). apply lookup_seq in H1. destruct H1 as [-> _]. cbn.
    rewrite !list_lookup_fmap in H2.
    destruct (tf !! k) as [t|]; [|discriminate]. cbn in H2.
    injection H2 as H2. apply negb_true_iff, Nat.eqb_neq in H2. eauto.
  - intros (t & H & Hne). exists j. split.
    + apply lookup_seq. split; [reflexivity|]. eapply lookup_lt_Some, H.
    + rewrite !list_lookup_fmap, H. cbn. f_equal.
      apply negb_true_iff, Nat.eqb_neq. auto.
Qed.

(** In each fold the train indices are what the test indices leave. *)
Lemma train_complements_test (i : nat) (tf : list nat) :
  (index_pair (seq 0 (length tf)) (map (Nat.eqb i) tf)).1
  ++ (index_pair (seq 0 (length tf)) (map (Nat.eqb i) tf)).2
  ≡ₚ seq 0 (length tf).
Proof.
  apply NoDup_Permutation; [|apply NoDup_seq|].
  - apply NoDup_app. split; [apply NoDup_boolean_index_seq|].
    split; [|apply NoDup_boolean_index_seq].
    intros j Hj Hj'.
    apply elem_of_train_index in Hj. apply elem_of_test_index in Hj'.
    destruct Hj as (t & Ht & Hne). congruence.
  - intros j. rewrite elem_of_app, elem_of_train_index, elem_of_test_index.
    rewrite list_elem_of_In, in_seq. split.
    + intros [(t & Ht & _)|Ht]; apply lookup_lt_Some in Ht; lia.
    + intros Hj. destruct (lookup_lt_is_Some_2 tf j ltac:(lia)) as [t Ht].
      destruct (Nat.eq_dec t i) as [->|Hne]; [right | left]; eauto.
Qed.

(** When every position holds a fold number below [n], the test indices of
    the [n] folds, put end to end, list every position once. *)
Lemma test_partitions_cover (n : nat) (tf : list nat) :
  Forall (fun t => (t < n)%nat) tf ->
  concat (map snd (map (index_pair (seq 0 (length tf))) (_iter_test_masks n tf)))
  ≡ₚ seq 0 (length tf).
Proof.
  intros Hlt. unfold _iter_test_masks. rewrite !map_map.
  rewrite <- flat_map_concat_map.
  apply NoDup_Permutation; [|apply NoDup_seq|].
  - assert (Hnd : NoDup (seq 0 n)) by apply NoDup_seq.
    induction (seq 0 n) as [|i l IH]; cbn [flat_map]; [constructor|].
    apply NoDup_cons in Hnd. destruct Hnd as [Hi Hnd].
    apply NoDup_app. split; [apply NoDup_boolean_index_seq|]. split; [|auto].
    intros j Hj Hj'. apply elem_of_test_index in Hj.
    apply list_elem_of_In, in_flat_map in Hj'. destruct Hj' as (i' & Hi' & Hj').
    apply list_elem_of_In, elem_of_test_index in Hj'.
    rewrite Hj in Hj'. injection Hj' as <-. apply Hi, list_elem_of_In, Hi'.
  - intros j. rewrite list_elem_of_In, in_flat_map. split.
    + intros (i & _ & Hj). apply list_elem_of_In, elem_of_test_index in Hj.
      apply lookup_lt_Some in Hj. apply list_elem_of_In, in_seq. lia.
    + intros Hj. apply list_elem_of_In, in_seq in Hj.
      destruct (lookup_lt_is_Some_2 tf j ltac:(lia)) as [t Ht].
      exists t. split.
      * apply in_seq. rewrite Forall_lookup in Hlt.
        specialize (Hlt j t Ht). cbn in Hlt. lia.
      * apply list_elem_of_In, elem_of_test_index, Ht.
Qed.

(** [X[index]] has one row per index when the indices are in range. *)
Lemma rows_at_spec {A : Type} (X : list A) (index : list nat) :
  Forall (fun j => (j < length X)%nat) index ->
  Forall2 (fun j r => X !! j = Some r) index (rows_at X index).
Proof.
  induction 1 as [|j index Hj _ IH]; cbn; [constructor|].
  destruct (lookup_lt_is_Some_2 X j Hj) as [r Hr]. rewrite Hr. cbn.
  constructor; [exact Hr | exact IH].
Qed.

(** *** The array of fold numbers *)

Lemma elem_of_classes (y : list string) (c : string) : c ∈ classes y <-> c ∈ y.
Proof.
  induction y as [|d y IH]; cbn; [reflexivity|].
  rewrite !elem_of_cons, list_elem_of_In, List.filter_In, <- list_elem_of_In, IH.
  destruct (String.eqb_spec d c) as [->|Hne]; cbn; [tauto|].
  split; [intros [->|[H _]]; auto | intros [->|H]; auto].
Qed.

Lemma index_of_lt (c : string) (l : list string) :
  c ∈ l -> (index_of c l < length l)%nat.
Proof.
  induction l as [|d l IH]; cbn; [intros H; inversion H|].
  destruct (String.eqb_spec c d) as [->|Hne]; [lia|].
  rewrite elem_of_cons. intros [->|H]; [now destruct Hne|]. apply IH in H. lia.
Qed.

Lemma y_encoded_lt (y : list string) :
  Forall (fun e => (e < length (classes y))%nat) (y_encoded y).
Proof.
  unfold y_encoded. apply Forall_fmap, Forall_forall. intros c Hc. cbn.
  apply index_of_lt, elem_of_classes, Hc.
Qed.

Lemma count_occ_map_le {A B : Type} (da : forall x y : A, {x = y} + {x <> y})
    (db : forall x y : B, {x = y} + {x <> y}) (f : A -> B) (l : list A) (c : A) :
  (count_occ da l c <= count_occ db (map f l) (f c))%nat.
Proof.
  induction l as [|x l IH]; cbn; [lia|].
  destruct (da x c) as [->|Hne].
  - destruct (db (f c) (f c)); [lia|congruence].
  - destruct (db (f x) (f c)); lia.
Qed.

Lemma sum_list_with_map {A B : Type} (f : B -> nat) (g : A -> B) (l : list A) :
  sum_list_with f (map g l) = sum_list_with (fun x => f (g x)) l.
Proof. induction l as [|x l IH]; cbn; [reflexivity|]. now rewrite IH. Qed.

(** The slices [a[i::n]] for [i] below [n] share out the elements of [a]. *)
Lemma count_occ_stride (k : nat) (m : nat) (a : list nat) :
  sum_list_with (fun i => count_occ Nat.eq_dec (stride i (S m) a) k) (seq 0 (S m))
  = count_occ Nat.eq_dec a k.
Proof.
  induction a as [|x a IH]; cbn [stride count_occ].
  - induction (seq 0 (S m)) as [|i l IHl]; cbn; [reflexivity|]. now rewrite IHl.
  - rewrite seq_S in IH. rewrite sum_list_with_app in IH. cbn in IH.
    cbn [seq sum_list_with]. rewrite <- seq_shift.
    rewrite sum_list_with_map. cbn [stride].
    replace (S m - 1)%nat with m by lia.
    cbn [count_occ]. destruct (Nat.eq_dec x k); lia.
Qed.

Lemma length_flat_map_repeat (f : nat -> nat) (l : list nat) :
  length (flat_map (fun i => repeat i (f i)) l) = sum_list_with f l.
Proof.
  induction l as [|i l IH]; cbn; [reflexivity|].
  now rewrite length_app, repeat_length, IH.
Qed.

Lemma nth_map_seq {A : Type} (F : nat -> A) (d : A) (n i : nat) :
  (i < n)%nat -> nth i (map F (seq 0 n)) d = F i.
Proof.
  intros Hi. rewrite (nth_indep _ d (F 0%nat)) by (now rewrite length_map, length_seq).
  rewrite (map_nth F (seq 0 n) 0%nat i). now rewrite seq_nth.
Qed.

Lemma NoDup_classes (y : list string) : NoDup (classes y).
Proof.
  induction y as [|c y IH]; cbn; constructor.
  - rewrite list_elem_of_In, List.filter_In. intros [_ H].
    now rewrite String.eqb_refl in H.
  - apply NoDup_ListNoDup, List.NoDup_filter, NoDup_ListNoDup, IH.
Qed.

Lemma index_of_inj (c d : string) (l : list string) :
  c ∈ l -> index_of c l = index_of d l -> c = d.
Proof.
  induction l as [|e l IH]; cbn; [intros H; inversion H|].
  rewrite elem_of_cons.
  destruct (String.eqb_spec c e) as [->|Hc], (String.eqb_spec d e) as [->|Hd];
    try discriminate; auto.
  intros [->|Hin] [= E]; [now destruct Hc | auto].
Qed.

Lemma index_of_lookup (l : list string) (k : nat) (c : string) :
  NoDup l -> l !! k = Some c -> index_of c l = k.
Proof.
  intros Hnd. revert k. induction Hnd as [|e l He Hnd IH]; intros [|k]; cbn;
    try discriminate.
  - intros [= ->]. now rewrite String.eqb_refl.
  - intros Hk. destruct (String.eqb_spec c e) as [->|_].
    + destruct He. eapply list_elem_of_lookup_2, Hk.
    + f_equal. auto.
Qed.

Lemma count_occ_map_inj {A B : Type} (da : forall x y : A, {x = y} + {x <> y})
    (db : forall x y : B, {x = y} + {x <> y}) (f : A -> B) (l : list A) (c : A) :
  (forall x, x ∈ l -> f x = f c -> x = c) ->
  count_occ db (map f l) (f c) = count_occ da l c.
Proof.
  induction l as [|x l IH]; intros Hinj; cbn; [reflexivity|].
  rewrite IH by (intros y Hy; apply Hinj; now right).
  destruct (da x c) as [->|Hne].
  - destruct (db (f c) (f c)); [reflexivity | congruence].
  - destruct (db (f x) (f c)) as [E|_]; [|reflexivity].
    destruct Hne. apply Hinj; [left | exact E].
Qed.

Lemma y_counts_spec (y : list string) (k : nat) :
  (k < length (classes y))%nat ->
  exists c, c ∈ y /\
    count_occ Nat.eq_dec (y_encoded y) k = count_occ string_dec y c.
Proof.
  intros Hk. destruct (lookup_lt_is_Some_2 _ _ Hk) as [c Hc].
  exists c. split; [eapply elem_of_classes, list_elem_of_lookup_2, Hc|].
  rewrite <- (index_of_lookup _ _ _ (NoDup_classes y) Hc).
  unfold y_encoded.
  apply (count_occ_map_inj string_dec Nat.eq_dec (fun c => index_of c (classes y))).
  intros x Hx E. apply (index_of_inj x c (classes y)); [|exact E].
  now apply elem_of_classes.
Qed.

Section Splitter.

Context {rng : Type} (random_state : Z -> rng)
        (rng_shuffle : rng -> list nat -> list nat * rng)
        (np_empty : nat -> list nat).

(** The shuffle of numpy permutes its array, and [np.empty(n)] has [n]
    cells. *)
Hypothesis rng_shuffle_perm : forall g a, (rng_shuffle g a).1 ≡ₚ a.
Hypothesis np_empty_length : forall n, length (np_empty n) = n.

Lemma mask_assign_spec (n k : nat) (done : list nat) (enc : list nat) :
  forall tf vals : list nat,
  length tf = length enc ->
  length vals = count_occ Nat.eq_dec enc k ->
  Forall (fun v => (v < n)%nat) vals ->
  Forall (fun et : nat * nat => et.1 ∈ done -> (et.2 < n)%nat) (zip enc tf) ->
  exists tf', mask_assign tf (map (Nat.eqb k) enc) vals = Some tf' /\
              length tf' = length enc /\
              Forall (fun et : nat * nat => et.1 ∈ k :: done -> (et.2 < n)%nat)
                     (zip enc tf').
Proof.
  induction enc as [|e enc IH]; intros [|t tf] vals Hlen Hvals Hlt Hinv;
    try discriminate.
  - cbn in *. destruct vals; [|discriminate]. exists []. repeat split; constructor.
  - cbn [map mask_assign]. cbn in Hlen, Hvals, Hinv.
    apply Forall_cons in Hinv. destruct Hinv as [Ht Hinv].
    injection Hlen as Hlen.
    destruct (Nat.eq_dec e k) as [->|Hne].
    + rewrite Nat.eqb_refl. destruct vals as [|v vals]; [discriminate|].
      injection Hvals as Hvals. apply Forall_cons in Hlt. destruct Hlt as [Hv Hlt].
      destruct (IH tf vals Hlen Hvals Hlt Hinv) as (tf' & -> & Hl & Hf).
      exists (v :: tf'). cbn. repeat split; [now rewrite Hl|].
      constructor; [intros _; exact Hv | exact Hf].
    + replace (k =? e)%nat with false by (symmetry; apply Nat.eqb_neq; auto).
      destruct (IH tf vals Hlen Hvals Hlt Hinv) as (tf' & -> & Hl & Hf).
      exists (t :: tf'). cbn. repeat split; [now rewrite Hl|].
      constructor; [|exact Hf]. cbn. rewrite elem_of_cons.
      intros [->|H]; [now destruct Hne | auto].
Qed.

Lemma folds_for_class_lt (n : nat) (f : nat -> nat) :
  Forall (fun v => (v < n)%nat) (flat_map (fun i => repeat i (f i)) (seq 0 n)).
Proof.
  apply Forall_forall. intros v Hv. apply list_elem_of_In, in_flat_map in Hv.
  destruct Hv as (i & Hi & Hv). apply repeat_spec in Hv. subst v.
  apply in_seq in Hi. lia.
Qed.

Lemma assign_classes_spec (n : nat) (enc : list nat) (allocation : list (list nat))
    (ks : list nat) :
  (forall k, k ∈ ks ->
     length (flat_map (fun i => repeat i (nth k (nth i allocation []) O)) (seq 0 n))
     = count_occ Nat.eq_dec enc k) ->
  forall (done : list nat) (g : rng) (tf : list nat),
  length tf = length enc ->
  Forall (fun et : nat * nat => et.1 ∈ done -> (et.2 < n)%nat) (zip enc tf) ->
  exists tf', assign_classes rng_shuffle n enc allocation ks g tf = Some tf' /\
              length tf' = length enc /\
              Forall (fun et : nat * nat => et.1 ∈ ks \/ et.1 ∈ done -> (et.2 < n)%nat)
                     (zip enc tf').
Proof.
  induction ks as [|k ks IH]; intros Hks done g tf Hlen Hinv.
  - exists tf. cbn. repeat split; [exact Hlen|].
    eapply Forall_impl; [exact Hinv|]. cbn. intros et H [Hk|Hd]; [inversion Hk | auto].
  - cbn [assign_classes].
    pose proof (rng_shuffle_perm g
      (flat_map (fun i => repeat i (nth k (nth i allocation []) O)) (seq 0 n))) as Hperm.
    destruct (rng_shuffle g _) as [fs g']. cbn in Hperm.
    assert (Hfs : Forall (fun v => (v < n)%nat) fs).
    { rewrite Hperm. apply folds_for_class_lt. }
    assert (Hl : length fs = count_occ Nat.eq_dec enc k).
    { rewrite Hperm. apply Hks. left. }
    destruct (mask_assign_spec n k done enc tf fs Hlen Hl Hfs Hinv)
      as (tf1 & -> & Hlen1 & Hinv1).
    cbn.
    destruct (IH (fun k' Hk' => Hks k' (list_elem_of_further _ _ _ Hk'))
                 (k :: done) g' tf1 Hlen1 Hinv1) as (tf' & -> & Hlen' & Hinv').
    exists tf'. repeat split; [exact Hlen'|].
    eapply Forall_impl; [exact Hinv'|]. cbn. intros et H.
    rewrite !elem_of_cons in *. tauto.
Qed.

Lemma sum_list_with_ext_in {A : Type} (f g : A -> nat) (l : list A) :
  (forall x, x ∈ l -> f x = g x) -> sum_list_with f l = sum_list_with g l.
Proof.
  induction l as [|x l IH]; intros H; cbn; [reflexivity|].
  rewrite (H x) by left. rewrite IH; [reflexivity|]. intros y Hy. apply H. now right.
Qed.

Lemma zip_Forall_snd (P : nat -> Prop) (Q : nat -> Prop) (enc : list nat) :
  forall tf : list nat,
  length tf = length enc ->
  Forall P enc ->
  Forall (fun et : nat * nat => P et.1 -> Q et.2) (zip enc tf) ->
  Forall Q tf.
Proof.
  induction enc as [|e enc IH]; intros [|t tf] Hlen HP HPQ; try discriminate;
    [constructor|].
  cbn in *. apply Forall_cons in HP, HPQ. destruct HP, HPQ.
  constructor; [auto|]. apply IH; auto.
Qed.

Lemma make_test_folds_spec (m : nat) (y : list string) (c : string) :
  (S m <= count_occ string_dec y c)%nat ->
  exists test_folds,
    _make_test_folds random_state rng_shuffle np_empty (S m) y = Some test_folds /\
    length test_folds = length y /\
    Forall (fun t => (t < S m)%nat) test_folds.
Proof.
  intros Hc. unfold _make_test_folds.
  set (enc := y_encoded y). set (nc := length (classes y)).
  assert (Hcy : c ∈ y).
  { apply list_elem_of_In, (count_occ_In string_dec). lia. }
  destruct (forallb _ (bincount nc enc)) eqn:Hguard.
  { exfalso. rewrite forallb_forall in Hguard.
    specialize (Hguard (count_occ Nat.eq_dec enc (index_of c (classes y)))).
    assert (Hle := count_occ_map_le string_dec Nat.eq_dec
                     (fun c => index_of c (classes y)) y c).
    fold (y_encoded y) in Hle. fold enc in Hle.
    enough ((count_occ Nat.eq_dec enc (index_of c (classes y)) <? S m)%nat = true)
      as H by (apply Nat.ltb_lt in H; lia).
    apply Hguard. unfold bincount.
    apply (in_map (fun k => count_occ Nat.eq_dec enc k)), in_seq.
    split; [lia|]. cbn. apply index_of_lt, elem_of_classes, Hcy. }
  set (alloc := map _ (seq 0 (S m))).
  destruct (assign_classes_spec (S m) enc alloc (seq 0 nc)) with
    (done := @nil nat) (g := random_state 13) (tf := np_empty (length y))
    as (tf & Htf & Hlen & Hinv).
  - intros k Hk. apply list_elem_of_In, in_seq in Hk.
    rewrite length_flat_map_repeat.
    rewrite (sum_list_with_ext_in _
               (fun i => count_occ Nat.eq_dec (stride i (S m) (merge_sort Nat.le enc)) k)).
    + rewrite count_occ_stride. apply Permutation_count_occ, merge_sort_Permutation.
    + intros i Hi. apply list_elem_of_In, in_seq in Hi.
      unfold alloc. rewrite nth_map_seq by lia.
      unfold bincount. rewrite nth_map_seq by lia. reflexivity.
  - rewrite np_empty_length. unfold enc, y_encoded. now rewrite length_map.
  - apply Forall_forall. intros et _ H. inversion H.
  - exists tf. split; [exact Htf|]. split.
    + rewrite Hlen. unfold enc, y_encoded. now rewrite length_map.
    + apply (zip_Forall_snd (fun e => (e < nc)%nat) _ enc tf Hlen (y_encoded_lt y)).
      eapply Forall_impl; [exact Hinv|]. cbn. intros et H Hlt. apply H. left.
      apply list_elem_of_In, in_seq. lia.
Qed.

(** The splitter raises when no stratum has five rows: nothing is saved. *)
Lemma no_fold_without_a_stratum_of_five (data : list Row) :
  (forall c, (count_occ string_dec (strat data) c < 5)%nat) ->
  kfold random_state rng_shuffle np_empty data = None.
Proof.
  intros Hsmall. unfold kfold, split, number_of_splits.
  destruct (length data <? 5)%nat; [reflexivity|].
  unfold _make_test_folds.
  replace (forallb _ _) with true; [reflexivity|].
  symmetry. apply forallb_forall. intros x Hx.
  unfold bincount in Hx. apply in_map_iff in Hx. destruct Hx as (k & <- & Hk).
  apply in_seq in Hk.
  destruct (y_counts_spec (strat data) k ltac:(lia)) as (c & _ & ->).
  apply Nat.ltb_lt, Hsmall.
Qed.

(** C9.  On a table in which some stratum has at least five rows (else the
    splitter raises and nothing is written), the splitter returns five pairs
    of index arrays.  The five test arrays are pairwise disjoint and, put
    end to end, list each of the N row positions once.  In each fold the
    train array followed by the test array also lists each row position
    once: train and test have no position in common and together they are
    all the rows.  The tables saved hold the rows at those positions. *)
Theorem five_folds_partition_the_rows (data : list Row) (c : string) :
  (5 <= count_occ string_dec (strat data) c)%nat ->
  exists folds : list (list nat * list nat),
    split random_state rng_shuffle np_empty number_of_splits data (strat data)
      = Some folds /\
    kfold random_state rng_shuffle np_empty data
      = Some (map (fun index => (rows_at data index.1, rows_at data index.2)) folds) /\
    length folds = 5%nat /\
    concat (map snd folds) ≡ₚ seq 0 (length data) /\
    (forall i i' test test' j,
       folds.*2 !! i = Some test -> folds.*2 !! i' = Some test' -> i <> i' ->
       j ∈ test -> j ∉ test') /\
    (forall train test,
       (train, test) ∈ folds ->
       train ++ test ≡ₚ seq 0 (length data) /\
       (forall j, j ∈ train -> j ∉ test) /\
       (forall j, (j < length data)%nat -> j ∈ train \/ j ∈ test) /\
       Forall2 (fun j r => data !! j = Some r) train (rows_at data train) /\
       Forall2 (fun j r => data !! j = Some r) test (rows_at data test)).
Proof.
  intros Hc.
  destruct (make_test_folds_spec 4 (strat data) c Hc) as (tf & Htf & Hlen & Hlt).
  assert (HN : length tf = length data).
  { rewrite Hlen. unfold strat. apply length_map. }
  assert (Hsplit :
    split random_state rng_shuffle np_empty number_of_splits data (strat data)
    = Some (map (index_pair (seq 0 (length tf))) (_iter_test_masks 5 tf))).
  { unfold split, number_of_splits. rewrite Htf, HN. cbn [mbind option_bind].
    destruct (Nat.ltb_spec (length data) 5) as [Hsmall|_]; [|reflexivity].
    pose proof (count_occ_bound string_dec c (strat data)) as Hb.
    rewrite <- Hlen, HN in Hb. lia. }
  exists (map (index_pair (seq 0 (length tf))) (_iter_test_masks 5 tf)).
  split; [exact Hsplit|].
  split; [unfold kfold; now rewrite Hsplit|].
  split; [unfold _iter_test_masks; now rewrite !length_map, length_seq|].
  rewrite <- HN.
  split; [now apply test_partitions_cover|].
  split.
  - intros i i' test test' j Hi Hi' Hne Hj Hj'.
    unfold _iter_test_masks in Hi, Hi'.
    rewrite !list_lookup_fmap in Hi, Hi'.
    destruct (seq 0 5 !! i) as [k|] eqn:Ek; [|discriminate].
    destruct (seq 0 5 !! i') as [k'|] eqn:Ek'; [|discriminate].
    apply lookup_seq in Ek, Ek'. destruct Ek as [-> _], Ek' as [-> _].
    cbn in Hi, Hi'. injection Hi as <-. injection Hi' as <-.
    apply (elem_of_test_index tf i j) in Hj.
    apply (elem_of_test_index tf i' j) in Hj'. congruence.
  - intros train test Hin.
    apply list_elem_of_fmap in Hin. destruct Hin as (mask & Hpair & Hin).
    unfold _iter_test_masks in Hin.
    apply list_elem_of_fmap in Hin. destruct Hin as (i & -> & _).
    pose proof (train_complements_test i tf) as Hperm.
    rewrite <- Hpair in Hperm. cbn [fst snd] in Hperm.
    assert (Hnd : NoDup (train ++ test)) by (rewrite Hperm; apply NoDup_seq).
    apply NoDup_app in Hnd. destruct Hnd as (_ & Hdisj & _).
    assert (Hall : forall j, j ∈ train ++ test <-> (j < length tf)%nat).
    { intros j. rewrite Hperm, list_elem_of_In, in_seq. lia. }
    split; [exact Hperm|]. split; [exact Hdisj|]. split.
    + intros j Hj. apply elem_of_app, Hall, Hj.
    + split; apply rows_at_spec, Forall_forall; intros j Hj;
        rewrite <- HN; apply Hall, elem_of_app; auto.
Qed.

End Splitter.

(** The folds of seven patients, five of whom form one stratum. *)
Lemma five_folds_of_seven_patients :
  exists folds : list (list nat * list nat),
    split Samples.random_state0 Samples.rng_shuffle0 Samples.np_empty0
          number_of_splits Samples.seven_patients (strat Samples.seven_patients)
      = Some folds /\
    kfold Samples.random_state0 Samples.rng_shuffle0 Samples.np_empty0
          Samples.seven_patients
      = Some (map (fun index => (rows_at Samples.seven_patients index.1,
                                 rows_at Samples.seven_patients index.2)) folds) /\
    length folds = 5%nat /\
    concat (map snd folds) ≡ₚ seq 0 (length Samples.seven_patients) /\
    (forall i i' test test' j,
       folds.*2 !! i = Some test -> folds.*2 !! i' = Some test' -> i <> i' ->
       j ∈ test -> j ∉ test') /\
    (forall train test,
       (train, test) ∈ folds ->
       train ++ test ≡ₚ seq 0 (length Samples.seven_patients) /\
       (forall j, j ∈ train -> j ∉ test) /\
       (forall j, (j < length Samples.seven_patients)%nat -> j ∈ train \/ j ∈ test) /\
       Forall2 (fun j r => Samples.seven_patients !! j = Some r) train
               (rows_at Samples.seven_patients train) /\
       Forall2 (fun j r => Samples.seven_patients !! j = Some r) test
               (rows_at Samples.seven_patients test)).
Proof.
  apply (five_folds_partition_the_rows
           Samples.random_state0 Samples.rng_shuffle0 Samples.np_empty0
           (fun g a => reflexivity a) (fun n => repeat_length O n)
           Samples.seven_patients "A-2.0"%string).
  vm_compute. apply le_n.
Defined.

Example five_folds_of_seven_patients_indices :
  split Samples.random_state0 Samples.rng_shuffle0 Samples.np_empty0
        number_of_splits Samples.seven_patients (strat Samples.seven_patients)
  = Some [([1; 2; 3; 4; 6], [0; 5]); ([0; 2; 3; 4; 5], [1; 6]);
          ([0; 1; 3; 4; 5; 6], [2]); ([0; 1; 2; 4; 5; 6], [3]);
          ([0; 1; 2; 3; 5; 6], [4])]%nat.
Proof. vm_compute. reflexivity. Qed.

(** With fewer than five rows in every stratum the splitter raises. *)
Example no_fold_of_four_patients :
  kfold Samples.random_state0 Samples.rng_shuffle0 Samples.np_empty0
        (firstn 4 Samples.seven_patients) = None.
Proof. vm_compute. reflexivity. Qed.

End FoldSplitterProperties.

(** ** The cleaner: what the passes leave behind *)

Section CleanerInvariants.
Import Cleaner.

(** *** Ambulance timings *)

Lemma amb_col_nan_amb_col b r :
  amb_col (nan_amb_col b r) = if b then [None; None; None; None] else amb_col r.
Proof. now destruct b. Qed.

Lemma amb_col_nan_amb_col_and_arrive b r :
  amb_col (nan_amb_col_and_arrive b r) = if b then [None; None; None; None] else amb_col r.
Proof. now destruct b. Qed.

Lemma clean_ambulance_amb_col (r : CleanRecord) :
  amb_col (clean_ambulance r)
  = if ambulance_flagged r then [None; None; None; None] else amb_col r.
Proof.
  unfold clean_ambulance, ambulance_flagged.
  rewrite !amb_col_nan_amb_col, amb_col_nan_amb_col_and_arrive, !amb_col_nan_amb_col.
  destruct (time_missing r), (time_negative r), (time_zero r), (times_but_no_amb r),
    (call_time_high r), (scene_time_high r), (travel_time_high r), (wait_time_high r);
    reflexivity.
Qed.

Lemma arrive_nan_amb_col b r :
  arrive_by_ambulance (nan_amb_col b r) = arrive_by_ambulance r.
Proof. reflexivity. Qed.

Lemma clean_ambulance_arrive (r : CleanRecord) :
  arrive_by_ambulance (clean_ambulance r)
  = if times_but_no_amb r then None else arrive_by_ambulance r.
Proof. unfold clean_ambulance. now rewrite !arrive_nan_amb_col. Qed.

Lemma amb_col_later_passes (r : CleanRecord) :
  amb_col (clean_death (clean_anticoagulant (clean_onset r))) = amb_col r.
Proof. reflexivity. Qed.

Lemma arrive_later_passes (r : CleanRecord) :
  arrive_by_ambulance (clean_death (clean_anticoagulant (clean_onset r)))
  = arrive_by_ambulance r.
Proof. reflexivity. Qed.

(** What an unflagged row looks like: the four durations are present and in
    range, and the row does not say "not by ambulance". *)

Lemma unflagged_ambulance_times (r : CleanRecord) :
  ambulance_flagged r = false ->
  exists call scene travel wait,
    amb_col r = [Some call; Some scene; Some travel; Some wait] /\
    0 < call <= 1440 /\ 0 < scene <= 720 /\ 0 < travel <= 360 /\ 0 <= wait <= 720 /\
    arrive_by_ambulance r <> Some 0.
Proof.
  unfold ambulance_flagged, time_missing, time_negative, time_zero, times_but_no_amb,
    call_time_high, scene_time_high, travel_time_high, wait_time_high,
    amb_except_wait, amb_col.
  destruct (call_to_ambulance_arrival_time r) as [a|],
    (ambulance_on_scene_time r) as [b|],
    (ambulance_travel_to_hospital_time r) as [c|],
    (ambulance_wait_time_at_hospital r) as [d|];
    cbn; try discriminate; try (rewrite ?orb_true_r; discriminate).
  intros H. exists a, b, c, d.
  destruct (arrive_by_ambulance r) as [v|]; cbn in H.
  - repeat match type of H with
           | _ || _ = false => apply orb_false_iff in H; destruct H as [H ?]
           end.
    rewrite andb_true_r in *.
    repeat split; try lia; try congruence.
    intros [= ->]. discriminate.
  - repeat match type of H with
           | _ || _ = false => apply orb_false_iff in H; destruct H as [H ?]
           end.
    repeat split; try lia; try congruence.
Qed.

(** X1.  After cleaning, the four ambulance durations of a row are all
    missing exactly when one of the eight ambulance conditions held on the
    row as derived: a duration missing, negative or (the wait apart) zero, a
    duration present on a row not brought by ambulance, or a duration above
    its limit. *)
Theorem ambulance_times_missing_iff_flagged (raw : RawRecord) :
  amb_col (clean_row raw) = [None; None; None; None]
  <-> ambulance_flagged (derive raw) = true.
Proof.
  unfold clean_row. rewrite amb_col_later_passes, clean_ambulance_amb_col.
  destruct (ambulance_flagged (derive raw)) eqn:E; [tauto|].
  split; [|discriminate]. intros H.
  destruct (unflagged_ambulance_times _ E) as (a & b & c & d & Hc & _).
  congruence.
Qed.

(** X2.  After cleaning, the four ambulance durations of a row are all
    missing, or all present with 0 < call <= 1440, 0 < on scene <= 720,
    0 < travel <= 360 and 0 <= wait <= 720 minutes, on a row that does not
    say "not by ambulance". *)
Theorem ambulance_times_plausible_or_missing (raw : RawRecord) :
  amb_col (clean_row raw) = [None; None; None; None]
  \/ exists call scene travel wait,
       amb_col (clean_row raw) = [Some call; Some scene; Some travel; Some wait] /\
       0 < call <= 1440 /\ 0 < scene <= 720 /\ 0 < travel <= 360 /\ 0 <= wait <= 720 /\
       arrive_by_ambulance (clean_row raw) <> Some 0.
Proof.
  unfold clean_row.
  rewrite amb_col_later_passes, arrive_later_passes,
    clean_ambulance_amb_col, clean_ambulance_arrive.
  destruct (ambulance_flagged (derive raw)) eqn:E; [now left|right].
  destruct (unflagged_ambulance_times _ E) as (a & b & c & d & Hc & Hr).
  exists a, b, c, d. split; [exact Hc|].
  destruct (times_but_no_amb (derive raw)); [|exact Hr].
  intuition discriminate.
Qed.

(** *** Onset, anticoagulant and death passes *)

Lemma onset_later_passes (r : CleanRecord) :
  onset_to_arrival_time (clean_death (clean_anticoagulant r)) = onset_to_arrival_time r
  /\ onset_known (clean_death (clean_anticoagulant r)) = onset_known r.
Proof. split; reflexivity. Qed.

Lemma clean_onset_time (r : CleanRecord) :
  onset_to_arrival_time (clean_onset r)
  = if onset_negative r || onset_unknown r then None else onset_to_arrival_time r.
Proof.
  unfold clean_onset. cbn [onset_to_arrival_time nan_onset_to_arrival_time].
  now destruct (onset_negative r), (onset_unknown r).
Qed.

Lemma clean_onset_known (r : CleanRecord) : onset_known (clean_onset r) = onset_known r.
Proof. reflexivity. Qed.

(** X3.  After cleaning, the onset to arrival time of a row is missing, or
    it is positive and the onset is not recorded as unknown. *)
Theorem onset_to_arrival_after_cleaning (raw : RawRecord) :
  onset_to_arrival_time (clean_row raw) = None
  \/ exists t, onset_to_arrival_time (clean_row raw) = Some t /\ 0 < t /\
               onset_known (clean_row raw) <> Some 0.
Proof.
  unfold clean_row.
  destruct (onset_later_passes (clean_onset (clean_ambulance (derive raw)))) as [-> ->].
  rewrite clean_onset_time, clean_onset_known.
  set (r := clean_ambulance (derive raw)).
  destruct (onset_negative r || onset_unknown r) eqn:E; [now left|].
  apply orb_false_iff in E as [Hn Hu].
  unfold onset_negative, onset_unknown in *.
  destruct (onset_to_arrival_time r) as [t|]; [right|now left].
  exists t. cbn in Hn. split; [reflexivity|split; [lia|]].
  intros Hk. rewrite Hk in Hu. discriminate.
Qed.

Lemma nan_amb_col_false r : nan_amb_col false r = r.
Proof. now destruct r. Qed.
Lemma nan_amb_col_and_arrive_false r : nan_amb_col_and_arrive false r = r.
Proof. now destruct r. Qed.
Lemma nan_onset_to_arrival_time_false r : nan_onset_to_arrival_time false r = r.
Proof. now destruct r. Qed.
Lemma nan_anticoagulant_false r : nan_anticoagulant false r = r.
Proof. now destruct r. Qed.
Lemma nan_death_markers_false r : nan_death_markers false r = r.
Proof. now destruct r. Qed.

Lemma nan_amb_col_all_missing b r :
  time_all_missing r = true -> nan_amb_col b r = r.
Proof.
  destruct b; [|intros _; apply nan_amb_col_false].
  destruct r. unfold time_all_missing, amb_col.
  cbn [call_to_ambulance_arrival_time ambulance_on_scene_time
       ambulance_travel_to_hospital_time ambulance_wait_time_at_hospital
       nan_amb_col forallb].
  intros H.
  repeat (apply andb_true_iff in H; destruct H as [? H]).
  repeat match goal with
         | E : isnull ?c = true |- _ => destruct c; [discriminate E|clear E]
         end.
  reflexivity.
Qed.

Lemma clean_ambulance_unflagged (r : CleanRecord) :
  (negb (time_all_missing r) && time_missing r
   || time_negative r || time_zero r || times_but_no_amb r
   || call_time_high r || scene_time_high r || travel_time_high r
   || wait_time_high r) = false ->
  clean_ambulance r = r.
Proof.
  intros H.
  repeat (apply orb_false_iff in H; destruct H as [H ?]).
  unfold clean_ambulance. cbv zeta.
  repeat match goal with E : _ r = false |- _ => rewrite E; clear E end.
  rewrite !nan_amb_col_false, nan_amb_col_and_arrive_false.
  destruct (time_all_missing r) eqn:E.
  - now apply nan_amb_col_all_missing.
  - cbn [negb andb] in H. rewrite H. apply nan_amb_col_false.
Qed.

(** X4.  A row for which the log records none of the twelve cleaning
    issues is left by the four passes exactly as it was derived. *)
Theorem unlogged_row_is_unchanged (raw : RawRecord) :
  (Issues.time_some_missing (issue_row raw) || Issues.time_negative (issue_row raw)
   || Issues.time_zero (issue_row raw) || Issues.times_but_no_amb (issue_row raw)
   || Issues.call_time_high (issue_row raw) || Issues.scene_time_high (issue_row raw)
   || Issues.travel_time_high (issue_row raw) || Issues.wait_time_high (issue_row raw)
   || Issues.onset_negative (issue_row raw) || Issues.onset_unknown (issue_row raw)
   || Issues.anticoag_discrep (issue_row raw)
   || Issues.inconsistent_death (issue_row raw)) = false ->
  clean_row raw = derive raw.
Proof.
  unfold issue_row, clean_row. cbv zeta.
  cbn [Issues.time_some_missing Issues.time_negative Issues.time_zero
       Issues.times_but_no_amb Issues.call_time_high Issues.scene_time_high
       Issues.travel_time_high Issues.wait_time_high Issues.onset_negative
       Issues.onset_unknown Issues.anticoag_discrep Issues.inconsistent_death].
  generalize (derive raw). intros r H.
  apply orb_false_iff in H as [H Hd].
  apply orb_false_iff in H as [H Ha].
  apply orb_false_iff in H as [H Hu].
  apply orb_false_iff in H as [H Hn].
  rewrite (clean_ambulance_unflagged r H) in *.
  unfold clean_onset in *. rewrite Hn, Hu, !nan_onset_to_arrival_time_false in *.
  unfold clean_anticoagulant in *. rewrite Ha, nan_anticoagulant_false in *.
  unfold clean_death. now rewrite Hd, nan_death_markers_false.
Qed.

Lemma death_markers_earlier_passes (r : CleanRecord) :
  death (clean_anticoagulant (clean_onset (clean_ambulance r))) = death r /\
  discharge_disability (clean_anticoagulant (clean_onset (clean_ambulance r)))
  = discharge_disability r /\
  discharge_destination (clean_anticoagulant (clean_onset (clean_ambulance r)))
  = discharge_destination r.
Proof. repeat split; reflexivity. Qed.

Lemma inconsistent_death_earlier_passes (r : CleanRecord) :
  inconsistent_death (clean_anticoagulant (clean_onset (clean_ambulance r)))
  = inconsistent_death r.
Proof.
  unfold inconsistent_death, any_death, all_or_missing_death.
  now destruct (death_markers_earlier_passes r) as (-> & -> & ->).
Qed.

Lemma clean_death_markers (r : CleanRecord) :
  death (clean_death r) = (if inconsistent_death r then None else death r) /\
  discharge_disability (clean_death r)
  = (if inconsistent_death r then None else discharge_disability r) /\
  discharge_destination (clean_death r)
  = (if inconsistent_death r then None else discharge_destination r).
Proof. repeat split; reflexivity. Qed.

Lemma clean_row_death_markers (raw : RawRecord) :
  death (clean_row raw)
  = (if inconsistent_death (derive raw) then None else death (derive raw)) /\
  discharge_disability (clean_row raw)
  = (if inconsistent_death (derive raw) then None
     else discharge_disability (derive raw)) /\
  discharge_destination (clean_row raw)
  = (if inconsistent_death (derive raw) then None
     else discharge_destination (derive raw)).
Proof.
  unfold clean_row.
  destruct (clean_death_markers
              (clean_anticoagulant (clean_onset (clean_ambulance (derive raw)))))
    as (-> & -> & ->).
  rewrite inconsistent_death_earlier_passes.
  destruct (death_markers_earlier_passes (derive raw)) as (-> & -> & ->).
  repeat split.
Qed.

Lemma death_derived (raw : RawRecord) :
  death (derive raw) = Some (if cell_ge (ArrivalToDeathDays raw) 0 then 1 else 0).
Proof. reflexivity. Qed.

Lemma str_eq_true (c : option string) (s : string) : str_eq c s = true <-> c = Some s.
Proof.
  destruct c as [t|]; cbn; [|split; discriminate].
  rewrite String.eqb_eq. split; congruence.
Qed.

(** X5.  After cleaning, the three death markers of a row are all missing,
    or they agree: the patient died, the disability at discharge is 6 or
    missing and the destination is "died" or missing; or the patient did not
    die, the disability is not 6 and the destination is not "died". *)
Theorem death_markers_missing_or_agree (raw : RawRecord) :
  let c := clean_row raw in
  (death c = None /\ discharge_disability c = None /\ discharge_destination c = None)
  \/ (death c = Some 1 /\
      (discharge_disability c = Some 6 \/ discharge_disability c = None) /\
      (discharge_destination c = Some "died"%string \/ discharge_destination c = None))
  \/ (death c = Some 0 /\ discharge_disability c <> Some 6 /\
      discharge_destination c <> Some "died"%string).
Proof.
  cbv zeta. destruct (clean_row_death_markers raw) as (-> & -> & ->).
  destruct (inconsistent_death (derive raw)) eqn:E; [now left|right].
  unfold inconsistent_death, any_death, all_or_missing_death in E.
  rewrite death_derived in *.
  generalize dependent (discharge_destination (derive raw)).
  generalize dependent (discharge_disability (derive raw)).
  intros dd dest E.
  destruct (cell_ge (ArrivalToDeathDays raw) 0).
  - left. cbn in E. apply negb_false_iff, andb_true_iff in E as [Hd Hs].
    split; [reflexivity|]. split.
    + destruct dd as [v|]; [left|now right]. cbn in Hd.
      rewrite orb_false_r in Hd. apply Z.eqb_eq in Hd. now subst.
    + destruct dest as [s|]; [left|now right]. cbn in Hs.
      rewrite orb_false_r in Hs. apply String.eqb_eq in Hs. now subst.
  - right. cbn [cell_eq cmp Z.eqb orb andb isnull] in E.
    destruct (cell_eq dd 6 || str_eq dest "died") eqn:Ea.
    + discriminate E.
    + apply orb_false_iff in Ea as [Hd Hs]. split; [reflexivity|]. split.
      * intros ->. discriminate Hd.
      * intros ->. discriminate Hs.
Qed.

(** X6.  A patient with a recorded time to death and no discharge type is
    logged as inconsistent and loses the three death markers: the missing
    discharge type was mapped to the text "missing", which is neither
    "died" nor a missing value. *)
Theorem died_without_discharge_type_is_inconsistent (raw : RawRecord) :
  cell_ge (ArrivalToDeathDays raw) 0 = true ->
  S7DischargeType raw = None ->
  Issues.inconsistent_death (issue_row raw) = true /\
  death (clean_row raw) = None /\
  discharge_disability (clean_row raw) = None /\
  discharge_destination (clean_row raw) = None.
Proof.
  intros Hdays Htype.
  assert (E : inconsistent_death (derive raw) = true).
  { unfold inconsistent_death, any_death, all_or_missing_death.
    rewrite death_derived, Hdays.
    change (discharge_destination (derive raw))
      with (series_map discharge (S7DischargeType raw)).
    rewrite Htype. cbn. now rewrite andb_false_r. }
  split.
  - unfold issue_row. cbv zeta. cbn [Issues.inconsistent_death].
    now rewrite inconsistent_death_earlier_passes.
  - destruct (clean_row_death_markers raw) as (-> & -> & ->).
    now rewrite E.
Qed.

Lemma clean_row_anticoagulant (raw : RawRecord) :
  afib_anticoagulant (clean_row raw)
  = (if anticoag_discrep (derive raw) then None else afib_anticoagulant (derive raw)) /\
  afib_vit_k_anticoagulant (clean_row raw)
  = (if anticoag_discrep (derive raw) then None
     else afib_vit_k_anticoagulant (derive raw)) /\
  afib_doac_anticoagulant (clean_row raw)
  = (if anticoag_discrep (derive raw) then None
     else afib_doac_anticoagulant (derive raw)) /\
  afib_heparin_anticoagulant (clean_row raw)
  = (if anticoag_discrep (derive raw) then None
     else afib_heparin_anticoagulant (derive raw)).
Proof. repeat split; reflexivity. Qed.

(** X7.  After cleaning, the parent anticoagulant column and the three
    type columns are all missing, or the parent is 1, or the parent is 0 and
    none of the types is 1. *)
Theorem anticoagulant_columns_missing_or_agree (raw : RawRecord) :
  let c := clean_row raw in
  (afib_anticoagulant c = None /\ afib_vit_k_anticoagulant c = None /\
   afib_doac_anticoagulant c = None /\ afib_heparin_anticoagulant c = None)
  \/ afib_anticoagulant c = Some 1
  \/ (afib_anticoagulant c = Some 0 /\ afib_vit_k_anticoagulant c <> Some 1 /\
      afib_doac_anticoagulant c <> Some 1 /\ afib_heparin_anticoagulant c <> Some 1).
Proof.
  cbv zeta. destruct (clean_row_anticoagulant raw) as (-> & -> & -> & ->).
  destruct (anticoag_discrep (derive raw)) eqn:E; [now left|right].
  unfold anticoag_discrep in E. rewrite afib_anticoagulant_derived in *.
  destruct (str_eq (S2CoMAFAnticoagulent raw) "Y"); [now left|right].
  cbn [cell_eq cmp Z.eqb andb] in E.
  apply orb_false_iff in E as [E H3]. apply orb_false_iff in E as [H1 H2].
  split; [reflexivity|].
  repeat split; intros Hc; rewrite Hc in *; discriminate.
Qed.

(** *** Reasons for no thrombolysis *)

Lemma thrombolysis_no_lookup (category code : string) :
  entries (thrombolysis_no category) !! code
  = if String.eqb code category then Some 1
    else if bool_decide (code ∈ no_thrombolysis_codes) then Some 0 else None.
Proof.
  unfold thrombolysis_no, no_thrombolysis_codes. cbn [entries list_to_map foldr uncurry fst snd].
  destruct (String.eqb_spec code category) as [->|Hne].
  - apply lookup_insert_eq.
  - rewrite lookup_insert_ne by (intros <-; now apply Hne).
    case_bool_decide as Hin.
    + repeat (apply elem_of_cons in Hin as [->|Hin];
              [now rewrite ?lookup_insert_eq, ?lookup_insert_ne by discriminate|]).
      now apply elem_of_nil in Hin.
    + rewrite !not_elem_of_cons in Hin. destruct Hin as (? & ? & ? & ? & _).
      rewrite !lookup_insert_ne by (intros <-; tauto). apply lookup_empty.
Qed.

(** X8.  The four reason-for-no-thrombolysis columns: all 0 when no reason
    is given; for one of the four codes, 1 in the column of that code and 0
    in the other three; all missing for any other code. *)
Theorem no_thrombolysis_reasons_one_hot (raw : RawRecord) :
  let c := clean_row raw in
  [thrombolysis_no_not_available c; thrombolysis_no_out_of_hours c;
   thrombolysis_no_scan_not_quick_enough c; thrombolysis_no_no_reason c]
  = match S2ThrombolysisNoReason raw with
    | None => [Some 0; Some 0; Some 0; Some 0]
    | Some code =>
        if bool_decide (code ∈ no_thrombolysis_codes)
        then map (fun category => Some (if String.eqb code category then 1 else 0))
                 no_thrombolysis_codes
        else [None; None; None; None]
    end.
Proof.
  cbv zeta.
  change (thrombolysis_no_not_available (clean_row raw))
    with (make_no_thrombolysis "TNA" raw).
  change (thrombolysis_no_out_of_hours (clean_row raw))
    with (make_no_thrombolysis "OTSH" raw).
  change (thrombolysis_no_scan_not_quick_enough (clean_row raw))
    with (make_no_thrombolysis "USQE" raw).
  change (thrombolysis_no_no_reason (clean_row raw))
    with (make_no_thrombolysis "N" raw).
  unfold make_no_thrombolysis.
  destruct (S2ThrombolysisNoReason raw) as [code|]; [|reflexivity].
  cbn [series_map]. rewrite !thrombolysis_no_lookup.
  case_bool_decide as Hin.
  - cbn [map no_thrombolysis_codes].
    now destruct (String.eqb code "TNA"), (String.eqb code "OTSH"),
      (String.eqb code "USQE"), (String.eqb code "N").
  - unfold no_thrombolysis_codes in Hin.
    rewrite !not_elem_of_cons in Hin. destruct Hin as (H1 & H2 & H3 & H4 & _).
    apply String.eqb_neq in H1, H2, H3, H4. now rewrite H1, H2, H3, H4.
Qed.

(** *** Severity sub-scores *)

(** X9.  When no raw sub-score is below -1, [nihss_complete] is 0 exactly
    when some raw sub-score is -1. *)
Theorem nihss_complete_zero_iff_some_score_unassessed (raw : RawRecord) :
  Forall valid_score (nihss raw) ->
  (nihss_complete (clean_row raw) = Some 0 <-> In (Some (-1)) (nihss raw)).
Proof.
  intros Hvalid.
  change (nihss_complete (clean_row raw)) with (Some (nihss_complete_of (nihss raw))).
  unfold nihss_complete_of, cell_eq, cmp.
  rewrite Forall_forall in Hvalid.
  destruct (row_min (nihss raw)) as [m|] eqn:E.
  - apply row_min_spec in E as [Hin Hlow].
    destruct (Z.eqb_spec m (-1)) as [->|Hne].
    + tauto.
    + split; [discriminate|]. intros H1. specialize (Hlow _ H1).
      specialize (Hvalid _ (proj2 (list_elem_of_In _ _) Hin)). cbn in Hvalid. lia.
  - split; [discriminate|]. intros H1. now destruct (row_min_None _ E (-1)).
Qed.

(** X10.  A raw sub-score below -1 makes [nihss_complete] 1, whatever the
    other sub-scores are. *)
Theorem nihss_complete_one_when_some_score_below_minus1 (raw : RawRecord) (v : Z) :
  In (Some v) (nihss raw) -> v < -1 ->
  nihss_complete (clean_row raw) = Some 1.
Proof.
  intros Hin Hv.
  change (nihss_complete (clean_row raw)) with (Some (nihss_complete_of (nihss raw))).
  unfold nihss_complete_of, cell_eq, cmp.
  destruct (row_min (nihss raw)) as [m|] eqn:E; [|reflexivity].
  apply row_min_spec in E as [_ Hlow]. specialize (Hlow v Hin).
  destruct (Z.eqb_spec m (-1)); [lia|reflexivity].
Qed.

(** X11.  In the cleaned sub-scores a -1 can stand only in the first
    column, and it stands there exactly when the raw first sub-score is
    -1: the other columns have it replaced by a missing value. *)
Theorem nihss_minus1_survives_only_in_first (raw : RawRecord) (i : nat) :
  nihss_arrival (clean_row raw) !! i = Some (Some (-1))
  <-> i = 0%nat /\ nihss raw !! 0%nat = Some (Some (-1)).
Proof.
  change (nihss_arrival (clean_row raw)) with (nihss_columns (nihss raw)).
  unfold nihss_columns. destruct (nihss raw) as [|loc others].
  - split; [discriminate|now intros [_ ?]].
  - destruct i as [|i].
    + cbn [lookup list_lookup]. tauto.
    + split; [|now intros [? _]].
      change ((loc :: map replace_minus1 others) !! S i)
        with ((replace_minus1 <$> others) !! i).
      rewrite list_lookup_fmap. destruct (others !! i) as [[u|]|]; cbn; try discriminate.
      destruct (Z.eqb_spec u (-1)); [discriminate|]. intros [= ->]. lia.
Qed.

(** *** The properties above on sample rows *)

(** The sample patient, with an infarction and every sub-score 0, has no
    logged issue and is cleaned to the row as derived. *)
Lemma unlogged_sample_row_is_unchanged :
  clean_row (Samples.raw_row (Some "I"%string) (Some "N"%string) (repeat (Some 0) 15))
  = derive (Samples.raw_row (Some "I"%string) (Some "N"%string) (repeat (Some 0) 15)).
Proof.
  apply (unlogged_row_is_unchanged
           (Samples.raw_row (Some "I"%string) (Some "N"%string) (repeat (Some 0) 15))).
  vm_compute. reflexivity.
Defined.

(** A patient who died on day 3 and has no discharge type. *)
Lemma died_without_discharge_type_sample :
  Issues.inconsistent_death (issue_row (Samples.raw_row_died 3)) = true /\
  death (clean_row (Samples.raw_row_died 3)) = None /\
  discharge_disability (clean_row (Samples.raw_row_died 3)) = None /\
  discharge_destination (clean_row (Samples.raw_row_died 3)) = None.
Proof.
  apply (died_without_discharge_type_is_inconsistent (Samples.raw_row_died 3));
    reflexivity.
Defined.

Lemma one_unassessed_score_gives_incomplete :
  nihss_complete
    (clean_row (Samples.raw_row None None Samples.scores_one_unassessed)) = Some 0
  <-> In (Some (-1)) (nihss (Samples.raw_row None None Samples.scores_one_unassessed)).
Proof.
  apply (nihss_complete_zero_iff_some_score_unassessed
           (Samples.raw_row None None Samples.scores_one_unassessed)).
  simpl. repeat constructor; simpl; lia.
Defined.

Lemma score_below_minus1_gives_complete :
  nihss_complete (clean_row (Samples.raw_row None None [Some (-1); Some (-2)])) = Some 1.
Proof.
  apply (nihss_complete_one_when_some_score_below_minus1
           (Samples.raw_row None None [Some (-1); Some (-2)]) (-2)).
  - simpl. right. left. reflexivity.
  - lia.
Defined.

End CleanerInvariants.

(** ** The reformatter: filters, gates, team codes and removed features *)

Section ReformatterInvariants.
Import Reformatter.

(** *** Stripping *)

Lemma rstrip_cons (c : ascii) (s : string) :
  rstrip (String c s)
  = match rstrip s with
    | EmptyString => if is_space c then EmptyString else String c EmptyString
    | t => String c t
    end.
Proof. reflexivity. Qed.

Lemma lstrip_rstrip (s : string) : lstrip (rstrip s) = rstrip (lstrip s).
Proof.
  induction s as [|c s IH]; [reflexivity|].
  rewrite rstrip_cons. cbn [lstrip].
  destruct (is_space c) eqn:Ec.
  - rewrite <- IH. destruct (rstrip s); [reflexivity|]. cbn [lstrip]. now rewrite Ec.
  - rewrite rstrip_cons. destruct (rstrip s); cbn [lstrip]; now rewrite Ec.
Qed.

Lemma lstrip_idemp (s : string) : lstrip (lstrip s) = lstrip s.
Proof.
  induction s as [|c s IH]; [reflexivity|]. cbn [lstrip].
  destruct (is_space c) eqn:Ec; [exact IH|]. cbn [lstrip]. now rewrite Ec.
Qed.

Lemma rstrip_idemp (s : string) : rstrip (rstrip s) = rstrip s.
Proof.
  induction s as [|c s IH]; [reflexivity|]. rewrite rstrip_cons.
  destruct (rstrip s) as [|d t] eqn:E.
  - destruct (is_space c) eqn:Ec; [reflexivity|]. rewrite rstrip_cons. cbn [rstrip].
    now rewrite Ec.
  - rewrite rstrip_cons, IH. reflexivity.
Qed.

Lemma strip_idemp (s : string) : strip (strip s) = strip s.
Proof.
  unfold strip.
  rewrite (lstrip_rstrip s), rstrip_idemp, <- (lstrip_rstrip s). apply lstrip_idemp.
Qed.

(** *** Patient filters *)

(** X12.  The eight patient filters applied one after the other keep, in
    their order, exactly the rows that meet the eight conditions together:
    the result is one filter of the table as loaded. *)
Theorem filter_patients_is_one_filter (all_data : list Row) :
  filter_patients all_data = List.filter patient_kept all_data.
Proof.
  unfold filter_patients. cbv zeta.
  rewrite map_map, !boolean_index_filter, !filter_filter.
  apply List.filter_ext. intros r. unfold patient_kept.
  now rewrite !andb_assoc.
Qed.

(** *** Hospital gates *)

Lemma treatments_filter_team (p : string -> bool) (data : list Row) (t : string) :
  p t = true ->
  treatments (List.filter (fun r => p (stroke_team r)) data) t = treatments data t.
Proof. intros Hp. unfold treatments. now rewrite rows_of_filter_team, Hp. Qed.

Lemma admissions_filter_team (p : string -> bool) (data : list Row) (t : string) :
  p t = true ->
  admissions (List.filter (fun r => p (stroke_team r)) data) t = admissions data t.
Proof. intros Hp. unfold admissions. now rewrite rows_of_filter_team, Hp. Qed.

Lemma filter_hospitals_kept (data : list Row) :
  filter_hospitals data = List.filter (fun r => hospital_kept data (stroke_team r)) data.
Proof.
  rewrite filter_hospitals_spec, filter_filter.
  apply List.filter_ext. intros r. unfold hospital_kept.
  destruct (250 <=? admissions data (stroke_team r)) eqn:Hadm; [|reflexivity].
  cbn [andb]. now rewrite (treatments_filter_team (fun t => 250 <=? admissions data t)).
Qed.

Lemma admission_gate_spec (data : list Row) :
  filter_stroke_team data min_hospital_admission_threshold (stroke_team_admissions data)
  = List.filter (fun r => 250 <=? admissions data (stroke_team r)) data.
Proof. exact (filter_stroke_team_spec data _ (fun g => Z.of_nat (length g))). Qed.

Lemma thrombolysis_gate_spec (data : list Row) :
  filter_stroke_team data min_hospital_thrombolysis_threshold
                     (stroke_team_thrombolysis data)
  = List.filter (fun r => 10 <=? treatments data (stroke_team r)) data.
Proof. exact (filter_stroke_team_spec data _ (fun g => col_sum (map thrombolysis g))). Qed.

(** X13.  The two hospital gates commute: applying the thrombolysis gate
    first and the admission gate to its result keeps the same rows as the
    notebook's order, since a gate drops whole teams and so leaves the totals
    of the teams it keeps as they were. *)
Theorem hospital_gates_commute (data : list Row) :
  let treated :=
    filter_stroke_team data min_hospital_thrombolysis_threshold
                       (stroke_team_thrombolysis data) in
  filter_stroke_team treated min_hospital_admission_threshold
                     (stroke_team_admissions treated)
  = filter_hospitals data.
Proof.
  cbv zeta. rewrite filter_hospitals_kept, thrombolysis_gate_spec, admission_gate_spec.
  rewrite filter_filter. apply List.filter_ext. intros r.
  unfold hospital_kept.
  destruct (10 <=? treatments data (stroke_team r)) eqn:Htr;
    [|now rewrite andb_false_r].
  cbn [andb]. rewrite andb_true_r.
  now rewrite (admissions_filter_team (fun t => 10 <=? treatments data t)).
Qed.

(** X14.  Applying the two hospital gates to their own result removes
    nothing more. *)
Theorem hospital_gates_idempotent (data : list Row) :
  filter_hospitals (filter_hospitals data) = filter_hospitals data.
Proof.
  rewrite (filter_hospitals_kept (filter_hospitals data)).
  apply filter_all. intros r Hr. rewrite filter_hospitals_kept in Hr.
  apply list_elem_of_In, List.filter_In in Hr. destruct Hr as [_ Hk].
  unfold hospital_kept at 1. rewrite filter_hospitals_kept.
  rewrite (admissions_filter_team (hospital_kept data)),
    (treatments_filter_team (hospital_kept data)) by exact Hk.
  exact Hk.
Qed.

Section Output.

Context {rng : Type} (seed : Z -> rng) (randbelow : nat -> rng -> nat * rng)
        (set_order : list string -> list string).

(** The rows of the output are the rows let through by the gates, each
    with its duration edited and the two new features attached. *)
Lemma data_reformat file all_data :
  exists codes : gmap string Z,
    data (reformat seed randbelow set_order file all_data)
    = map (fun r => {| row := edit_scan_to_thrombolysis r;
                       onset_to_thrombolysis_time :=
                         calculate_onset_to_thrombolysis (edit_scan_to_thrombolysis r);
                       stroke_team_id := codes !! stroke_team r |})
          (filter_hospitals (map strip_team (filter_patients all_data))).
Proof.
  eexists. unfold reformat. cbn [data]. rewrite map_map. reflexivity.
Qed.

(** X15.  In the output, the team of every row has at least 250 rows and
    at least 10 thrombolysed patients, counted in the output itself. *)
Theorem output_teams_reach_both_thresholds file all_data (r : CohortRow) :
  r ∈ data (reformat seed randbelow set_order file all_data) ->
  let team_rows :=
    List.filter (fun r' => String.eqb (stroke_team (row r')) (stroke_team (row r)))
                (data (reformat seed randbelow set_order file all_data)) in
  250 <= Z.of_nat (length team_rows) /\
  10 <= col_sum (map (fun r' => thrombolysis (row r')) team_rows).
Proof.
  destruct (data_reformat file all_data) as [codes ->].
  set (D := map strip_team (filter_patients all_data)).
  intros Hr. cbv zeta.
  apply list_elem_of_fmap in Hr. destruct Hr as [x [-> Hx]]. cbn [row].
  change (stroke_team (edit_scan_to_thrombolysis x)) with (stroke_team x).
  rewrite filter_map. cbn [row].
  rewrite (List.filter_ext _ (fun r0 => String.eqb (stroke_team r0) (stroke_team x)))
    by reflexivity.
  rewrite length_map, map_map. cbn [row].
  rewrite (map_ext _ thrombolysis) by reflexivity.
  fold (rows_of (stroke_team x) (filter_hospitals D)).
  rewrite filter_hospitals_kept in Hx |- *.
  apply list_elem_of_In, List.filter_In in Hx. destruct Hx as [_ Hk].
  rewrite (rows_of_filter_team (hospital_kept D)), Hk.
  unfold hospital_kept in Hk. apply andb_true_iff in Hk. destruct Hk as [Ha Ht].
  apply Z.leb_le in Ha, Ht. split; [exact Ha|exact Ht].
Qed.

(** *** Team codes *)

Lemma shuffled_teams_props (data : list Row) :
  is_set_order set_order ->
  NoDup (shuffled_teams seed randbelow set_order data) /\
  (forall t, t ∈ shuffled_teams seed randbelow set_order data
             <-> t ∈ map stroke_team data) /\
  length (shuffled_teams seed randbelow set_order data)
  = length (set_order (map stroke_team data)).
Proof.
  intros Hset. destruct (Hset (map stroke_team data)) as [Hnd Hel].
  unfold shuffled_teams, shuffle. cbv zeta.
  destruct (shuffle_from_props randbelow
              (length (set_order (map stroke_team data)) - 1) (seed 42)
              (set_order (map stroke_team data))) as (Hl & Hn & He).
  split; [now apply Hn|]. split; [|exact Hl].
  intros t. now rewrite He, Hel.
Qed.

Lemma team_code_at (data : list Row) (t : string) (k : nat) :
  is_set_order set_order ->
  shuffled_teams seed randbelow set_order data !! k = Some t ->
  create_teams_code_dict seed randbelow set_order data !! t = Some (Z.of_nat k + 1).
Proof.
  intros Hset Hk. destruct (shuffled_teams_props data Hset) as (Hnd & _ & _).
  unfold create_teams_code_dict, enumerate.
  now rewrite (fill_codes_at t _ 0 ∅ k Hnd Hk).
Qed.

Lemma team_code_none (data : list Row) (t : string) :
  t ∉ shuffled_teams seed randbelow set_order data ->
  create_teams_code_dict seed randbelow set_order data !! t = None.
Proof.
  intros Ht. unfold create_teams_code_dict, enumerate.
  now rewrite fill_codes_other, lookup_empty.
Qed.

(** X16.  With no file of team codes, the dict that is created numbers the
    distinct teams of the table: a name has a code exactly when it is a team
    of the table, the codes lie between 1 and the number of distinct teams,
    two teams never share a code and every number in that range is the code
    of some team; this holds for every generator. *)
Theorem team_codes_number_the_teams (data : list Row) :
  is_set_order set_order ->
  let codes := create_teams_code_dict seed randbelow set_order data in
  let n := Z.of_nat (length (set_order (map stroke_team data))) in
  (forall t, is_Some (codes !! t) <-> t ∈ map stroke_team data) /\
  (forall t c, codes !! t = Some c -> 1 <= c <= n) /\
  (forall t1 t2 c, codes !! t1 = Some c -> codes !! t2 = Some c -> t1 = t2) /\
  (forall c, 1 <= c <= n -> exists t, codes !! t = Some c).
Proof.
  intros Hset. cbv zeta.
  destruct (shuffled_teams_props data Hset) as (Hnd & Hel & Hlen).
  set (s := shuffled_teams seed randbelow set_order data) in *.
  rewrite <- Hlen.
  assert (Hcode : forall t c,
             create_teams_code_dict seed randbelow set_order data !! t = Some c ->
             exists k, s !! k = Some t /\ c = Z.of_nat k + 1).
  { intros t c Hc. destruct (decide (t ∈ s)) as [Hin|Hout].
    - apply list_elem_of_lookup in Hin. destruct Hin as [k Hk].
      rewrite (team_code_at data t k Hset Hk) in Hc. injection Hc as <-. eauto.
    - rewrite (team_code_none data t Hout) in Hc. discriminate. }
  split; [|split; [|split]].
  - intros t. rewrite <- Hel. split.
    + intros [c Hc]. destruct (Hcode t c Hc) as (k & Hk & _).
      apply list_elem_of_lookup. eauto.
    + intros Hin. apply list_elem_of_lookup in Hin. destruct Hin as [k Hk].
      rewrite (team_code_at data t k Hset Hk). eauto.
  - intros t c Hc. destruct (Hcode t c Hc) as (k & Hk & ->).
    apply lookup_lt_Some in Hk. lia.
  - intros t1 t2 c H1 H2.
    destruct (Hcode t1 c H1) as (k1 & Hk1 & E1).
    destruct (Hcode t2 c H2) as (k2 & Hk2 & E2).
    assert (k1 = k2) by lia. subst k2. congruence.
  - intros c Hc.
    destruct (lookup_lt_is_Some_2 s (Z.to_nat (c - 1))) as [t Ht]; [lia|].
    exists t. rewrite (team_code_at data t _ Hset Ht). f_equal. lia.
Qed.

Lemma remove_dups_NoDup {A : Type} `{EqDecision A} (l : list A) :
  NoDup l -> remove_dups l = l.
Proof.
  induction 1 as [|x l Hx Hnd IH]; [reflexivity|].
  cbn [remove_dups]. destruct (decide_rel elem_of x l) as [Hin|_]; [now destruct Hx|].
  now rewrite IH.
Qed.

Lemma omap_imap {A B : Type} (F : A -> option B) (l : list A) :
  forall G : nat -> A -> B,
  (forall k x, l !! k = Some x -> F x = Some (G k x)) -> omap F l = imap G l.
Proof.
  induction l as [|a l IH]; intros G H; [reflexivity|].
  cbn [omap list_omap imap]. rewrite (H 0%nat a eq_refl).
  f_equal. apply IH. intros k x Hk. apply (H (S k) x Hk).
Qed.

Lemma foldl_set_team_code_imap (l : list string) :
  forall (start : nat) (d : gmap string Z),
  (forall t, t ∈ l -> strip t = t) ->
  foldl (fun (d : gmap string Z) (row : string * Z) => <[strip row.1 := row.2]> d) d
        (imap (fun k t => (t, Z.of_nat (start + k) + 1)) l)
  = foldl set_team_code d (zip (seq start (length l)) l).
Proof.
  induction l as [|a l IH]; intros start d Hs; [reflexivity|].
  cbn [imap length seq zip zip_with foldl fst snd].
  rewrite (Hs a) by left. rewrite Nat.add_0_r.
  unfold set_team_code at 2. cbn [fst snd].
  rewrite <- (IH (S start)) by (intros t Ht; apply Hs; now right).
  f_equal. apply imap_ext. intros k t _. cbn. do 2 f_equal. lia.
Qed.

(** The rows written to the file of team codes: the teams in shuffled
    order, each with its position plus one. *)
Lemma teams_code_items_spec (data : list Row) :
  is_set_order set_order ->
  teams_code_items seed randbelow set_order data
  = imap (fun k t => (t, Z.of_nat k + 1)) (shuffled_teams seed randbelow set_order data).
Proof.
  intros Hset. destruct (shuffled_teams_props data Hset) as (Hnd & _ & _).
  unfold teams_code_items. cbv zeta.
  rewrite remove_dups_NoDup by (rewrite <- Permutation_rev; exact Hnd).
  rewrite rev_involutive.
  apply omap_imap. intros k t Hk. now rewrite (team_code_at data t k Hset Hk).
Qed.

Lemma load_written_codes (data : list Row) :
  is_set_order set_order ->
  (forall r, r ∈ data -> strip (stroke_team r) = stroke_team r) ->
  load_teams_code_dict (teams_code_items seed randbelow set_order data)
  = create_teams_code_dict seed randbelow set_order data.
Proof.
  intros Hset Hstrip. rewrite teams_code_items_spec by exact Hset.
  destruct (shuffled_teams_props data Hset) as (_ & Hel & _).
  unfold load_teams_code_dict, create_teams_code_dict, enumerate.
  apply (foldl_set_team_code_imap _ 0 ∅).
  intros t Ht. apply Hel, list_elem_of_fmap in Ht. destruct Ht as [r [-> Hr]].
  now apply Hstrip.
Qed.

Lemma cohort_teams_stripped (all_data : list Row) (r : Row) :
  r ∈ map edit_scan_to_thrombolysis
        (filter_hospitals (map strip_team (filter_patients all_data))) ->
  strip (stroke_team r) = stroke_team r.
Proof.
  intros Hr. apply list_elem_of_fmap in Hr. destruct Hr as [x [-> Hx]].
  apply filter_hospitals_subset, list_elem_of_fmap in Hx. destruct Hx as [y [-> _]].
  cbn [stroke_team edit_scan_to_thrombolysis strip_team]. apply strip_idemp.
Qed.

Section Reload.

Context {rng' : Type} (seed' : Z -> rng') (randbelow' : nat -> rng' -> nat * rng')
        (set_order' : list string -> list string).

(** X17.  A run that is given, as the file of team codes, the rows that a
    first run on the same table wrote, produces the same rows and drops the
    same columns as the first run, and writes no file; the generator and the
    set order of this second run play no part. *)
Theorem saved_team_codes_reproduce_the_output (all_data : list Row)
    (items : list (string * Z)) :
  is_set_order set_order ->
  teams_code_df (reformat seed randbelow set_order None all_data) = Some items ->
  data (reformat seed' randbelow' set_order' (Some items) all_data)
  = data (reformat seed randbelow set_order None all_data) /\
  dropped (reformat seed' randbelow' set_order' (Some items) all_data)
  = dropped (reformat seed randbelow set_order None all_data) /\
  teams_code_df (reformat seed' randbelow' set_order' (Some items) all_data) = None.
Proof.
  intros Hset Hitems. unfold reformat in *. cbv zeta in *.
  cbn [teams_code_df data dropped teams_code_dict] in *.
  injection Hitems as <-.
  rewrite (load_written_codes _ Hset (cohort_teams_stripped all_data)).
  repeat split.
Qed.

End Reload.

(** A row of the output with no file of team codes: its code is the one
    the new dict holds for its team, a team of the table that was coded. *)
Lemma elem_of_reformat_created (all_data : list Row) (r : CohortRow) :
  r ∈ data (reformat seed randbelow set_order None all_data) ->
  let data0 := map edit_scan_to_thrombolysis
                   (filter_hospitals (map strip_team (filter_patients all_data))) in
  stroke_team_id r
  = create_teams_code_dict seed randbelow set_order data0 !! stroke_team (row r) /\
  stroke_team (row r) ∈ map stroke_team data0.
Proof.
  unfold reformat. cbv zeta. cbn [data teams_code_dict]. intros Hr.
  apply list_elem_of_fmap in Hr. destruct Hr as [x [-> Hx]]. cbn [stroke_team_id row].
  split; [reflexivity|]. apply list_elem_of_fmap. now exists x.
Qed.

(** X18.  With no file of team codes, every row of the output has a team
    code, and two rows of the output have the same code exactly when they
    have the same team. *)
Theorem created_team_code_identifies_the_team (all_data : list Row) (r1 r2 : CohortRow) :
  is_set_order set_order ->
  r1 ∈ data (reformat seed randbelow set_order None all_data) ->
  r2 ∈ data (reformat seed randbelow set_order None all_data) ->
  stroke_team_id r1 <> None /\
  (stroke_team_id r1 = stroke_team_id r2
   <-> stroke_team (row r1) = stroke_team (row r2)).
Proof.
  intros Hset H1 H2.
  apply elem_of_reformat_created in H1, H2. cbv zeta in H1, H2.
  destruct H1 as [-> Ht1], H2 as [-> Ht2].
  set (data0 := map edit_scan_to_thrombolysis
                    (filter_hospitals (map strip_team (filter_patients all_data)))) in *.
  destruct (shuffled_teams_props data0 Hset) as (Hnd & Hel & _).
  apply Hel, list_elem_of_lookup in Ht1, Ht2.
  destruct Ht1 as [k1 Hk1], Ht2 as [k2 Hk2].
  rewrite (team_code_at data0 _ k1 Hset Hk1), (team_code_at data0 _ k2 Hset Hk2).
  split; [discriminate|]. split.
  - intros [= E]. assert (k1 = k2) by lia. subst k2. congruence.
  - intros E. rewrite E in Hk1. rewrite NoDup_alt in Hnd.
    now rewrite (Hnd _ _ _ Hk1 Hk2).
Qed.

Lemma load_teams_code_dict_lookup (rows : list (string * Z)) (t : string) :
  load_teams_code_dict rows !! t
  = snd <$> last (List.filter (fun row => String.eqb (strip row.1) t) rows).
Proof.
  unfold load_teams_code_dict.
  assert (H : forall d : gmap string Z,
             foldl (fun d (row : string * Z) => <[strip row.1 := row.2]> d) d rows !! t
             = match last (List.filter (fun row => String.eqb (strip row.1) t) rows) with
               | Some row => Some row.2
               | None => d !! t
               end).
  { induction rows as [|row rows IH]; intros d; [reflexivity|].
    cbn [foldl List.filter]. rewrite IH.
    destruct (String.eqb_spec (strip row.1) t) as [E|E].
    - rewrite last_cons.
      destruct (last (List.filter _ rows)); [reflexivity|].
      now rewrite E, lookup_insert_eq.
    - destruct (last (List.filter _ rows)); [reflexivity|].
      now rewrite lookup_insert_ne. }
  rewrite H, lookup_empty. now destruct (last _).
Qed.

(** X19.  With a file of team codes, the code of a row of the output is
    the code of the last row of the file whose stripped team name is the
    team of the row, and is missing when the file has no such row. *)
Theorem reloaded_team_code_is_last_matching_row
    (rows : list (string * Z)) (all_data : list Row) (r : CohortRow) :
  r ∈ data (reformat seed randbelow set_order (Some rows) all_data) ->
  stroke_team_id r
  = snd <$> last (List.filter
                    (fun kv => String.eqb (strip kv.1) (stroke_team (row r))) rows).
Proof.
  unfold reformat. cbv zeta. cbn [data teams_code_dict]. intros Hr.
  apply list_elem_of_fmap in Hr. destruct Hr as [x [-> Hx]]. cbn [stroke_team_id row].
  apply load_teams_code_dict_lookup.
Qed.

(** *** Removing features *)

Lemma remove_features_fold (data : list CohortRow)
    (cols : list (string * (CohortRow -> cell))) :
  NoDup cols.*1 ->
  forall acc : list string,
  foldl (fun remove_features col =>
           if std_is_zero (map col.2 data)
              && negb (bool_decide (col.1 ∈ remove_features))
           then remove_features ++ [col.1]
           else remove_features) acc cols
  = acc ++ (List.filter (fun col => std_is_zero (map col.2 data)
                                    && negb (bool_decide (col.1 ∈ acc))) cols).*1.
Proof.
  induction cols as [|col cols IH]; intros Hnd acc; [now rewrite app_nil_r|].
  apply NoDup_cons in Hnd. destruct Hnd as [Hcol Hnd].
  cbn [foldl List.filter]. rewrite (IH Hnd).
  destruct (std_is_zero (map col.2 data) && negb (bool_decide (col.1 ∈ acc))) eqn:E;
    [|reflexivity].
  cbn [fmap list_fmap]. rewrite <- app_assoc. cbn [app]. do 3 f_equal.
  apply List.filter_ext_in. intros c Hc. f_equal. f_equal.
  apply bool_decide_ext. rewrite elem_of_app, list_elem_of_singleton.
  split; [|tauto]. intros [H|H]; [exact H|].
  exfalso. apply Hcol. rewrite <- H. apply list_elem_of_fmap. exists c.
  split; [reflexivity|]. now apply list_elem_of_In.
Qed.

Lemma numeric_columns_NoDup : NoDup numeric_columns.*1.
Proof. apply (bool_decide_unpack (NoDup numeric_columns.*1)). vm_compute. exact I. Qed.

(** X20.  The features removed are the fourteen listed features, in
    their order, followed by the numeric columns of standard deviation 0
    that are not listed, in the order of the columns. *)
Theorem remove_features_listed_then_constant (data : list CohortRow) :
  remove_features data
  = remove_features_listed
    ++ (List.filter
          (fun col => std_is_zero (map col.2 data)
                      && negb (bool_decide (col.1 ∈ remove_features_listed)))
          numeric_columns).*1.
Proof. unfold remove_features. apply remove_features_fold, numeric_columns_NoDup. Qed.

Lemma std_is_zero_constant (col : list cell) (v : Z) :
  (2 <= length col)%nat -> Forall (fun c => c = Some v) col -> std_is_zero col = true.
Proof.
  intros Hlen Hall. unfold std_is_zero.
  assert (E : omap (fun c : cell => c) col = repeat v (length col)).
  { clear Hlen. induction Hall as [|c col -> _ IH]; [reflexivity|].
    cbn [omap list_omap length repeat]. now rewrite IH. }
  rewrite E. destruct (length col) as [|[|n]]; [lia|lia|].
  change (forallb (Z.eqb v) (repeat v (S n)) = true).
  apply forallb_forall. intros x Hx. apply repeat_spec in Hx. subst x.
  apply Z.eqb_refl.
Qed.

Lemma std_is_zero_short (col : list cell) :
  (length col < 2)%nat -> std_is_zero col = false.
Proof.
  intros Hlen. unfold std_is_zero.
  destruct col as [|c [|c' col]]; [reflexivity| |cbn in Hlen; lia].
  now destruct c.
Qed.

Lemma dropped_reformat file all_data :
  dropped (reformat seed randbelow set_order file all_data)
  = remove_features (data (reformat seed randbelow set_order file all_data)).
Proof. unfold reformat. cbv zeta. cbn [dropped data]. reflexivity. Qed.

(** X21.  An output of two rows or more loses the columns [infarction]
    and [arrive_by_ambulance], which the patient filters made constant; from
    an output of fewer than two rows only the listed features are removed,
    the standard deviation of a column of fewer than two values not being
    0. *)
Theorem constant_cohort_columns_are_removed file all_data :
  let out := reformat seed randbelow set_order file all_data in
  ((2 <= length (data out))%nat ->
   "infarction"%string ∈ dropped out /\ "arrive_by_ambulance"%string ∈ dropped out) /\
  ((length (data out) < 2)%nat -> dropped out = remove_features_listed).
Proof.
  cbv zeta.
  rewrite dropped_reformat. unfold remove_features.
  rewrite (remove_features_fold _ _ numeric_columns_NoDup).
  set (out := data (reformat seed randbelow set_order file all_data)).
  assert (Hrows : forall r, r ∈ out ->
                    infarction (row r) = Some 1 /\ arrive_by_ambulance (row r) = Some 1).
  { intros r Hr. apply elem_of_reformat in Hr. destruct Hr as (r0 & Hin & -> & _).
    apply filter_patients_spec in Hin.
    destruct Hin as (_ & _ & Hi & Ha & _). cbn.
    unfold cell_eq, cmp in Hi, Ha.
    destruct (infarction r0) as [i|]; [|discriminate].
    destruct (arrive_by_ambulance r0) as [a|]; [|discriminate].
    apply Z.eqb_eq in Hi, Ha. now subst. }
  split.
  - intros Hlen.
    assert (H1 : std_is_zero (map (fun r => infarction (row r)) out) = true).
    { apply (std_is_zero_constant _ 1); [now rewrite length_map|].
      apply Forall_forall. intros c Hc. apply list_elem_of_fmap in Hc.
      destruct Hc as [r [-> Hr]]. apply (Hrows r Hr). }
    assert (H2 : std_is_zero (map (fun r => arrive_by_ambulance (row r)) out) = true).
    { apply (std_is_zero_constant _ 1); [now rewrite length_map|].
      apply Forall_forall. intros c Hc. apply list_elem_of_fmap in Hc.
      destruct Hc as [r [-> Hr]]. apply (Hrows r Hr). }
    split; apply elem_of_app; right; apply list_elem_of_fmap.
    + exists ("infarction"%string, fun r => infarction (row r)).
      split; [reflexivity|]. apply list_elem_of_In, List.filter_In.
      split; [now left|]. cbn [fst snd]. now rewrite H1.
    + exists ("arrive_by_ambulance"%string, fun r => arrive_by_ambulance (row r)).
      split; [reflexivity|]. apply list_elem_of_In, List.filter_In.
      split; [cbn; tauto|]. cbn [fst snd]. now rewrite H2.
  - intros Hlen.
    rewrite (List.filter_ext _ (fun _ => false)).
    + replace (List.filter (fun _ => false) numeric_columns) with
        (@nil (string * (CohortRow -> cell))) by reflexivity.
      apply app_nil_r.
    + intros col. rewrite std_is_zero_short; [reflexivity|now rewrite length_map].
Qed.

End Output.

(** *** The properties above on the sample tables *)

Lemma treated_patient_team_reaches_thresholds :
  let out := data (reformat Samples.seed0 Samples.randbelow0 remove_dups None
                            Samples.two_sites) in
  let team_rows :=
    List.filter (fun r' => String.eqb (stroke_team (row r'))
                                      (stroke_team (row Samples.treated_cohort_row)))
                out in
  250 <= Z.of_nat (length team_rows) /\
  10 <= col_sum (map (fun r' => thrombolysis (row r')) team_rows).
Proof.
  apply (output_teams_reach_both_thresholds
           Samples.seed0 Samples.randbelow0 remove_dups None Samples.two_sites
           Samples.treated_cohort_row treated_cohort_row_in_output).
Defined.

Lemma team_codes_of_two_passing_sites :
  let codes := create_teams_code_dict Samples.seed0 Samples.randbelow0 remove_dups
                 Samples.two_passing_sites in
  let n := Z.of_nat (length (remove_dups (map stroke_team Samples.two_passing_sites))) in
  (forall t, is_Some (codes !! t) <-> t ∈ map stroke_team Samples.two_passing_sites) /\
  (forall t c, codes !! t = Some c -> 1 <= c <= n) /\
  (forall t1 t2 c, codes !! t1 = Some c -> codes !! t2 = Some c -> t1 = t2) /\
  (forall c, 1 <= c <= n -> exists t, codes !! t = Some c).
Proof.
  apply (team_codes_number_the_teams Samples.seed0 Samples.randbelow0 remove_dups
           Samples.two_passing_sites remove_dups_is_set_order).
Defined.

(** The file written for the two passing sites, read by a run whose set
    order is the reverse one. *)
Lemma saved_team_codes_of_two_passing_sites :
  data (reformat Samples.seed0 Samples.randbelow0 (fun l => rev (remove_dups l))
                 (Some [("B"%string, 1); ("A"%string, 2)]) Samples.two_passing_sites)
  = data (reformat Samples.seed0 Samples.randbelow0 remove_dups None
                   Samples.two_passing_sites) /\
  dropped (reformat Samples.seed0 Samples.randbelow0 (fun l => rev (remove_dups l))
                    (Some [("B"%string, 1); ("A"%string, 2)]) Samples.two_passing_sites)
  = dropped (reformat Samples.seed0 Samples.randbelow0 remove_dups None
                      Samples.two_passing_sites) /\
  teams_code_df (reformat Samples.seed0 Samples.randbelow0 (fun l => rev (remove_dups l))
                          (Some [("B"%string, 1); ("A"%string, 2)])
                          Samples.two_passing_sites) = None.
Proof.
  apply (saved_team_codes_reproduce_the_output
           Samples.seed0 Samples.randbelow0 remove_dups
           Samples.seed0 Samples.randbelow0 (fun l => rev (remove_dups l))
           Samples.two_passing_sites [("B"%string, 1); ("A"%string, 2)]
           remove_dups_is_set_order).
  vm_compute. reflexivity.
Defined.

Lemma treated_patient_has_a_team_code :
  stroke_team_id Samples.treated_cohort_row <> None /\
  (stroke_team_id Samples.treated_cohort_row = stroke_team_id Samples.treated_cohort_row
   <-> stroke_team (row Samples.treated_cohort_row)
       = stroke_team (row Samples.treated_cohort_row)).
Proof.
  apply (created_team_code_identifies_the_team
           Samples.seed0 Samples.randbelow0 remove_dups Samples.two_sites
           Samples.treated_cohort_row Samples.treated_cohort_row
           remove_dups_is_set_order
           treated_cohort_row_in_output treated_cohort_row_in_output).
Defined.

(** A file that names team B twice, with blanks around the name: the second
    row gives the code. *)
Lemma team_code_of_twice_listed_team :
  stroke_team_id Samples.treated_cohort_row_7 = Some 7.
Proof.
  apply (reloaded_team_code_is_last_matching_row
           Samples.seed0 Samples.randbelow0 remove_dups
           [(" B"%string, 3); ("B "%string, 7)] Samples.two_sites
           Samples.treated_cohort_row_7).
  vm_compute. apply list_elem_of_here.
Defined.

Lemma constant_columns_of_two_sites :
  "infarction"%string
    ∈ dropped (reformat Samples.seed0 Samples.randbelow0 remove_dups None
                        Samples.two_sites) /\
  "arrive_by_ambulance"%string
    ∈ dropped (reformat Samples.seed0 Samples.randbelow0 remove_dups None
                        Samples.two_sites).
Proof.
  apply (proj1 (constant_cohort_columns_are_removed
                  Samples.seed0 Samples.randbelow0 remove_dups None Samples.two_sites)).
  vm_compute. lia.
Defined.

End ReformatterInvariants.

(** ** The fold splitter: what is saved, and how the strata are spread *)

Section FoldSplitterInvariants.
Import FoldSplitter.

Lemma rows_at_seq {A : Type} (X : list A) : rows_at X (seq 0 (length X)) = X.
Proof.
  unfold rows_at.
  assert (H : forall pre : list A,
             omap (fun i => (pre ++ X) !! i) (seq (length pre) (length X)) = X).
  { induction X as [|x X IH]; intros pre; [reflexivity|].
    cbn [length seq omap list_omap].
    rewrite (list_lookup_middle pre X x (length pre) eq_refl).
    f_equal. specialize (IH (pre ++ [x])).
    rewrite length_app, <- app_assoc in IH. cbn [length app] in IH.
    now rewrite Nat.add_1_r in IH. }
  exact (H []).
Qed.

Lemma rows_at_Permutation {A : Type} (X : list A) (index : list nat) :
  index ≡ₚ seq 0 (length X) -> rows_at X index ≡ₚ X.
Proof.
  intros H. unfold rows_at. rewrite H. fold (rows_at X (seq 0 (length X))).
  now rewrite rows_at_seq.
Qed.

Lemma rows_at_concat {A : Type} (X : list A) (indexes : list (list nat)) :
  concat (map (rows_at X) indexes) = rows_at X (concat indexes).
Proof.
  induction indexes as [|index indexes IH]; [reflexivity|].
  cbn [map concat]. rewrite IH. unfold rows_at. now rewrite omap_app.
Qed.

Lemma stratum_of_five_or_none (y : list string) :
  (forall c, (count_occ string_dec y c < 5)%nat)
  \/ exists c, (5 <= count_occ string_dec y c)%nat.
Proof.
  destruct (decide (Exists (fun c => (5 <= count_occ string_dec y c)%nat) y)) as [H|H].
  - right. apply Exists_exists in H. destruct H as (c & _ & Hc). eauto.
  - left. intros c. destruct (le_lt_dec 5 (count_occ string_dec y c)) as [Hc|Hc];
      [|exact Hc].
    exfalso. apply H, Exists_exists. exists c. split; [|exact Hc].
    apply list_elem_of_In, (count_occ_In string_dec). lia.
Qed.

Section Splits.

Context {rng : Type} (random_state : Z -> rng)
        (rng_shuffle : rng -> list nat -> list nat * rng)
        (np_empty : nat -> list nat).

Hypothesis rng_shuffle_perm : forall g a, (rng_shuffle g a).1 ≡ₚ a.
Hypothesis np_empty_length : forall n, length (np_empty n) = n.

(** The tables saved, from the array of fold numbers. *)
Lemma kfold_from_test_folds (data : list Row) (c : string) :
  (5 <= count_occ string_dec (strat data) c)%nat ->
  exists tf : list nat,
    length tf = length data /\ Forall (fun t => (t < 5)%nat) tf /\
    kfold random_state rng_shuffle np_empty data
    = Some (map (fun index => (rows_at data index.1, rows_at data index.2))
                (map (index_pair (seq 0 (length tf))) (_iter_test_masks 5 tf))).
Proof.
  intros Hc.
  destruct (make_test_folds_spec random_state rng_shuffle np_empty
              rng_shuffle_perm np_empty_length 4 (strat data) c Hc)
    as (tf & Htf & Hlen & Hlt).
  assert (HN : length tf = length data).
  { rewrite Hlen. unfold strat. apply length_map. }
  exists tf. split; [exact HN|]. split; [exact Hlt|].
  unfold kfold, split, number_of_splits. rewrite Htf, HN. cbn [mbind option_bind].
  destruct (Nat.ltb_spec (length data) 5) as [Hsmall|_]; [|reflexivity].
  pose proof (count_occ_bound string_dec c (strat data)) as Hb.
  rewrite <- Hlen, HN in Hb. lia.
Qed.

(** X22.  The splitter raises, and no fold is saved, exactly when no
    stratum (team and outcome) has five rows. *)
Theorem kfold_fails_iff_no_stratum_of_five (data : list Row) :
  kfold random_state rng_shuffle np_empty data = None
  <-> forall c, (count_occ string_dec (strat data) c < 5)%nat.
Proof.
  split.
  - intros Hnone. destruct (stratum_of_five_or_none (strat data)) as [H|[c Hc]];
      [exact H|].
    destruct (kfold_from_test_folds data c Hc) as (tf & _ & _ & E).
    rewrite E in Hnone. discriminate.
  - apply no_fold_without_a_stratum_of_five.
Qed.

(** X23.  When folds are saved there are five pairs of tables; the five
    test tables together hold the rows of the table, each as often as the
    table does, and so do the train and the test table of each fold. *)
Theorem saved_folds_partition_the_table (data : list Row)
    (tables : list (list Row * list Row)) :
  kfold random_state rng_shuffle np_empty data = Some tables ->
  length tables = 5%nat /\
  concat (map snd tables) ≡ₚ data /\
  Forall (fun table => table.1 ++ table.2 ≡ₚ data) tables.
Proof.
  intros Hk.
  destruct (stratum_of_five_or_none (strat data)) as [H|[c Hc]].
  { rewrite (no_fold_without_a_stratum_of_five _ _ _ data H) in Hk. discriminate. }
  destruct (kfold_from_test_folds data c Hc) as (tf & HN & Hlt & E).
  assert (Ht : tables
               = map (fun index => (rows_at data index.1, rows_at data index.2))
                     (map (index_pair (seq 0 (length tf))) (_iter_test_masks 5 tf)))
    by congruence.
  subst tables. clear Hk E.
  split; [|split].
  - unfold _iter_test_masks. now rewrite !length_map, length_seq.
  - rewrite map_map. cbn [snd].
    rewrite <- (map_map (fun index : list nat * list nat => index.2) (rows_at data)).
    rewrite rows_at_concat. apply rows_at_Permutation.
    rewrite <- HN. apply test_partitions_cover, Hlt.
  - apply Forall_forall. intros table Ht.
    apply list_elem_of_fmap in Ht. destruct Ht as [index [-> Hi]].
    apply list_elem_of_fmap in Hi. destruct Hi as [mask [-> Hm]].
    apply list_elem_of_fmap in Hm. destruct Hm as [i [-> _]].
    cbn [fst snd]. unfold rows_at. rewrite <- omap_app.
    apply rows_at_Permutation. rewrite <- HN. apply train_complements_test.
Qed.

End Splits.
End FoldSplitterInvariants.

Section Stratification.
Import FoldSplitter.

(** *** A stride of a sorted array *)

Lemma count_occ_stride_none (k n : nat) (a : list nat) :
  k ∉ a -> forall i, count_occ Nat.eq_dec (stride i n a) k = 0%nat.
Proof.
  induction a as [|x a IH]; intros Hk i; [reflexivity|].
  apply not_elem_of_cons in Hk. destruct Hk as [Hx Hk].
  cbn [stride]. destruct i as [|i]; [|now apply IH].
  rewrite count_occ_cons_neq by congruence. now apply IH.
Qed.

Lemma stride_skip (k n : nat) (A : list nat) :
  (0 < n)%nat -> k ∉ A ->
  forall i, (i < n)%nat ->
  exists i', (i' < n)%nat /\
    forall rest, count_occ Nat.eq_dec (stride i n (A ++ rest)) k
                 = count_occ Nat.eq_dec (stride i' n rest) k.
Proof.
  intros Hn. induction A as [|x A IH]; intros Hk i Hi; [now exists i|].
  apply not_elem_of_cons in Hk. destruct Hk as [Hx Hk].
  destruct i as [|i].
  - destruct (IH Hk (n - 1)%nat ltac:(lia)) as (i' & Hi' & E).
    exists i'. split; [exact Hi'|]. intros rest. cbn [app stride].
    rewrite count_occ_cons_neq by congruence. apply E.
  - destruct (IH Hk i ltac:(lia)) as (i' & Hi' & E).
    exists i'. split; [exact Hi'|]. intros rest. cbn [app stride]. apply E.
Qed.

Lemma stride_block (k n : nat) (B : list nat) :
  (0 < n)%nat -> k ∉ B ->
  forall c i, (i < n)%nat ->
  count_occ Nat.eq_dec (stride i n (repeat k c ++ B)) k = ((c + n - 1 - i) / n)%nat.
Proof.
  intros Hn Hk. induction c as [|c IH]; intros i Hi.
  - cbn [repeat app]. rewrite count_occ_stride_none by exact Hk.
    symmetry. apply Nat.div_small. lia.
  - cbn [repeat app stride]. destruct i as [|i].
    + rewrite count_occ_cons_eq by reflexivity. rewrite IH by lia.
      replace (S c + n - 1 - 0)%nat with (c + 1 * n)%nat by lia.
      rewrite Nat.div_add by lia.
      replace (c + n - 1 - (n - 1))%nat with c by lia. lia.
    + rewrite IH by lia. f_equal. lia.
Qed.

Lemma sorted_block (k : nat) (L : list nat) :
  StronglySorted le L ->
  exists A c B, L = A ++ repeat k c ++ B /\
                Forall (fun x => (x < k)%nat) A /\ Forall (fun x => (k < x)%nat) B.
Proof.
  induction 1 as [|x L Hs IH Hx].
  - exists [], 0%nat, []. repeat split; constructor.
  - destruct IH as (A & c & B & -> & HA & HB).
    destruct (lt_eq_lt_dec x k) as [[Hlt|Heq]|Hgt].
    + exists (x :: A), c, B. repeat split; [now constructor|exact HB].
    + subst x. assert (A = []) as ->.
      { destruct A as [|a A]; [reflexivity|]. exfalso.
        inversion HA; subst. inversion Hx; subst. lia. }
      exists [], (S c), B. repeat split; [constructor|exact HB].
    + assert (A = []) as ->.
      { destruct A as [|a A]; [reflexivity|]. exfalso.
        inversion HA; subst. inversion Hx; subst. lia. }
      assert (c = 0%nat) as ->.
      { destruct c as [|c]; [reflexivity|]. exfalso.
        cbn in Hx. inversion Hx; subst. lia. }
      exists [], 0%nat, (x :: B). repeat split; [constructor|].
      constructor; [exact Hgt|exact HB].
Qed.

Lemma stride_sorted_bounds (k n i : nat) (L : list nat) :
  StronglySorted le L -> (i < n)%nat ->
  (count_occ Nat.eq_dec L k / n <= count_occ Nat.eq_dec (stride i n L) k
   <= (count_occ Nat.eq_dec L k + n - 1) / n)%nat.
Proof.
  intros Hs Hi. destruct (sorted_block k L Hs) as (A & c & B & -> & HA & HB).
  assert (HkA : k ∉ A).
  { intros H. rewrite Forall_forall in HA. specialize (HA k H). lia. }
  assert (HkB : k ∉ B).
  { intros H. rewrite Forall_forall in HB. specialize (HB k H). lia. }
  assert (Hcount : count_occ Nat.eq_dec (A ++ repeat k c ++ B) k = c).
  { rewrite !count_occ_app.
    rewrite (proj1 (count_occ_not_In Nat.eq_dec A k))
      by (intros H; apply HkA; now apply list_elem_of_In).
    rewrite (proj1 (count_occ_not_In Nat.eq_dec B k))
      by (intros H; apply HkB; now apply list_elem_of_In).
    rewrite count_occ_repeat_eq by reflexivity. lia. }
  rewrite Hcount.
  destruct (stride_skip k n A ltac:(lia) HkA i Hi) as (i' & Hi' & ->).
  rewrite stride_block by (try exact HkB; lia).
  split; apply Nat.Div0.div_le_mono; lia.
Qed.

(** *** The values written by the loop over the classes *)

Lemma mask_assign_values (k : nat) (enc : list nat) :
  forall tf vals tf',
  mask_assign tf (map (Nat.eqb k) enc) vals = Some tf' ->
  boolean_index tf' (map (Nat.eqb k) enc) = vals /\
  length tf' = length tf /\
  forall k', k' <> k ->
    boolean_index tf' (map (Nat.eqb k') enc) = boolean_index tf (map (Nat.eqb k') enc).
Proof.
  induction enc as [|e enc IH]; intros tf vals tf' H.
  - destruct tf as [|t tf]; [|discriminate].
    destruct vals; [|discriminate]. injection H as <-. now repeat split.
  - destruct tf as [|t tf]; [discriminate|].
    cbn [map mask_assign] in H.
    destruct (Nat.eqb_spec k e) as [<-|Hne].
    + destruct vals as [|v vals]; [discriminate|].
      destruct (mask_assign tf (map (Nat.eqb k) enc) vals) as [tf0|] eqn:E;
        [|discriminate].
      injection H as <-. destruct (IH _ _ _ E) as (Hv & Hl & Ho).
      cbn [map boolean_index length]. rewrite Nat.eqb_refl.
      split; [now rewrite Hv|]. split; [now rewrite Hl|].
      intros k' Hk'. rewrite (proj2 (Nat.eqb_neq k' k) Hk'). now apply Ho.
    + destruct (mask_assign tf (map (Nat.eqb k) enc) vals) as [tf0|] eqn:E;
        [|discriminate].
      injection H as <-. destruct (IH _ _ _ E) as (Hv & Hl & Ho).
      cbn [map boolean_index length]. rewrite (proj2 (Nat.eqb_neq k e) Hne).
      split; [exact Hv|]. split; [now rewrite Hl|].
      intros k' Hk'. rewrite (Ho k' Hk'). reflexivity.
Qed.

Lemma count_occ_flat_map_repeat (f : nat -> nat) (i : nat) :
  forall len start,
  count_occ Nat.eq_dec (flat_map (fun i => repeat i (f i)) (seq start len)) i
  = if decide (start <= i < start + len)%nat then f i else 0%nat.
Proof.
  induction len as [|len IH]; intros start.
  - cbn. case_decide; [lia|reflexivity].
  - cbn [seq flat_map]. rewrite count_occ_app, IH.
    destruct (decide (start = i)) as [->|Hne].
    + rewrite count_occ_repeat_eq by reflexivity.
      repeat case_decide; lia.
    + rewrite count_occ_repeat_neq by congruence.
      repeat case_decide; lia.
Qed.

Section Loop.

Context {rng : Type} (random_state : Z -> rng)
        (rng_shuffle : rng -> list nat -> list nat * rng)
        (np_empty : nat -> list nat).

Hypothesis rng_shuffle_perm : forall g a, (rng_shuffle g a).1 ≡ₚ a.
Hypothesis np_empty_length : forall n, length (np_empty n) = n.

Lemma assign_classes_values (n : nat) (enc : list nat) (allocation : list (list nat))
    (ks : list nat) :
  NoDup ks ->
  forall (g : rng) (tf tf' : list nat),
  assign_classes rng_shuffle n enc allocation ks g tf = Some tf' ->
  length tf' = length tf /\
  (forall k, k ∈ ks ->
     boolean_index tf' (map (Nat.eqb k) enc)
     ≡ₚ flat_map (fun i => repeat i (nth k (nth i allocation []) O)) (seq 0 n)) /\
  (forall k, k ∉ ks ->
     boolean_index tf' (map (Nat.eqb k) enc) = boolean_index tf (map (Nat.eqb k) enc)).
Proof.
  induction ks as [|k ks IH]; intros Hnd g tf tf' H.
  - injection H as <-. split; [reflexivity|]. split; [|reflexivity].
    intros k Hk. now apply elem_of_nil in Hk.
  - apply NoDup_cons in Hnd. destruct Hnd as [Hk Hnd].
    cbn [assign_classes] in H.
    pose proof (rng_shuffle_perm g
      (flat_map (fun i => repeat i (nth k (nth i allocation []) O)) (seq 0 n))) as Hperm.
    destruct (rng_shuffle g _) as [fs g']. cbn [fst] in Hperm.
    destruct (mask_assign tf (map (Nat.eqb k) enc) fs) as [tf1|] eqn:E;
      [|discriminate].
    cbn [mbind option_bind] in H.
    destruct (mask_assign_values k enc _ _ _ E) as (Hv & Hl & Ho).
    destruct (IH Hnd g' tf1 tf' H) as (Hl' & Hin & Hout).
    split; [congruence|]. split.
    + intros k' Hk'. apply elem_of_cons in Hk'. destruct Hk' as [->|Hk'].
      * rewrite (Hout k Hk), Hv. exact Hperm.
      * now apply Hin.
    + intros k' Hk'. apply not_elem_of_cons in Hk'. destruct Hk' as [Hne Hk'].
      rewrite (Hout k' Hk'). now apply Ho.
Qed.

Lemma make_test_folds_counts (m : nat) (y : list string) (tf : list nat) :
  _make_test_folds random_state rng_shuffle np_empty (S m) y = Some tf ->
  length tf = length y /\
  forall k i, (k < length (classes y))%nat -> (i < S m)%nat ->
    (count_occ Nat.eq_dec (y_encoded y) k / S m
     <= count_occ Nat.eq_dec (boolean_index tf (map (Nat.eqb k) (y_encoded y))) i
     <= (count_occ Nat.eq_dec (y_encoded y) k + m) / S m)%nat.
Proof.
  unfold _make_test_folds. cbv zeta.
  destruct (forallb _ _); [discriminate|].
  intros H. apply assign_classes_values in H; [|apply NoDup_seq].
  destruct H as (Hl & Hin & _). rewrite np_empty_length in Hl.
  split; [exact Hl|]. intros k i Hk Hi.
  rewrite (proj1 (Permutation_count_occ Nat.eq_dec _ _)
             (Hin k ltac:(apply elem_of_seq; lia)) i).
  rewrite count_occ_flat_map_repeat, decide_True by lia.
  rewrite (nth_map_seq _ [] (S m) i Hi).
  unfold bincount. rewrite (nth_map_seq _ O _ k Hk).
  pose proof (stride_sorted_bounds k (S m) i (merge_sort le (y_encoded y))) as Hb.
  rewrite (proj1 (Permutation_count_occ Nat.eq_dec _ _)
             (merge_sort_Permutation le (y_encoded y)) k) in Hb.
  replace (count_occ Nat.eq_dec (y_encoded y) k + m)%nat
    with (count_occ Nat.eq_dec (y_encoded y) k + S m - 1)%nat by lia.
  apply Hb; [|exact Hi].
  apply StronglySorted_merge_sort; typeclasses eauto.
Qed.

(** *** From the fold numbers to the saved tables *)

Lemma boolean_index_map {A B : Type} (f : A -> B) (l : list A) :
  forall mask, boolean_index (map f l) mask = map f (boolean_index l mask).
Proof.
  induction l as [|x l IH]; intros [|b mask]; cbn; try reflexivity.
  destruct b; cbn; now rewrite IH.
Qed.

Lemma rows_at_boolean_index {A : Type} (X : list A) (mask : list bool) :
  rows_at X (boolean_index (seq 0 (length X)) mask) = boolean_index X mask.
Proof.
  unfold rows_at.
  assert (H : forall (pre : list A) mask,
             omap (fun i => (pre ++ X) !! i)
                  (boolean_index (seq (length pre) (length X)) mask)
             = boolean_index X mask).
  { clear mask. induction X as [|x X IH]; intros pre mask; [reflexivity|].
    cbn [length seq]. destruct mask as [|b mask]; [reflexivity|].
    specialize (IH (pre ++ [x]) mask).
    rewrite length_app, <- app_assoc in IH. cbn [length app] in IH.
    rewrite Nat.add_1_r in IH.
    cbn [boolean_index]. destruct b; [|exact IH].
    cbn [omap list_omap].
    rewrite (list_lookup_middle pre X x (length pre) eq_refl). now rewrite IH. }
  exact (H [] mask).
Qed.

Lemma cross_count (k i : nat) (enc : list nat) :
  forall tf, length tf = length enc ->
  count_occ Nat.eq_dec (boolean_index tf (map (Nat.eqb k) enc)) i
  = count_occ Nat.eq_dec (boolean_index enc (map (Nat.eqb i) tf)) k.
Proof.
  induction enc as [|e enc IH]; intros [|t tf] Hlen; try discriminate; [reflexivity|].
  injection Hlen as Hlen. cbn [map boolean_index].
  destruct (Nat.eqb_spec k e) as [->|Hk], (Nat.eqb_spec i t) as [->|Hi].
  - rewrite !count_occ_cons_eq by reflexivity. now rewrite IH.
  - rewrite count_occ_cons_neq by congruence. now apply IH.
  - rewrite count_occ_cons_neq by congruence. now apply IH.
  - now apply IH.
Qed.

Lemma count_occ_test_stratum (y : list string) (mask : list bool) (c : string) :
  c ∈ y ->
  count_occ Nat.eq_dec (boolean_index (y_encoded y) mask) (index_of c (classes y))
  = count_occ string_dec (boolean_index y mask) c.
Proof.
  intros Hc. unfold y_encoded. rewrite boolean_index_map.
  apply (count_occ_map_inj string_dec Nat.eq_dec (fun c => index_of c (classes y))).
  intros x Hx E. apply (index_of_inj x c (classes y)); [|exact E].
  apply elem_of_classes. eapply elem_of_boolean_index_mask, Hx.
Qed.

(** X24.  Stratification: of a stratum of c rows, every test table holds
    the quotient of c by 5 rounded down or rounded up. *)
Theorem each_stratum_is_spread_over_the_folds (data : list Row)
    (tables : list (list Row * list Row)) (i : nat) (train test : list Row)
    (c : string) :
  kfold random_state rng_shuffle np_empty data = Some tables ->
  tables !! i = Some (train, test) ->
  (count_occ string_dec (strat data) c / 5
   <= count_occ string_dec (strat test) c
   <= (count_occ string_dec (strat data) c + 4) / 5)%nat.
Proof.
  unfold kfold, split, number_of_splits. intros Hk Hi.
  destruct (length data <? 5)%nat; [discriminate|].
  destruct (_make_test_folds _ _ _ 5 (strat data)) as [tf|] eqn:Etf; [|discriminate].
  cbn [mbind option_bind] in Hk.
  assert (Ht : tables
               = map (fun index => (rows_at data index.1, rows_at data index.2))
                     (map (index_pair (seq 0 (length data))) (_iter_test_masks 5 tf)))
    by congruence.
  subst tables. clear Hk.
  destruct (make_test_folds_counts 4 (strat data) tf Etf) as (Hlen & Hcounts).
  assert (HN : length tf = length data).
  { rewrite Hlen. unfold strat. apply length_map. }
  rewrite !list_lookup_fmap in Hi. unfold _iter_test_masks in Hi.
  rewrite list_lookup_fmap in Hi.
  destruct (seq 0 5 !! i) as [i'|] eqn:Ei; [|discriminate].
  apply lookup_seq in Ei. destruct Ei as [-> Hi5]. cbn in Hi.
  injection Hi as _ <-.
  fold (rows_at data (boolean_index (seq 0 (length data)) (map (Nat.eqb i) tf))).
  rewrite rows_at_boolean_index.
  replace (strat (boolean_index data (map (Nat.eqb i) tf)))
    with (boolean_index (strat data) (map (Nat.eqb i) tf))
    by (unfold strat; apply boolean_index_map).
  destruct (decide (c ∈ strat data)) as [Hc|Hc].
  - assert (Hck : count_occ Nat.eq_dec (y_encoded (strat data))
                                (index_of c (classes (strat data)))
                  = count_occ string_dec (strat data) c).
    { unfold y_encoded.
      apply (count_occ_map_inj string_dec Nat.eq_dec
               (fun c => index_of c (classes (strat data)))).
      intros x Hx E. apply (index_of_inj x c (classes (strat data))); [|exact E].
      now apply elem_of_classes. }
    rewrite <- Hck, <- (count_occ_test_stratum (strat data) _ c Hc).
    rewrite <- cross_count by (rewrite Hlen; unfold y_encoded; now rewrite length_map).
    apply Hcounts; [|lia]. apply index_of_lt, elem_of_classes, Hc.
  - rewrite (proj1 (count_occ_not_In string_dec (strat data) c))
      by (intros H; apply Hc; now apply list_elem_of_In).
    rewrite (proj1 (count_occ_not_In string_dec _ c)); [cbn; lia|].
    intros H. apply Hc. apply list_elem_of_In in H.
    eapply elem_of_boolean_index_mask, H.
Qed.

End Loop.
End Stratification.

(** ** The fold splitter on the sample tables *)

Section FoldSplitterSamples.
Import FoldSplitter.

Lemma kfold_of_seven_patients_does_not_fail :
  kfold Samples.random_state0 Samples.rng_shuffle0 Samples.np_empty0
        Samples.seven_patients = None
  <-> forall c, (count_occ string_dec (strat Samples.seven_patients) c < 5)%nat.
Proof.
  apply (kfold_fails_iff_no_stratum_of_five
           Samples.random_state0 Samples.rng_shuffle0 Samples.np_empty0
           (fun g a => reflexivity a) (fun n => repeat_length O n)
           Samples.seven_patients).
Defined.

Lemma saved_folds_of_seven_patients :
  let tables :=
    default [] (kfold Samples.random_state0 Samples.rng_shuffle0 Samples.np_empty0
                      Samples.seven_patients) in
  length tables = 5%nat /\
  concat (map snd tables) ≡ₚ Samples.seven_patients /\
  Forall (fun table => table.1 ++ table.2 ≡ₚ Samples.seven_patients) tables.
Proof.
  apply (saved_folds_partition_the_table
           Samples.random_state0 Samples.rng_shuffle0 Samples.np_empty0
           (fun g a => reflexivity a) (fun n => repeat_length O n)
           Samples.seven_patients).
  vm_compute. reflexivity.
Defined.

(** The stratum of five patients gives one patient to each test table. *)
Lemma stratum_of_five_in_first_test_table :
  let tables :=
    default [] (kfold Samples.random_state0 Samples.rng_shuffle0 Samples.np_empty0
                      Samples.seven_patients) in
  let fold0 := default ([], []) (tables !! 0%nat) in
  (count_occ string_dec (strat Samples.seven_patients) "A-2.0" / 5
   <= count_occ string_dec (strat fold0.2) "A-2.0"
   <= (count_occ string_dec (strat Samples.seven_patients) "A-2.0" + 4) / 5)%nat.
Proof.
  apply (each_stratum_is_spread_over_the_folds
           Samples.random_state0 Samples.rng_shuffle0 Samples.np_empty0
           (fun g a => reflexivity a) (fun n => repeat_length O n)
           Samples.seven_patients
           (default [] (kfold Samples.random_state0 Samples.rng_shuffle0
                              Samples.np_empty0 Samples.seven_patients))
           0%nat
           (default ([], []) (default [] (kfold Samples.random_state0
              Samples.rng_shuffle0 Samples.np_empty0 Samples.seven_patients) !! 0%nat)).1
           (default ([], []) (default [] (kfold Samples.random_state0
              Samples.rng_shuffle0 Samples.np_empty0 Samples.seven_patients) !! 0%nat)).2
           "A-2.0"%string).
  - vm_compute. reflexivity.
  - vm_compute. reflexivity.
Defined.

End FoldSplitterSamples.

(** ** The cleaner: derived columns *)

Section CleanerDerivations.
Import Cleaner.

(** *** Ambulance time stamps *)

Lemma sub_Some (a b : cell) (v : Z) :
  sub a b = Some v -> exists x y, a = Some x /\ b = Some y /\ v = x - y.
Proof. destruct a as [x|], b as [y|]; try discriminate. intros [= <-]. eauto. Qed.

(** X25.  When the four ambulance durations of a row survive the cleaning,
    the four raw time stamps they were derived from are present and in
    chronological order, call connected before arrival at the patient before
    departure before wheels stop, none after the arrival at hospital; the
    four durations add up to the time from the call to the arrival. *)
Theorem kept_ambulance_times_are_chronological (raw : RawRecord)
    (call scene travel wait : Z) :
  amb_col (clean_row raw) = [Some call; Some scene; Some travel; Some wait] ->
  exists t_call t_at_patient t_departure t_wheels_stop,
    CallConnectedtoArrivalMinutes raw = Some t_call /\
    ArrivalPatientLocationtoArrivalMinutes raw = Some t_at_patient /\
    DeparturePatientLocationtoArrivalMinutes raw = Some t_departure /\
    WheelsStoptoArrivalMinutes raw = Some t_wheels_stop /\
    t_call < t_at_patient < t_departure /\ t_departure < t_wheels_stop <= 0 /\
    call + scene + travel + wait = - t_call.
Proof.
  unfold clean_row. rewrite amb_col_later_passes, clean_ambulance_amb_col.
  destruct (ambulance_flagged (derive raw)) eqn:E; [discriminate|].
  intros Hcol.
  destruct (unflagged_ambulance_times _ E)
    as (a & b & c & d & Hc & Ha & Hb & Hcc & Hd & _).
  rewrite Hcol in Hc. injection Hc as <- <- <- <-.
  unfold amb_col in Hcol. cbn [derive call_to_ambulance_arrival_time
    ambulance_on_scene_time ambulance_travel_to_hospital_time
    ambulance_wait_time_at_hospital] in Hcol.
  injection Hcol as H1 H2 H3 H4.
  change (sub (Some 0) (WheelsStoptoArrivalMinutes raw) = Some wait) in H4.
  apply sub_Some in H1, H2, H3, H4.
  destruct H1 as (x1 & y1 & E1 & F1 & ->), H2 as (x2 & y2 & E2 & F2 & ->),
    H3 as (x3 & y3 & E3 & F3 & ->), H4 as (x4 & y4 & E4 & F4 & ->).
  exists y1, x1, x2, x3. rewrite F1, E1, E2, E3.
  rewrite E1 in F2. rewrite E2 in F3. rewrite E3 in F4.
  injection F2 as <-. injection F3 as <-. injection F4 as <-. injection E4 as <-.
  repeat split; lia.
Qed.

(** *** Atrial fibrillation *)

Lemma marker_entries_indicator (d : dict string Z) :
  d = comorbid_marker \/ d = new_afib ->
  map_Forall (fun _ v => v = 0 \/ v = 1) (entries d).
Proof.
  intros [-> | ->]; apply map_Forall_lookup; intros k v Hlk; cbn in Hlk;
    repeat (apply lookup_insert_Some in Hlk; destruct Hlk as [[_ <-] | [_ Hlk]];
            [auto|]);
    rewrite lookup_empty in Hlk; discriminate.
Qed.

(** X26.  [any_afib_diagnosis] is 1 exactly when the prior or the new
    diagnosis is 1; it is 0 exactly when neither is 1 and one of them is 0;
    it is missing exactly when both are missing. *)
Theorem any_afib_is_either_diagnosis (raw : RawRecord) :
  let c := clean_row raw in
  (any_afib_diagnosis c = Some 1
   <-> atrial_fibrillation c = Some 1 \/ new_afib_diagnosis c = Some 1) /\
  (any_afib_diagnosis c = Some 0
   <-> atrial_fibrillation c <> Some 1 /\ new_afib_diagnosis c <> Some 1 /\
       (atrial_fibrillation c = Some 0 \/ new_afib_diagnosis c = Some 0)) /\
  (any_afib_diagnosis c = None
   <-> atrial_fibrillation c = None /\ new_afib_diagnosis c = None).
Proof.
  cbv zeta.
  change (any_afib_diagnosis (clean_row raw))
    with (row_max [series_map comorbid_marker (S2CoMAtrialFibrillation raw);
                   series_map new_afib (S2NewAFDiagnosis raw)]).
  change (atrial_fibrillation (clean_row raw))
    with (series_map comorbid_marker (S2CoMAtrialFibrillation raw)).
  change (new_afib_diagnosis (clean_row raw))
    with (series_map new_afib (S2NewAFDiagnosis raw)).
  pose proof (series_map_indicator comorbid_marker (S2CoMAtrialFibrillation raw)
                (marker_entries_indicator _ (or_introl eq_refl)) I) as Ha.
  pose proof (series_map_indicator new_afib (S2NewAFDiagnosis raw)
                (marker_entries_indicator _ (or_intror eq_refl))
                (or_introl eq_refl)) as Hn.
  destruct Ha as [-> | [-> | ->]], Hn as [-> | [-> | ->]]; cbn;
    repeat split; intros; try discriminate; try tauto; try congruence;
    intuition discriminate.
Qed.

(** *** The saved table *)

(** X27.  Every row of the saved cleaned table is the cleaned row of a raw
    row whose stroke type is I or PIH, with [infarction] 1 or 0
    accordingly. *)
Theorem saved_rows_have_a_stroke_type (raw_data : list RawRecord) (c : CleanRecord) :
  c ∈ (saved raw_data).1 ->
  exists raw, raw ∈ raw_data /\ c = clean_row raw /\
    ((S2StrokeType raw = Some "I"%string /\ infarction c = Some 1) \/
     (S2StrokeType raw = Some "PIH"%string /\ infarction c = Some 0)).
Proof.
  unfold saved. cbn [fst]. rewrite new_cleaned_data_filter.
  intros Hc. apply list_elem_of_fmap in Hc. destruct Hc as [raw [-> Hraw]].
  apply list_elem_of_In, List.filter_In in Hraw. destruct Hraw as [Hin Hset].
  exists raw. split; [now apply list_elem_of_In|]. split; [reflexivity|].
  apply negb_true_iff, stroke_type_unset_raw in Hset.
  rewrite infarction_clean_row. destruct Hset as [-> | ->]; [left|right];
    split; reflexivity.
Qed.

(** *** Age *)

Lemma idxmax_cons (c : cell) (row : list cell) :
  idxmax (c :: row)
  = match c, idxmax row with
    | Some v, Some (j, w) => if w <=? v then Some (O, v) else Some (S j, w)
    | Some v, None => Some (O, v)
    | None, Some (j, w) => Some (S j, w)
    | None, None => None
    end.
Proof. reflexivity. Qed.

Lemma idxmax_None (row : list cell) :
  idxmax row = None <-> Forall (fun c => c = None) row.
Proof.
  induction row as [|c row IH]; [split; [constructor|reflexivity]|].
  rewrite idxmax_cons, Forall_cons. destruct c as [v|].
  - destruct (idxmax row) as [[j w]|]; [destruct (w <=? v)|];
      split; try discriminate; intros [? _]; discriminate.
  - destruct (idxmax row) as [[j w]|].
    + split; [discriminate|]. intros [_ H]. apply IH in H. discriminate.
    + split; [|reflexivity]. intros _. split; [reflexivity|]. now apply IH.
Qed.

Lemma idxmax_first_maximum (row : list cell) (k : nat) (v : Z) :
  idxmax row = Some (k, v) ->
  row !! k = Some (Some v) /\
  (forall j w, row !! j = Some (Some w) -> w <= v) /\
  (forall j w, (j < k)%nat -> row !! j = Some (Some w) -> w < v).
Proof.
  revert k v. induction row as [|c row IH]; intros k v; [discriminate|].
  rewrite idxmax_cons. destruct c as [u|].
  - destruct (idxmax row) as [[j w]|] eqn:E.
    + destruct (IH j w eq_refl) as (Hk & Hmax & Hfirst).
      destruct (Z.leb_spec w u) as [Hle|Hlt]; intros [= <- <-].
      * split; [reflexivity|]. split; [|intros j' w' Hj'; lia].
        intros [|j'] w' Hj'; [injection Hj' as <-; lia|].
        specialize (Hmax j' w' Hj'). lia.
      * split; [exact Hk|]. split.
        -- intros [|j'] w' Hj'; [injection Hj' as <-; lia|]. now apply (Hmax j').
        -- intros [|j'] w' Hlt' Hj'; [injection Hj' as <-; lia|].
           apply (Hfirst j'); [lia|exact Hj'].
    + intros [= <- <-]. split; [reflexivity|].
      apply idxmax_None in E. rewrite Forall_forall in E.
      split.
      * intros [|j'] w' Hj'; [injection Hj' as <-; lia|].
        apply (list_elem_of_lookup_2 row j'), E in Hj'. discriminate.
      * intros j' w' Hj'. lia.
  - destruct (idxmax row) as [[j w]|] eqn:E; [|discriminate].
    destruct (IH j w eq_refl) as (Hk & Hmax & Hfirst). intros [= <- <-].
    split; [exact Hk|]. split.
    + intros [|j'] w' Hj'; [discriminate|]. now apply (Hmax j').
    + intros [|j'] w' Hlt' Hj'; [discriminate|].
      apply (Hfirst j'); [lia|exact Hj'].
Qed.

Lemma idxmax_unique (row : list cell) (k : nat) (v : Z) :
  row !! k = Some (Some v) ->
  (forall j w, row !! j = Some (Some w) -> w <= v) ->
  (forall j w, (j < k)%nat -> row !! j = Some (Some w) -> w < v) ->
  idxmax row = Some (k, v).
Proof.
  intros Hk Hmax Hfirst.
  destruct (idxmax row) as [[k' v']|] eqn:E.
  - destruct (idxmax_first_maximum row k' v' E) as (Hk' & Hmax' & Hfirst').
    pose proof (Hmax k' v' Hk'). pose proof (Hmax' k v Hk).
    assert (v' = v) by lia. subst v'.
    destruct (lt_eq_lt_dec k k') as [[Hlt| ->]|Hgt]; [|reflexivity|].
    + specialize (Hfirst' k v Hlt Hk). lia.
    + specialize (Hfirst k' v Hgt Hk'). lia.
  - apply idxmax_None in E. rewrite Forall_forall in E.
    apply list_elem_of_lookup_2, E in Hk. discriminate.
Qed.

Lemma ages_find (k : nat) :
  (k < 12)%nat ->
  (band ← fst <$> ages !! k; snd <$> List.find (fun kv => String.eqb kv.1 band) ages)
  = snd <$> ages !! k.
Proof.
  intros Hk. do 12 (destruct k as [|k]; [reflexivity|]). lia.
Qed.

(** X28.  The age of a row is the midpoint of the first age band that
    holds the largest value of the twelve band columns, missing values
    skipped: with several bands flagged it is the lowest of them, with no
    band flagged it is the first band; it is missing exactly when the twelve
    values are missing. *)
Theorem age_is_midpoint_of_first_maximal_band (bands : list cell) :
  length bands = 12%nat ->
  (age bands = None <-> Forall (fun c => c = None) bands) /\
  (forall k v,
     bands !! k = Some (Some v) ->
     (forall j w, bands !! j = Some (Some w) -> w <= v) ->
     (forall j w, (j < k)%nat -> bands !! j = Some (Some w) -> w < v) ->
     age_band bands = fst <$> ages !! k /\ age bands = snd <$> ages !! k).
Proof.
  intros Hlen. split.
  - rewrite <- idxmax_None. unfold age, age_band.
    destruct (idxmax bands) as [[k v]|] eqn:E; [|tauto].
    split; [|discriminate]. cbn [mbind option_bind fst].
    destruct (idxmax_first_maximum bands k v E) as (Hk & _).
    apply lookup_lt_Some in Hk.
    assert (Hk12 : (k < 12)%nat) by (rewrite <- Hlen; exact Hk).
    rewrite (ages_find k Hk12).
    do 12 (destruct k as [|k]; [discriminate|]). lia.
  - intros k v Hk Hmax Hfirst.
    unfold age, age_band. rewrite (idxmax_unique bands k v Hk Hmax Hfirst).
    cbn [mbind option_bind fst]. split; [reflexivity|].
    apply ages_find. apply lookup_lt_Some in Hk. rewrite <- Hlen. exact Hk.
Qed.

(** *** Column names *)

Lemma lower_not_upper (c : ascii) : isupper (lower c) = false.
Proof.
  destruct c as [[] [] [] [] [] [] [] []]; vm_compute; reflexivity.
Qed.

Lemma no_upper_snake_join (s : string) : no_upper (snake_join s) = true.
Proof.
  induction s as [|c s IH]; [reflexivity|]. cbn [snake_join].
  destruct (isupper c) eqn:E; cbn [no_upper].
  - now rewrite lower_not_upper, IH.
  - now rewrite E, IH.
Qed.

Lemma no_upper_lstrip_underscore (s : string) :
  no_upper s = true -> no_upper (lstrip_underscore s) = true.
Proof.
  induction s as [|c s IH]; [reflexivity|]. cbn [lstrip_underscore].
  destruct (Ascii.eqb c "_"); [|trivial].
  cbn [no_upper]. intros H. apply andb_true_iff in H. now apply IH.
Qed.

Lemma snake_join_no_upper (s : string) : no_upper s = true -> snake_join s = s.
Proof.
  induction s as [|c s IH]; [reflexivity|]. cbn [no_upper snake_join].
  intros H. apply andb_true_iff in H. destruct H as [Hc Hs].
  apply negb_true_iff in Hc. now rewrite Hc, IH.
Qed.

Lemma lstrip_underscore_idemp (s : string) :
  lstrip_underscore (lstrip_underscore s) = lstrip_underscore s.
Proof.
  induction s as [|c s IH]; [reflexivity|]. cbn [lstrip_underscore].
  destruct (Ascii.eqb c "_") eqn:E; [exact IH|]. cbn [lstrip_underscore].
  now rewrite E.
Qed.

(** X29.  On ASCII text, [camel_to_snake] returns a name with no upper
    case letter that does not start with an underscore, and leaves such a
    name as it is. *)
Theorem camel_to_snake_gives_a_snake_name (str : string) :
  no_upper (camel_to_snake str) = true /\
  (forall s, camel_to_snake str <> String "_" s) /\
  camel_to_snake (camel_to_snake str) = camel_to_snake str.
Proof.
  unfold camel_to_snake.
  assert (Hno : no_upper (lstrip_underscore (snake_join str)) = true)
    by apply no_upper_lstrip_underscore, no_upper_snake_join.
  split; [exact Hno|]. split.
  - intros s. generalize (snake_join str). intros t.
    induction t as [|c t IH]; [discriminate|]. cbn [lstrip_underscore].
    destruct (Ascii.eqb c "_") eqn:E; [exact IH|].
    intros [= -> _]. discriminate E.
  - rewrite (snake_join_no_upper _ Hno). apply lstrip_underscore_idemp.
Qed.


(** *** The properties above on sample rows *)

Lemma sample_ambulance_times_are_chronological :
  exists t_call t_at_patient t_departure t_wheels_stop,
    CallConnectedtoArrivalMinutes (Samples.raw_row None None []) = Some t_call /\
    ArrivalPatientLocationtoArrivalMinutes (Samples.raw_row None None [])
    = Some t_at_patient /\
    DeparturePatientLocationtoArrivalMinutes (Samples.raw_row None None [])
    = Some t_departure /\
    WheelsStoptoArrivalMinutes (Samples.raw_row None None []) = Some t_wheels_stop /\
    t_call < t_at_patient < t_departure /\ t_departure < t_wheels_stop <= 0 /\
    10 + 20 + 25 + 5 = - t_call.
Proof.
  apply (kept_ambulance_times_are_chronological (Samples.raw_row None None [])
           10 20 25 5).
  reflexivity.
Defined.

Lemma first_saved_row_has_a_stroke_type :
  exists raw, raw ∈ Samples.raw_two_patients /\
    clean_row (Samples.raw_row (Some "I"%string) (Some "N"%string)
                               Samples.scores_one_unassessed) = clean_row raw /\
    ((S2StrokeType raw = Some "I"%string /\
      infarction (clean_row (Samples.raw_row (Some "I"%string) (Some "N"%string)
                                             Samples.scores_one_unassessed)) = Some 1) \/
     (S2StrokeType raw = Some "PIH"%string /\
      infarction (clean_row (Samples.raw_row (Some "I"%string) (Some "N"%string)
                                             Samples.scores_one_unassessed)) = Some 0)).
Proof.
  apply (saved_rows_have_a_stroke_type Samples.raw_two_patients
           (clean_row (Samples.raw_row (Some "I"%string) (Some "N"%string)
                                       Samples.scores_one_unassessed))).
  vm_compute. apply list_elem_of_here.
Defined.

(** A row with the bands 45 to 49 and 55 to 59 both flagged. *)
Lemma age_of_two_flagged_bands :
  (age Samples.two_age_bands = None
   <-> Forall (fun c => c = None) Samples.two_age_bands) /\
  (forall k v,
     Samples.two_age_bands !! k = Some (Some v) ->
     (forall j w, Samples.two_age_bands !! j = Some (Some w) -> w <= v) ->
     (forall j w, (j < k)%nat -> Samples.two_age_bands !! j = Some (Some w) -> w < v) ->
     age_band Samples.two_age_bands = fst <$> ages !! k /\
     age Samples.two_age_bands = snd <$> ages !! k).
Proof.
  apply (age_is_midpoint_of_first_maximal_band Samples.two_age_bands).
  reflexivity.
Defined.

Example age_of_two_flagged_bands_is_the_lower :
  age_band Samples.two_age_bands = Some "Age45to49"%string /\
  age Samples.two_age_bands = Some 47.5%Q /\
  age (repeat (Some 0) 12) = Some 37.5%Q.
Proof. repeat split; reflexivity. Qed.

End CleanerDerivations.

(** ** The reformatter: the rows of the output *)

Section ReformatterOutput.
Import Reformatter.

Context {rng : Type} (seed : Z -> rng) (randbelow : nat -> rng -> nat * rng)
        (set_order : list string -> list string).

Lemma cell_ge_true (c : cell) (z : Z) :
  cell_ge c z = true <-> exists v, c = Some v /\ z <= v.
Proof.
  destruct c as [v|]; cbn; [|split; [discriminate|now intros (? & ? & _)]].
  rewrite Z.geb_le. split; [eauto|]. now intros (? & [= <-] & ?).
Qed.

Lemma cell_eq_true (c : cell) (z : Z) : cell_eq c z = true <-> c = Some z.
Proof.
  destruct c as [v|]; cbn; [|split; discriminate].
  rewrite Z.eqb_eq. split; congruence.
Qed.

(** X30.  Every row of the output meets the patient conditions: arrival in
    2016 or later, an infarction, arrival by ambulance, no thrombectomy, a
    recorded disability before the stroke and at discharge, a known onset
    time; its team name has no blank at either end. *)
Theorem output_rows_meet_the_patient_conditions file all_data (r : CohortRow) :
  r ∈ data (reformat seed randbelow set_order file all_data) ->
  (exists y, year (row r) = Some y /\ 2016 <= y) /\
  infarction (row r) = Some 1 /\
  arrive_by_ambulance (row r) = Some 1 /\
  thrombectomy (row r) = Some 0 /\
  (exists d, prior_disability (row r) = Some d /\ 0 <= d) /\
  (exists d, discharge_disability (row r) = Some d /\ 0 <= d) /\
  onset_known (row r) = Some 1 /\
  strip (stroke_team (row r)) = stroke_team (row r).
Proof.
  intros Hr. apply elem_of_reformat in Hr. destruct Hr as (r0 & Hin & -> & _).
  apply filter_patients_spec in Hin.
  destruct Hin as (_ & Hy & Hi & Ha & Ht & Hp & Hd & _ & Hk).
  cbn [edit_scan_to_thrombolysis strip_team year infarction arrive_by_ambulance
       thrombectomy prior_disability discharge_disability onset_known stroke_team].
  rewrite cell_ge_true in Hy, Hp, Hd. rewrite cell_eq_true in Hi, Ha, Ht, Hk.
  repeat split; try assumption. apply strip_idemp.
Qed.

End ReformatterOutput.

Lemma treated_patient_meets_the_patient_conditions :
  (exists y, Reformatter.year (Reformatter.row Samples.treated_cohort_row) = Some y
             /\ 2016 <= y) /\
  Reformatter.infarction (Reformatter.row Samples.treated_cohort_row) = Some 1 /\
  Reformatter.arrive_by_ambulance (Reformatter.row Samples.treated_cohort_row) = Some 1 /\
  Reformatter.thrombectomy (Reformatter.row Samples.treated_cohort_row) = Some 0 /\
  (exists d, Reformatter.prior_disability (Reformatter.row Samples.treated_cohort_row)
             = Some d /\ 0 <= d) /\
  (exists d, Reformatter.discharge_disability (Reformatter.row Samples.treated_cohort_row)
             = Some d /\ 0 <= d) /\
  Reformatter.onset_known (Reformatter.row Samples.treated_cohort_row) = Some 1 /\
  strip (Reformatter.stroke_team (Reformatter.row Samples.treated_cohort_row))
  = Reformatter.stroke_team (Reformatter.row Samples.treated_cohort_row).
Proof.
  apply (output_rows_meet_the_patient_conditions
           Samples.seed0 Samples.randbelow0 remove_dups None Samples.two_sites
           Samples.treated_cohort_row treated_cohort_row_in_output).
Defined.
